(** * OpenBlink WebIDE: firmware deployment over BLE

    A shallow embedding of [web-ide/blink.js] (MTU negotiation, chunked
    Data-frame transfer, Program frame) and of [crc16_reflect], with the
    properties of the deployment protocol proved over it. *)

From Stdlib Require Import ZArith List Lia Bool String Ascii.
From Stdlib Require Import Strings.Byte.
From Stdlib Require Import DecimalString HexadecimalString.
Import ListNotations.
Local Open Scope Z_scope.

(** ** JavaScript numbers, integer fragment

    Every number the modelled functions handle is an integer, so a Number
    is a [Z].  The bitwise operators first convert their operands to 32-bit
    integers; the conversions are written out. *)
Module JS.

Definition toUint32 (x : Z) : Z := x mod 2 ^ 32.

Definition toInt32 (x : Z) : Z :=
  let u := x mod 2 ^ 32 in
  if u <? 2 ^ 31 then u else u - 2 ^ 32.

Definition toUint16 (x : Z) : Z := x mod 2 ^ 16.

Definition toUint8 (x : Z) : Z := x mod 2 ^ 8.

(** [a ^ b] *)
Definition bxor (a b : Z) : Z := Z.lxor (toInt32 a) (toInt32 b).

(** [a & b] *)
Definition band (a b : Z) : Z := Z.land (toInt32 a) (toInt32 b).

(** [a >>> n] *)
Definition ushr (a n : Z) : Z := Z.shiftr (toUint32 a) (toUint32 n mod 32).

(** Truthiness of a number: everything but zero. *)
Definition truthy (a : Z) : bool := negb (a =? 0).

(** [Math.min] *)
Definition min (a b : Z) : Z := Z.min a b.

End JS.

(** ** Bytes of a [Uint8Array] / [ArrayBuffer] *)

Definition Z_of_byte (b : byte) : Z := Z.of_N (Byte.to_N b).

Definition byte_of_Z (z : Z) : byte :=
  match Byte.of_N (Z.to_N (JS.toUint8 z)) with
  | Some b => b
  | None => x00
  end.

(** ** [crc16_reflect] *)

(** The inner [for (j = 0; j < 8; j++)] loop, [n] iterations of it. *)
Fixpoint crc16_bits (poly : Z) (n : nat) (crc : Z) : Z :=
  match n with
  | O => crc
  | S n' =>
      let crc' :=
        if JS.truthy (JS.band crc 0x0001)
        then JS.bxor (JS.ushr crc 1) poly
        else JS.ushr crc 1 in
      crc16_bits poly n' crc'
  end.

(** One iteration of the outer loop: [crc ^= src[i]], then the inner loop. *)
Definition crc16_byte (poly : Z) (crc : Z) (b : byte) : Z :=
  crc16_bits poly 8 (JS.bxor crc (Z_of_byte b)).

(** The outer loop, [i] running over [src] from the first byte. *)
Definition crc16_bytes (poly : Z) (crc : Z) (src : list byte) : Z :=
  fold_left (crc16_byte poly) src crc.

Definition crc16_reflect (poly seed : Z) (src : list byte) : Z :=
  JS.band (crc16_bytes poly seed src) 0xffff.

(** The reference algorithm in the words of the design: a 16-bit
    accumulator, each byte XORed into its low byte, eight rounds of
    shift-right with a conditional XOR of the polynomial, and a final
    16-bit mask. *)
Module Reference.

Definition mask16 (x : Z) : Z := x mod 65536.

Definition xor_low_byte (acc b : Z) : Z :=
  256 * (acc / 256) + Z.lxor (acc mod 256) b.

Definition round (poly acc : Z) : Z :=
  if Z.testbit acc 0
  then mask16 (Z.lxor (acc / 2) poly)
  else acc / 2.

Definition step (poly acc : Z) (b : byte) : Z :=
  Nat.iter 8 (round poly) (xor_low_byte acc (Z_of_byte b)).

Definition checksum (poly seed : Z) (buf : list byte) : Z :=
  mask16 (fold_left (step poly) buf seed).

End Reference.


(** ** Exceptions and completions

    A call completes normally, throws, or (a loop that is given too little
    fuel) has not finished yet. *)

Inductive JsError : Type :=
| RangeError
| TypeError
| WriteError.   (* the rejection of a GATT write *)

Inductive Completion (A : Type) : Type :=
| Normal (a : A)
| Throw (e : JsError)
| OutOfFuel.

Arguments Normal {A} a.
Arguments Throw {A} e.
Arguments OutOfFuel {A}.

(** ** [ArrayBuffer], [DataView] and [Uint8Array] *)

Definition ArrayBuffer := list byte.

Fixpoint list_update {A : Type} (l : list A) (i : nat) (x : A) : list A :=
  match l, i with
  | [], _ => []
  | _ :: t, O => x :: t
  | h :: t, S i' => h :: list_update t i' x
  end.

Definition byteLength (buf : ArrayBuffer) : Z := Z.of_nat (List.length buf).

(** [new ArrayBuffer(n)]: zero-filled; a negative length is a RangeError. *)
Definition newArrayBuffer (n : Z) : Completion ArrayBuffer :=
  if n <? 0 then Throw RangeError
  else Normal (repeat x00 (Z.to_nat n)).

Module DataView.

(** [view.setUint8(i, v)] *)
Definition setUint8 (buf : ArrayBuffer) (i v : Z) : Completion ArrayBuffer :=
  if (0 <=? i) && (i + 1 <=? byteLength buf)
  then Normal (list_update buf (Z.to_nat i) (byte_of_Z v))
  else Throw RangeError.

(** [view.setUint16(i, v, true)]: little-endian, [v] taken modulo 2^16. *)
Definition setUint16 (buf : ArrayBuffer) (i v : Z) : Completion ArrayBuffer :=
  if (0 <=? i) && (i + 2 <=? byteLength buf)
  then
    let v16 := JS.toUint16 v in
    Normal (list_update
              (list_update buf (Z.to_nat i) (byte_of_Z v16))
              (Z.to_nat i + 1) (byte_of_Z (v16 / 256)))
  else Throw RangeError.

(** [view.getUint16(i, true)] *)
Definition getUint16 (buf : ArrayBuffer) (i : Z) : Completion Z :=
  if (0 <=? i) && (i + 2 <=? byteLength buf)
  then
    Normal (Z_of_byte (nth (Z.to_nat i) buf x00)
            + 256 * Z_of_byte (nth (Z.to_nat i + 1) buf x00))
  else Throw RangeError.

End DataView.

Module Uint8Array.

(** A relative index of [subarray], clamped to the array. *)
Definition clampIndex (len i : Z) : Z :=
  if i <? 0 then Z.max (len + i) 0 else Z.min i len.

(** [src.subarray(b, e)] *)
Definition subarray (src : list byte) (b e : Z) : list byte :=
  let len := Z.of_nat (List.length src) in
  let b' := clampIndex len b in
  let e' := clampIndex len e in
  firstn (Z.to_nat (Z.max (e' - b') 0)) (skipn (Z.to_nat b') src).

(** [new Uint8Array(buffer, byteOffset, length).set(src)]: the view must
    lie inside the buffer and [src] must fit the view. *)
Definition set_view (buf : ArrayBuffer) (byteOffset length : Z)
    (src : list byte) : Completion ArrayBuffer :=
  if (0 <=? byteOffset) && (0 <=? length)
     && (byteOffset + length <=? byteLength buf)
     && (Z.of_nat (List.length src) <=? length)
  then Normal (firstn (Z.to_nat byteOffset) buf ++ src
               ++ skipn (Z.to_nat byteOffset + List.length src) buf)
  else Throw RangeError.

End Uint8Array.

(** ** The BLE channel

    A write on a characteristic is a promise that resolves or rejects; which
    of the two is the channel's decision, here a function of the writes
    attempted so far and of the buffer. *)

Inductive WriteKind : Type :=
| WithoutResponse   (* writeValueWithoutResponse *)
| WithResponse.     (* writeValue *)

Record Attempt : Type := {
  att_kind : WriteKind;
  att_data : list byte;
  att_ok : bool
}.

Record GattServer : Type := {
  (** [requestMTU]: absent, or a method that throws ([None]) or grants. *)
  requestMTU : option (Z -> option Z)
}.

Record Characteristic : Type := {
  writeWithoutResponse : bool;   (* properties.writeWithoutResponse *)
  resolves : list Attempt -> WriteKind -> list byte -> bool;
  gatt : GattServer              (* service.device.gatt *)
}.

Record MtuCharacteristic : Type := {
  (** [readValue()]: rejects ([None]) or yields the bytes of a DataView. *)
  readValue : option (list byte)
}.

(** ** Module state *)

Definition MAX_CHUNK_SIZE : Z := 20.
Definition DATA_HEADER_SIZE : Z := 6.
(** The module-level constant; [sendFirmware] shadows it with its own. *)
Definition DATA_PAYLOAD_SIZE : Z := MAX_CHUNK_SIZE - DATA_HEADER_SIZE.
Definition PROGRAM_HEADER_SIZE : Z := 8.
Definition DEFAULT_MTU : Z := 20.
Definition REQUESTED_MTU : Z := 512.

Inductive Level : Type := Log | Warn | Error.

Record World : Type := {
  programCharacteristic : option Characteristic;
  negotiatedMtuCharacteristic : option MtuCharacteristic;
  negotiatedMTU : Z;
  consoleOutput : list string;       (* the lines of [#consoleOutput] *)
  devlog : list (Level * string);    (* console.log / warn / error *)
  wire : list Attempt;               (* the writes made on the channel *)
  pending : list (Completion unit)   (* the [sendReload()] calls started and
                                        not awaited, each with how the write
                                        it waits on settles: what follows
                                        their [await] has not run yet *)
}.

Definition initialWorld : World := {|
  programCharacteristic := None;
  negotiatedMtuCharacteristic := None;
  negotiatedMTU := DEFAULT_MTU;
  consoleOutput := [];
  devlog := [];
  wire := [];
  pending := []
|}.

(** ** A state monad with exceptions *)

Definition M (A : Type) : Type := World -> Completion A * World.

Definition ret {A : Type} (a : A) : M A := fun w => (Normal a, w).

Definition bind {A B : Type} (m : M A) (f : A -> M B) : M B :=
  fun w =>
    match m w with
    | (Normal a, w') => f a w'
    | (Throw e, w') => (Throw e, w')
    | (OutOfFuel, w') => (OutOfFuel, w')
    end.

Definition outOfFuel {A : Type} : M A := fun w => (OutOfFuel, w).

Definition lift {A : Type} (c : Completion A) : M A := fun w => (c, w).

(** [try { m } catch (error) { h }] *)
Definition try_catch {A : Type} (m : M A) (h : JsError -> M A) : M A :=
  fun w =>
    match m w with
    | (Throw e, w') => h e w'
    | r => r
    end.

Declare Scope js_scope.
Delimit Scope js_scope with js.
Notation "x <- m ;; k" := (bind m (fun x => k))
  (at level 61, m at next level, right associativity) : js_scope.
Notation "m ;; k" := (bind m (fun _ => k))
  (at level 61, right associativity) : js_scope.
Local Open Scope js_scope.

(** ** Strings *)

(** [`${n}`] for an integer Number. *)
Definition num (n : Z) : string :=
  DecimalString.NilZero.string_of_int (Z.to_int n).

(** [n.toString(16)] for a non-negative integer. *)
Definition hex (n : Z) : string :=
  HexadecimalString.NilZero.string_of_uint (N.to_hex_uint (Z.to_N n)).

Definition isWhiteSpace (c : ascii) : bool :=
  let n := nat_of_ascii c in
  ((9 <=? n) && (n <=? 13))%nat || (n =? 32)%nat.

(** Strings hold UTF-8.  The white space and line terminators of ECMAScript
    beyond ASCII, by their encodings: U+00A0 in two bytes; U+1680,
    U+2000..U+200A, U+2028, U+2029, U+202F, U+205F, U+3000 and U+FEFF in
    three. *)
Definition isWhiteSpace2 (a b : N) : bool :=
  ((a =? 0xC2) && (b =? 0xA0))%N.

Definition isWhiteSpace3 (a b c : N) : bool :=
  (((a =? 0xE1) && (b =? 0x9A) && (c =? 0x80))
   || ((a =? 0xE2) && (b =? 0x80)
       && (((0x80 <=? c) && (c <=? 0x8A))
           || (c =? 0xA8) || (c =? 0xA9) || (c =? 0xAF)))
   || ((a =? 0xE2) && (b =? 0x81) && (c =? 0x9F))
   || ((a =? 0xE3) && (b =? 0x80) && (c =? 0x80))
   || ((a =? 0xEF) && (b =? 0xBB) && (c =? 0xBF)))%N.

(** [message.trim() === ""]: the message is white space throughout. *)
Fixpoint blank (s : string) : bool :=
  match s with
  | EmptyString => true
  | String c s1 =>
      if isWhiteSpace c then blank s1
      else
        match s1 with
        | EmptyString => false
        | String d s2 =>
            if isWhiteSpace2 (N_of_ascii c) (N_of_ascii d) then blank s2
            else
              match s2 with
              | EmptyString => false
              | String e s3 =>
                  isWhiteSpace3 (N_of_ascii c) (N_of_ascii d) (N_of_ascii e)
                  && blank s3
              end
        end
  end.

(** ** The functions of [blink.js] *)

Definition console (l : Level) (message : string) : M unit :=
  fun w =>
    (Normal tt,
     {| programCharacteristic := programCharacteristic w;
        negotiatedMtuCharacteristic := negotiatedMtuCharacteristic w;
        negotiatedMTU := negotiatedMTU w;
        consoleOutput := consoleOutput w;
        devlog := devlog w ++ [(l, message)];
        wire := wire w;
        pending := pending w |}).

Definition appendToConsole (message : string) : M unit :=
  fun w =>
    if blank message then (Normal tt, w)
    else
      (Normal tt,
       {| programCharacteristic := programCharacteristic w;
          negotiatedMtuCharacteristic := negotiatedMtuCharacteristic w;
          negotiatedMTU := negotiatedMTU w;
          consoleOutput := consoleOutput w ++ [message];
          devlog := devlog w;
          wire := wire w;
          pending := pending w |}).

Definition set_negotiatedMTU (v : Z) : M unit :=
  fun w =>
    (Normal tt,
     {| programCharacteristic := programCharacteristic w;
        negotiatedMtuCharacteristic := negotiatedMtuCharacteristic w;
        negotiatedMTU := v;
        consoleOutput := consoleOutput w;
        devlog := devlog w;
        wire := wire w;
        pending := pending w |}).

Definition get_negotiatedMTU : M Z := fun w => (Normal (negotiatedMTU w), w).

(** A GATT write: the attempt is recorded, the channel decides. *)
Definition gattWrite (ch : Characteristic) (k : WriteKind) (buffer : list byte)
    : M unit :=
  fun w =>
    let ok := resolves ch (wire w) k buffer in
    (if ok then Normal tt else Throw WriteError,
     {| programCharacteristic := programCharacteristic w;
        negotiatedMtuCharacteristic := negotiatedMtuCharacteristic w;
        negotiatedMTU := negotiatedMTU w;
        consoleOutput := consoleOutput w;
        devlog := devlog w;
        wire := wire w ++ [{| att_kind := k; att_data := buffer; att_ok := ok |}];
        pending := pending w |}).

Definition negotiateMTU : M unit :=
  fun w =>
    match programCharacteristic w with
    | None => (Throw TypeError, w)
    | Some pc =>
        match requestMTU (gatt pc) with
        | Some request =>
            try_catch
              (granted <- lift (match request REQUESTED_MTU with
                                | Some v => Normal v
                                | None => Throw WriteError
                                end) ;;
               set_negotiatedMTU granted ;;
               console Log ("Negotiated MTU: " ++ num granted))
              (fun _ =>
                 console Warn ("MTU negotiation failed. Using default MTU: "
                               ++ num DEFAULT_MTU) ;;
                 set_negotiatedMTU DEFAULT_MTU)
              w
        | None =>
            (try_catch
               (valueDataView <-
                  lift (match negotiatedMtuCharacteristic w with
                        | None => Throw TypeError
                        | Some c =>
                            match readValue c with
                            | Some v => Normal v
                            | None => Throw WriteError
                            end
                        end) ;;
                devicemtu <- lift (DataView.getUint16 valueDataView 0) ;;
                set_negotiatedMTU (devicemtu - 3) ;;
                console Log ("Device negotiated MTU(uint16): " ++ num devicemtu))
               (fun _ => console Error "Device negotiated MTU Error:") ;;
             mtu <- get_negotiatedMTU ;;
             console Log
               ("MTU negotiation not supported. Using device's negotiated MTU: "
                ++ num mtu))
              w
        end
    end.

Definition writeCharacteristic (characteristic : Characteristic)
    (buffer : list byte) : M unit :=
  if writeWithoutResponse characteristic
  then gattWrite characteristic WithoutResponse buffer
  else
    console Log "writeWithoutResponse がサポートされていません。" ;;
    gattWrite characteristic WithResponse buffer.

(** The two-byte command frames, [version = 0x01] then the command letter. *)
Definition commandFrame (command : byte) : Completion ArrayBuffer :=
  match newArrayBuffer 2 with
  | Normal buffer =>
      match DataView.setUint8 buffer 0 0x01 with
      | Normal buffer => DataView.setUint8 buffer 1 (Z_of_byte command)
      | c => c
      end
  | c => c
  end.

Definition withProgramCharacteristic {A : Type} (k : Characteristic -> M A)
    : M A :=
  fun w =>
    match programCharacteristic w with
    | Some pc => k pc w
    | None => (Throw TypeError, w)
    end.

(** [sendReset]: the write is not awaited, so its rejection is not seen. *)
Definition sendReset : M unit :=
  buffer <- lift (commandFrame "R"%byte) ;;
  try_catch
    (withProgramCharacteristic (fun pc =>
       try_catch (gattWrite pc WithResponse buffer) (fun _ => ret tt)) ;;
     appendToConsole "Send [R]eset Complete")
    (fun _ => appendToConsole "Send [R]eset Error:").

Definition sendReload : M unit :=
  buffer <- lift (commandFrame "L"%byte) ;;
  try_catch
    (withProgramCharacteristic (fun pc => writeCharacteristic pc buffer) ;;
     appendToConsole "Send re[L]oad Complete")
    (fun _ => appendToConsole "Send re[L]oad Error:").

(** A call that is started and not awaited: what it does up to its first
    [await] happens at once, the rest when the awaited promise has settled
    and the caller has given up control; the write such a call waits on
    settles after the caller has returned. *)

(** The effects of [m] with its completion as a value: how the promise
    settles. *)
Definition settled {A : Type} (m : M A) : M (Completion A) :=
  fun w => let (r, w') := m w in (Normal r, w').

(** [sendReload()] up to its [await]: the frame is built and the write is
    issued. *)
Definition sendReload_begin : M (Completion unit) :=
  buffer <- lift (commandFrame "L"%byte) ;;
  settled (withProgramCharacteristic (fun pc => writeCharacteristic pc buffer)).

(** [sendReload()] from its [await] on. *)
Definition sendReload_resume (promise : Completion unit) : M unit :=
  try_catch
    (lift promise ;;
     appendToConsole "Send re[L]oad Complete")
    (fun _ => appendToConsole "Send re[L]oad Error:").

Definition defer (promise : Completion unit) : M unit :=
  fun w =>
    (Normal tt,
     {| programCharacteristic := programCharacteristic w;
        negotiatedMtuCharacteristic := negotiatedMtuCharacteristic w;
        negotiatedMTU := negotiatedMTU w;
        consoleOutput := consoleOutput w;
        devlog := devlog w;
        wire := wire w;
        pending := pending w ++ [promise] |}).

(** [sendReload();] as a statement: the call runs up to its [await] and the
    promise it returns is dropped, so nothing it throws reaches the
    caller. *)
Definition sendReload_unawaited : M unit :=
  try_catch
    (promise <- sendReload_begin ;;
     defer promise)
    (fun _ => ret tt).

Fixpoint resume (promises : list (Completion unit)) : M unit :=
  match promises with
  | [] => ret tt
  | promise :: rest =>
      fun w => resume rest (snd (sendReload_resume promise w))
  end.

(** The event loop once the running function has returned: the calls that
    were not awaited go on, in the order they were started.  Nobody awaits
    them, so how they complete is not seen. *)
Definition settle : M unit :=
  fun w =>
    resume (pending w)
      {| programCharacteristic := programCharacteristic w;
         negotiatedMtuCharacteristic := negotiatedMtuCharacteristic w;
         negotiatedMTU := negotiatedMTU w;
         consoleOutput := consoleOutput w;
         devlog := devlog w;
         wire := wire w;
         pending := [] |}.

(** The body of the chunk loop up to the write: the Data frame for
    [offset]. *)
Definition dataFrame (mrbContent : list byte) (offset chunkDataSize : Z)
    : Completion ArrayBuffer :=
  match newArrayBuffer (DATA_HEADER_SIZE + chunkDataSize) with
  | Normal buffer =>
  match DataView.setUint8 buffer 0 0x01 with            (* version = 0x01 *)
  | Normal buffer =>
  match DataView.setUint8 buffer 1 (Z_of_byte "D"%byte) with  (* command = 'D' *)
  | Normal buffer =>
  match DataView.setUint16 buffer 2 offset with
  | Normal buffer =>
  match DataView.setUint16 buffer 4 chunkDataSize with
  | Normal buffer =>
      Uint8Array.set_view buffer DATA_HEADER_SIZE chunkDataSize
        (Uint8Array.subarray mrbContent offset (offset + chunkDataSize))
  | c => c end
  | c => c end
  | c => c end
  | c => c end
  | c => c end.

Inductive LoopExit : Type :=
| Completed    (* the loop condition became false *)
| Returned.    (* [return] in the catch block *)

(** [for (let offset = 0; offset < contentLength; offset += DATA_PAYLOAD_SIZE)],
    entered at [offset]; one unit of fuel per iteration of the body. *)
Fixpoint sendFirmware_loop (fuel : nat) (pc : Characteristic)
    (mrbContent : list byte) (contentLength DATA_PAYLOAD_SIZE offset : Z)
    : M LoopExit :=
  if offset <? contentLength then
    match fuel with
    | O => outOfFuel
    | S fuel' =>
        let chunkDataSize := JS.min DATA_PAYLOAD_SIZE (contentLength - offset) in
        buffer <- lift (dataFrame mrbContent offset chunkDataSize) ;;
        sent <- try_catch
                  (writeCharacteristic pc buffer ;;
                   appendToConsole
                     ("Send [D]ata Ok: Offset=" ++ num offset
                      ++ ", Size=" ++ num chunkDataSize) ;;
                   ret true)
                  (fun _ =>
                     appendToConsole
                       ("Send [D]ata Error: Offset=" ++ num offset
                        ++ "), Error:") ;;
                     ret false) ;;
        if sent : bool
        then sendFirmware_loop fuel' pc mrbContent contentLength
               DATA_PAYLOAD_SIZE (offset + DATA_PAYLOAD_SIZE)
        else ret Returned
    end
  else ret Completed.

Definition programFrame (contentLength crc16 slot : Z)
    : Completion ArrayBuffer :=
  match newArrayBuffer PROGRAM_HEADER_SIZE with
  | Normal buffer =>
  match DataView.setUint8 buffer 0 0x01 with            (* version = 0x01 *)
  | Normal buffer =>
  match DataView.setUint8 buffer 1 (Z_of_byte "P"%byte) with  (* command = 'P' *)
  | Normal buffer =>
  match DataView.setUint16 buffer 2 contentLength with  (* length *)
  | Normal buffer =>
  match DataView.setUint16 buffer 4 crc16 with          (* crc: CRC16 *)
  | Normal buffer =>
  match DataView.setUint8 buffer 6 slot with            (* slot *)
  | Normal buffer => DataView.setUint8 buffer 7 0       (* reserved *)
  | c => c end
  | c => c end
  | c => c end
  | c => c end
  | c => c end
  | c => c end.

(** [sendFirmware(mrbContent)]; [sendReload()] is started, not awaited, by
    the source: its write is issued before [sendFirmware] returns, its
    console line is not. *)
Definition sendFirmware (fuel : nat) (mrbContent : list byte) : M unit :=
  let contentLength := Z.of_nat (List.length mrbContent) in
  let crc16 := crc16_reflect 0xd175 0xffff mrbContent in
  let slot := 2 in
  fun w =>
    match programCharacteristic w with
    | None => console Error "no program characteristic" w
    | Some pc =>
        (mtu <- get_negotiatedMTU ;;
         appendToConsole
           ("Sending bytecode: slot=" ++ num slot
            ++ ", length=" ++ num contentLength
            ++ "bytes, CRC16=" ++ hex crc16
            ++ ", MTU=" ++ num mtu) ;;
         let DATA_PAYLOAD_SIZE := mtu - DATA_HEADER_SIZE in
         console Log ("DATA_PAYLOAD_SIZE: " ++ num DATA_PAYLOAD_SIZE ++ " Bytes") ;;
         exit <- sendFirmware_loop fuel pc mrbContent contentLength
                   DATA_PAYLOAD_SIZE 0 ;;
         match exit with
         | Returned => ret tt
         | Completed =>
             programBuffer <- lift (programFrame contentLength crc16 slot) ;;
             try_catch
               (writeCharacteristic pc programBuffer ;;
                appendToConsole "Send [P]rogram Complete" ;;
                sendReload_unawaited)
               (fun _ => appendToConsole "Send [P]rogram Error:")
         end) w
    end.

(** ** Reading the wire

    The sender never decodes a frame; these accessors read a frame back by
    the layout the encoders write (little-endian 16-bit fields), to state
    what was sent. *)
Module Wire.

Definition version (f : list byte) : byte := nth 0 f x00.

Definition tag (f : list byte) : byte := nth 1 f x00.

Definition field16 (f : list byte) (i : nat) : Z :=
  Z_of_byte (nth i f x00) + 256 * Z_of_byte (nth (S i) f x00).

(** Data frame *)
Definition offset (f : list byte) : Z := field16 f 2.
Definition chunkLength (f : list byte) : Z := field16 f 4.
Definition payload (f : list byte) : list byte := skipn 6 f.

(** Program frame *)
Definition totalLength (f : list byte) : Z := field16 f 2.
Definition crc16 (f : list byte) : Z := field16 f 4.
Definition slot (f : list byte) : Z := Z_of_byte (nth 6 f x00).
Definition reserved (f : list byte) : Z := Z_of_byte (nth 7 f x00).

Definition isData (f : list byte) : bool := Byte.eqb (tag f) "D"%byte.
Definition isProgram (f : list byte) : bool := Byte.eqb (tag f) "P"%byte.

End Wire.

(** The writes a run added to the channel: what [w'] has after [w]. *)
Definition sentSince (w w' : World) : list Attempt :=
  skipn (List.length (wire w)) (wire w').

(** The frames of a list of writes that carry the tag [D], in order. *)
Definition dataFrames (l : list Attempt) : list (list byte) :=
  filter Wire.isData (map att_data l).

Definition programFrames (l : list Attempt) : list (list byte) :=
  filter Wire.isProgram (map att_data l).

(** The bytes of the Data frame for the chunk at [offset]. *)
Definition dataBytes (mrbContent : list byte) (offset chunkDataSize : Z)
    : list byte :=
  [x01; "D"%byte;
   byte_of_Z (JS.toUint16 offset); byte_of_Z (JS.toUint16 offset / 256);
   byte_of_Z (JS.toUint16 chunkDataSize);
   byte_of_Z (JS.toUint16 chunkDataSize / 256)]
  ++ firstn (Z.to_nat chunkDataSize) (skipn (Z.to_nat offset) mrbContent).

Definition programBytes (contentLength crc16 slot : Z) : list byte :=
  [x01; "P"%byte;
   byte_of_Z (JS.toUint16 contentLength);
   byte_of_Z (JS.toUint16 contentLength / 256);
   byte_of_Z (JS.toUint16 crc16); byte_of_Z (JS.toUint16 crc16 / 256);
   byte_of_Z slot; x00].

Definition writeKind (pc : Characteristic) : WriteKind :=
  if writeWithoutResponse pc then WithoutResponse else WithResponse.

Definition dataOkLine (offset chunkDataSize : Z) : string :=
  ("Send [D]ata Ok: Offset=" ++ num offset ++ ", Size=" ++ num chunkDataSize)%string.

Definition dataErrorLine (offset : Z) : string :=
  ("Send [D]ata Error: Offset=" ++ num offset ++ "), Error:")%string.

(** The transcript of the chunk loop entered at [offset] with the writes
    [h] already on the channel: the Data writes it makes, the console lines
    it appends, and how it leaves. *)
Inductive Transcript (pc : Characteristic) (B : list byte) (ps : Z)
    : list Attempt -> Z -> list Attempt -> list string -> LoopExit -> Prop :=
| T_done h offset :
    Z.of_nat (List.length B) <= offset ->
    Transcript pc B ps h offset [] [] Completed
| T_fail h offset a :
    offset < Z.of_nat (List.length B) ->
    a = {| att_kind := writeKind pc;
           att_data := dataBytes B offset
                         (Z.min ps (Z.of_nat (List.length B) - offset));
           att_ok := false |} ->
    resolves pc h (att_kind a) (att_data a) = false ->
    Transcript pc B ps h offset [a] [dataErrorLine offset] Returned
| T_ok h offset a rest lines e :
    offset < Z.of_nat (List.length B) ->
    a = {| att_kind := writeKind pc;
           att_data := dataBytes B offset
                         (Z.min ps (Z.of_nat (List.length B) - offset));
           att_ok := true |} ->
    resolves pc h (att_kind a) (att_data a) = true ->
    Transcript pc B ps (h ++ [a]) (offset + ps) rest lines e ->
    Transcript pc B ps h offset (a :: rest)
      (dataOkLine offset (Z.min ps (Z.of_nat (List.length B) - offset)) :: lines) e.

(** A channel on which every write resolves. *)
Definition reliable (pc : Characteristic) : Prop :=
  forall h k d, resolves pc h k d = true.

(** ceiling of [a / b] for positive [b] *)
Definition ceilDiv (a b : Z) : Z := (a + b - 1) / b.

Fixpoint sumZ (l : list Z) : Z :=
  match l with
  | [] => 0
  | x :: r => x + sumZ r
  end.

(** The session globals a transfer reads are left as they were. *)
Definition sameSession (w w' : World) : Prop :=
  programCharacteristic w' = programCharacteristic w
  /\ negotiatedMtuCharacteristic w' = negotiatedMtuCharacteristic w
  /\ negotiatedMTU w' = negotiatedMTU w.

Definition sendingLine (B : list byte) (mtu : Z) : string :=
  ("Sending bytecode: slot=" ++ num 2
   ++ ", length=" ++ num (Z.of_nat (List.length B))
   ++ "bytes, CRC16=" ++ hex (crc16_reflect 0xd175 0xffff B)
   ++ ", MTU=" ++ num mtu)%string.

(** The Program write made with [h] on the channel, and the Reload write
    that follows it when it resolves. *)
Definition programAttempt (pc : Characteristic) (B : list byte)
    (h : list Attempt) : Attempt :=
  let bytes := programBytes (Z.of_nat (List.length B))
                 (crc16_reflect 0xd175 0xffff B) 2 in
  {| att_kind := writeKind pc; att_data := bytes;
     att_ok := resolves pc h (writeKind pc) bytes |}.

Definition reloadAttempt (pc : Characteristic) (h : list Attempt) : Attempt :=
  {| att_kind := writeKind pc; att_data := [x01; "L"%byte];
     att_ok := resolves pc h (writeKind pc) [x01; "L"%byte] |}.

Definition finalWrites (pc : Characteristic) (B : list byte)
    (h : list Attempt) : list Attempt :=
  let p := programAttempt pc B h in
  if att_ok p then [p; reloadAttempt pc (h ++ [p])] else [p].

Definition finalLines (pc : Characteristic) (B : list byte)
    (h : list Attempt) : list string :=
  let p := programAttempt pc B h in
  if att_ok p
  then ["Send [P]rogram Complete"%string]
  else ["Send [P]rogram Error:"%string].

(** The promise [sendReload()] is left waiting on, when it was started. *)
Definition finalPending (pc : Characteristic) (B : list byte)
    (h : list Attempt) : list (Completion unit) :=
  let p := programAttempt pc B h in
  if att_ok p
  then [if att_ok (reloadAttempt pc (h ++ [p]))
        then Normal tt else Throw WriteError]
  else [].

(** What follows the loop happens only when the loop ran to completion. *)
Definition afterLoop {A : Type} (e : LoopExit) (l : list A) : list A :=
  match e with
  | Completed => l
  | Returned => []
  end.

(** ** Sample sessions *)

(** A characteristic on which every write resolves. *)
Definition steadyChannel : Characteristic :=
  {| writeWithoutResponse := true;
     resolves := fun _ _ _ => true;
     gatt := {| requestMTU := None |} |}.

(** A connected session over [pc] with the given negotiated MTU. *)
Definition session (pc : Characteristic) (mtu : Z) : World :=
  {| programCharacteristic := Some pc;
     negotiatedMtuCharacteristic := None;
     negotiatedMTU := mtu;
     consoleOutput := [];
     devlog := [];
     wire := [];
     pending := [] |}.

Definition sampleFirmware : list byte :=
  ["R"%byte; "I"%byte; "T"%byte; "E"%byte; "0"%byte].

(** The scenarios of the design: a buffer of 1000 bytes over an MTU of 23,
    and a channel that rejects the Data frame for offset 340. *)
Definition scenarioFirmware : list byte := repeat x00 1000.

Definition rejectsOffset340 : Characteristic :=
  {| writeWithoutResponse := true;
     resolves := fun _ _ d =>
       negb (Wire.isData d && (Wire.offset d =? 340));
     gatt := {| requestMTU := None |} |}.

Definition oversizeFirmware : list byte := repeat x00 (Z.to_nat 65540).

(** A characteristic whose GATT server answers an MTU request with
    [answer] ([None]: the request throws). *)
Definition requestingChannel (answer : option Z) : Characteristic :=
  {| writeWithoutResponse := true;
     resolves := fun _ _ _ => true;
     gatt := {| requestMTU := Some (fun _ => answer) |} |}.

(** A session without [requestMTU] whose device reports [bytes] as its MTU. *)
Definition reportingSession (bytes : list byte) : World :=
  {| programCharacteristic := Some steadyChannel;
     negotiatedMtuCharacteristic := Some {| readValue := Some bytes |};
     negotiatedMTU := DEFAULT_MTU;
     consoleOutput := [];
     devlog := [];
     wire := [];
     pending := [] |}.

(** What [negotiateMTU] leaves in [negotiatedMTU], case by case. *)
Definition negotiatedValue (pc : Characteristic) (w : World) : Z :=
  match requestMTU (gatt pc) with
  | Some request =>
      match request REQUESTED_MTU with
      | Some granted => granted
      | None => DEFAULT_MTU
      end
  | None =>
      match negotiatedMtuCharacteristic w with
      | Some c =>
          match readValue c with
          | Some view =>
              match DataView.getUint16 view 0 with
              | Normal devicemtu => devicemtu - 3
              | _ => negotiatedMTU w
              end
          | None => negotiatedMTU w
          end
      | None => negotiatedMTU w
      end
  end.

(** The input of the standard CRC check values, the ASCII digits 1 to 9. *)
Definition crcCheckInput : list byte :=
  ["1"; "2"; "3"; "4"; "5"; "6"; "7"; "8"; "9"]%byte.

(** ** Further vocabulary *)

(** [l'] continues [l]. *)
Definition extends {A : Type} (l l' : list A) : Prop :=
  exists t, l' = l ++ t.

(** A computation that leaves the session globals alone and only adds to
    the console and to the channel. *)
Definition Stable {A : Type} (m : M A) : Prop :=
  forall w,
    sameSession w (snd (m w))
    /\ extends (wire w) (wire (snd (m w)))
    /\ extends (consoleOutput w) (consoleOutput (snd (m w))).

(** A computation all of whose writes on the channel satisfy [P]. *)
Definition Writes (P : Attempt -> Prop) {A : Type} (m : M A) : Prop :=
  forall w, exists t, wire (snd (m w)) = wire w ++ t /\ Forall P t.

(** A write that, if it carries a Program frame, carries the one for [B]. *)
Definition programFor (B : list byte) (a : Attempt) : Prop :=
  Wire.isProgram (att_data a) = true ->
  att_data a
  = programBytes (Z.of_nat (List.length B)) (crc16_reflect 0xd175 0xffff B) 2.

(** A computation that starts no call it does not await. *)
Definition Quiet {A : Type} (m : M A) : Prop :=
  forall w, pending (snd (m w)) = pending w.

(** What [sendFirmware] does once the chunk loop has left. *)
Definition afterChunks (pc : Characteristic) (B : list byte) (exit : LoopExit)
    : M unit :=
  match exit with
  | Returned => ret tt
  | Completed =>
      programBuffer <-
        lift (programFrame (Z.of_nat (List.length B))
                (crc16_reflect 0xd175 0xffff B) 2) ;;
      try_catch
        (writeCharacteristic pc programBuffer ;;
         appendToConsole "Send [P]rogram Complete" ;;
         sendReload_unawaited)
        (fun _ => appendToConsole "Send [P]rogram Error:")
  end.

(** A Data frame that is all header: offset 0, length 0. *)
Definition headerOnlyFrame : list byte :=
  [x01; "D"%byte; x00; x00; x00; x00].

Definition resetAttempt (pc : Characteristic) (h : list Attempt) : Attempt :=
  {| att_kind := WithResponse; att_data := [x01; "R"%byte];
     att_ok := resolves pc h WithResponse [x01; "R"%byte] |}.

(** A characteristic that rejects every write. *)
Definition deafChannel : Characteristic :=
  {| writeWithoutResponse := false;
     resolves := fun _ _ _ => false;
     gatt := {| requestMTU := None |} |}.
(** ** Facts on the 32-bit conversions and on 16-bit values *)

Lemma toInt32_small (x : Z) : 0 <= x < 2 ^ 31 -> JS.toInt32 x = x.
Proof.
  intros H. unfold JS.toInt32.
  rewrite Z.mod_small by lia.
  destruct (Z.ltb_spec x (2 ^ 31)); lia.
Qed.

Lemma toUint32_small (x : Z) : 0 <= x < 2 ^ 32 -> JS.toUint32 x = x.
Proof. intros H. unfold JS.toUint32. now rewrite Z.mod_small. Qed.

Lemma lxor_lt_pow2 (n a b : Z) :
  0 <= a < 2 ^ n -> 0 <= b < 2 ^ n -> 0 <= Z.lxor a b < 2 ^ n.
Proof.
  intros Ha Hb.
  assert (Hnn : 0 <= Z.lxor a b) by (apply Z.lxor_nonneg; lia).
  split; [exact Hnn|].
  destruct (Z.eq_dec (Z.lxor a b) 0) as [->|Hne]; [lia|].
  apply Z.log2_lt_pow2; [lia|].
  pose proof (Z.log2_lxor a b ltac:(lia) ltac:(lia)) as Hlog.
  assert (Hn : 0 <= n).
  { destruct (Z.leb_spec 0 n) as [|Hneg]; [assumption|].
    rewrite Z.pow_neg_r in Ha by lia. lia. }
  assert (Z.log2 a < n \/ a = 0) as [Hla|Ha0].
  { destruct (Z.eq_dec a 0); [now right|left].
    apply Z.log2_lt_pow2; lia. }
  - assert (Z.log2 b < n \/ b = 0) as [Hlb|Hb0].
    { destruct (Z.eq_dec b 0); [now right|left].
      apply Z.log2_lt_pow2; lia. }
    + lia.
    + subst b. rewrite Z.lxor_0_r in *. lia.
  - subst a. rewrite Z.lxor_0_l in *. apply Z.log2_lt_pow2; lia.
Qed.

Lemma lxor_u16 (a b : Z) :
  0 <= a < 65536 -> 0 <= b < 65536 -> 0 <= Z.lxor a b < 65536.
Proof. exact (lxor_lt_pow2 16 a b). Qed.

Lemma lxor_u8 (a b : Z) :
  0 <= a < 256 -> 0 <= b < 256 -> 0 <= Z.lxor a b < 256.
Proof. exact (lxor_lt_pow2 8 a b). Qed.

Lemma Z_of_byte_range (b : byte) : 0 <= Z_of_byte b < 256.
Proof.
  unfold Z_of_byte. pose proof (Byte.to_N_bounded b) as H.
  lia.
Qed.

Lemma bxor_u16 (a b : Z) :
  0 <= a < 65536 -> 0 <= b < 65536 -> JS.bxor a b = Z.lxor a b.
Proof.
  intros Ha Hb. unfold JS.bxor.
  rewrite !toInt32_small; [reflexivity| |]; change (2 ^ 31) with 2147483648; lia.
Qed.

Lemma ushr1_u16 (a : Z) : 0 <= a < 65536 -> JS.ushr a 1 = a / 2.
Proof.
  intros Ha. unfold JS.ushr.
  rewrite toUint32_small by (change (2 ^ 32) with 4294967296; lia).
  change (JS.toUint32 1 mod 32) with 1.
  now rewrite Z.shiftr_div_pow2 by lia.
Qed.

Lemma band1_u16 (a : Z) :
  0 <= a < 65536 -> JS.truthy (JS.band a 0x0001) = Z.testbit a 0.
Proof.
  intros Ha. unfold JS.truthy, JS.band.
  rewrite toInt32_small by (change (2 ^ 31) with 2147483648; lia).
  change (JS.toInt32 1) with 1.
  change 1 with (Z.ones 1) at 1. rewrite Z.land_ones by lia.
  rewrite Z.bit0_odd, Zodd_mod. change (2 ^ 1) with 2.
  pose proof (Z.mod_pos_bound a 2 ltac:(lia)).
  destruct (Z.eqb_spec (a mod 2) 0) as [->|Hn]; [reflexivity|].
  replace (a mod 2) with 1 by lia. reflexivity.
Qed.

Lemma band_ffff_u16 (a : Z) : 0 <= a < 65536 -> JS.band a 0xffff = a.
Proof.
  intros Ha. unfold JS.band.
  rewrite toInt32_small by (change (2 ^ 31) with 2147483648; lia).
  change (JS.toInt32 65535) with (Z.ones 16).
  rewrite Z.land_ones by lia. apply Z.mod_small.
  change (2 ^ 16) with 65536. lia.
Qed.

Lemma land_high_low (q x : Z) : 0 <= x < 256 -> Z.land (256 * q) x = 0.
Proof.
  intros Hx. apply Z.bits_inj'. intros n Hn.
  rewrite Z.land_spec, Z.bits_0.
  destruct (Z.ltb_spec n 8) as [Hlt|Hge].
  - replace (256 * q) with (q * 2 ^ 8) by (change (2 ^ 8) with 256; lia).
    now rewrite Z.mul_pow2_bits_low by lia.
  - rewrite <- (Z.mod_small x (2 ^ 8)) by (change (2 ^ 8) with 256; lia).
    rewrite Z.mod_pow2_bits_high by lia. apply andb_false_r.
Qed.

Lemma xor_low_byte_lxor (acc b : Z) :
  0 <= b < 256 -> Reference.xor_low_byte acc b = Z.lxor acc b.
Proof.
  intros Hb. unfold Reference.xor_low_byte.
  pose proof (Z.mod_pos_bound acc 256 ltac:(lia)) as Hm.
  assert (Hr : 0 <= Z.lxor (acc mod 256) b < 256) by (apply lxor_u8; lia).
  rewrite Z.add_nocarry_lxor by (apply land_high_low; exact Hr).
  rewrite <- Z.lxor_assoc.
  rewrite <- (Z.add_nocarry_lxor (256 * (acc / 256)) (acc mod 256))
    by (apply land_high_low; exact Hm).
  now rewrite <- Z.div_mod by lia.
Qed.

Lemma fold_left_cons {A B : Type} (f : A -> B -> A) (b : B) (l : list B) (a : A) :
  fold_left f (b :: l) a = fold_left f l (f a b).
Proof. reflexivity. Qed.

Section Crc16Refinement.

Variable poly : Z.
Hypothesis poly_u16 : 0 <= poly < 65536.

Lemma round_u16 (acc : Z) :
  0 <= acc < 65536 -> 0 <= Reference.round poly acc < 65536.
Proof.
  intros Ha. unfold Reference.round, Reference.mask16.
  destruct (Z.testbit acc 0).
  - apply Z.mod_pos_bound. lia.
  - split; [apply Z.div_pos; lia|].
    apply Z.div_lt_upper_bound; lia.
Qed.

Lemma iter_round_u16 (n : nat) (acc : Z) :
  0 <= acc < 65536 -> 0 <= Nat.iter n (Reference.round poly) acc < 65536.
Proof.
  intros Ha. induction n as [|n IH]; cbn [Nat.iter nat_rect]; [exact Ha|].
  now apply round_u16.
Qed.

(** One round of the inner loop is one round of the reference. *)
Lemma crc16_bits_round (n : nat) (crc : Z) :
  0 <= crc < 65536 ->
  crc16_bits poly n crc = Nat.iter n (Reference.round poly) crc.
Proof.
  revert crc. induction n as [|n IH]; intros crc Hc; [reflexivity|].
  rewrite Nat.iter_succ_r. cbn [crc16_bits].
  assert (Hh : 0 <= crc / 2 < 65536).
  { split; [apply Z.div_pos; lia|apply Z.div_lt_upper_bound; lia]. }
  assert (Hstep :
    (if JS.truthy (JS.band crc 0x0001)
     then JS.bxor (JS.ushr crc 1) poly else JS.ushr crc 1)
    = Reference.round poly crc).
  { unfold Reference.round, Reference.mask16.
    rewrite band1_u16, ushr1_u16 by exact Hc.
    destruct (Z.testbit crc 0); [|reflexivity].
    rewrite bxor_u16 by assumption.
    symmetry. apply Z.mod_small. now apply lxor_u16. }
  rewrite Hstep. apply IH. now apply round_u16.
Qed.

Lemma crc16_byte_step (crc : Z) (b : byte) :
  0 <= crc < 65536 ->
  crc16_byte poly crc b = Reference.step poly crc b
  /\ 0 <= crc16_byte poly crc b < 65536.
Proof.
  intros Hc. unfold crc16_byte, Reference.step.
  pose proof (Z_of_byte_range b) as Hb.
  rewrite bxor_u16 by lia.
  rewrite xor_low_byte_lxor by exact Hb.
  assert (Hx : 0 <= Z.lxor crc (Z_of_byte b) < 65536)
    by (apply lxor_u16; lia).
  rewrite crc16_bits_round by exact Hx.
  split; [reflexivity|now apply iter_round_u16].
Qed.

Lemma crc16_bytes_fold (src : list byte) (crc : Z) :
  0 <= crc < 65536 ->
  crc16_bytes poly crc src = fold_left (Reference.step poly) src crc
  /\ 0 <= crc16_bytes poly crc src < 65536.
Proof.
  unfold crc16_bytes. revert crc.
  induction src as [|b rest IH]; intros crc Hc.
  - split; [reflexivity|exact Hc].
  - rewrite !fold_left_cons.
    destruct (crc16_byte_step crc b Hc) as [Heq Hr].
    destruct (IH _ Hr) as [IH1 IH2].
    split; [|exact IH2].
    rewrite IH1, Heq. reflexivity.
Qed.

End Crc16Refinement.

(** Whatever the polynomial and the seed, the final mask leaves 16 bits. *)
Lemma band_ffff_range (x : Z) : 0 <= JS.band x 0xffff < 65536.
Proof.
  unfold JS.band. change (JS.toInt32 65535) with (Z.ones 16).
  rewrite Z.land_ones by lia. apply Z.mod_pos_bound.
  change (2 ^ 16) with 65536. lia.
Qed.

Lemma crc16_reflect_range (poly seed : Z) (src : list byte) :
  0 <= crc16_reflect poly seed src < 65536.
Proof. unfold crc16_reflect. apply band_ffff_range. Qed.


(** On 16-bit parameters the accumulator never leaves 16 bits and the
    function is the reference checksum. *)
Lemma crc16_reflect_checksum (poly seed : Z) (src : list byte) :
  0 <= poly < 65536 -> 0 <= seed < 65536 ->
  crc16_reflect poly seed src = Reference.checksum poly seed src.
Proof.
  intros Hp Hs.
  destruct (crc16_bytes_fold poly Hp src seed Hs) as [Heq Hr].
  unfold crc16_reflect, Reference.checksum, Reference.mask16.
  rewrite band_ffff_u16 by exact Hr.
  rewrite <- Heq. symmetry. apply Z.mod_small. exact Hr.
Qed.

Lemma toInt32_mod_u16 (x : Z) : JS.toInt32 x mod 65536 = x mod 65536.
Proof.
  unfold JS.toInt32.
  assert (Hu : (x mod 2 ^ 32) mod 65536 = x mod 65536).
  { apply Z.mod_mod_divide. exists 65536. reflexivity. }
  destruct (x mod 2 ^ 32 <? 2 ^ 31); [exact Hu|].
  rewrite <- Hu.
  replace (x mod 2 ^ 32 - 2 ^ 32) with (x mod 2 ^ 32 + (-65536) * 65536)
    by (change (2 ^ 32) with 4294967296; lia).
  apply Z.mod_add. lia.
Qed.

(** On the empty buffer only the final mask acts: whatever the seed, its
    low 16 bits come back. *)
Lemma crc16_reflect_empty (poly seed : Z) :
  crc16_reflect poly seed [] = seed mod 65536.
Proof.
  unfold crc16_reflect, crc16_bytes, JS.band. cbn [fold_left].
  change (JS.toInt32 65535) with (Z.ones 16).
  rewrite Z.land_ones by lia. change (2 ^ 16) with 65536.
  apply toInt32_mod_u16.
Qed.

(** ** Bytes and 16-bit fields *)

Lemma Z_of_byte_of_Z (z : Z) : Z_of_byte (byte_of_Z z) = z mod 256.
Proof.
  unfold Z_of_byte, byte_of_Z, JS.toUint8. change (2 ^ 8) with 256.
  pose proof (Z.mod_pos_bound z 256 ltac:(lia)) as Hm.
  destruct (Byte.of_N (Z.to_N (z mod 256))) as [b|] eqn:E.
  - apply Byte.to_of_N in E. rewrite E. lia.
  - apply Byte.of_N_None_iff in E. lia.
Qed.

Lemma field16_cons (a : byte) (f : list byte) (i : nat) :
  Wire.field16 (a :: f) (S i) = Wire.field16 f i.
Proof. reflexivity. Qed.

Lemma field16_le (v : Z) (rest : list byte) :
  Wire.field16 (byte_of_Z (JS.toUint16 v) :: byte_of_Z (JS.toUint16 v / 256) :: rest) 0
  = v mod 65536.
Proof.
  unfold Wire.field16. cbn [nth]. rewrite !Z_of_byte_of_Z.
  unfold JS.toUint16. change (2 ^ 16) with 65536.
  pose proof (Z.mod_pos_bound v 65536 ltac:(lia)) as Hm.
  set (x := v mod 65536) in *.
  rewrite (Z.mod_small (x / 256)).
  - pose proof (Z.div_mod x 256 ltac:(lia)). lia.
  - split; [apply Z.div_pos; lia|apply Z.div_lt_upper_bound; lia].
Qed.

(** ** Building frames *)

Lemma setUint8_ok (buf : ArrayBuffer) (i v : Z) :
  0 <= i < byteLength buf ->
  DataView.setUint8 buf i v = Normal (list_update buf (Z.to_nat i) (byte_of_Z v)).
Proof.
  intros H. unfold DataView.setUint8.
  destruct (Z.leb_spec 0 i); [|lia].
  destruct (Z.leb_spec (i + 1) (byteLength buf)); [reflexivity|lia].
Qed.

Lemma setUint16_ok (buf : ArrayBuffer) (i v : Z) :
  0 <= i -> i + 2 <= byteLength buf ->
  DataView.setUint16 buf i v =
  Normal (list_update
            (list_update buf (Z.to_nat i) (byte_of_Z (JS.toUint16 v)))
            (Z.to_nat i + 1) (byte_of_Z (JS.toUint16 v / 256))).
Proof.
  intros H1 H2. unfold DataView.setUint16.
  destruct (Z.leb_spec 0 i); [|lia].
  destruct (Z.leb_spec (i + 2) (byteLength buf)); [reflexivity|lia].
Qed.

Lemma byteLength_cons (a : byte) (l : list byte) :
  byteLength (a :: l) = 1 + byteLength l.
Proof. unfold byteLength. cbn [List.length]. lia. Qed.

Lemma byteLength_nonneg (l : list byte) : 0 <= byteLength l.
Proof. unfold byteLength. lia. Qed.

Lemma subarray_chunk (B : list byte) (offset n : Z) :
  0 <= offset -> 0 <= n -> offset + n <= Z.of_nat (List.length B) ->
  Uint8Array.subarray B offset (offset + n)
  = firstn (Z.to_nat n) (skipn (Z.to_nat offset) B).
Proof.
  intros Ho Hn Hle. unfold Uint8Array.subarray, Uint8Array.clampIndex.
  destruct (Z.ltb_spec offset 0); [lia|].
  destruct (Z.ltb_spec (offset + n) 0); [lia|].
  rewrite !Z.min_l by lia.
  replace (Z.max (offset + n - offset) 0) with n by lia.
  reflexivity.
Qed.

Lemma chunk_length (B : list byte) (offset n : Z) :
  0 <= offset -> 0 <= n -> offset + n <= Z.of_nat (List.length B) ->
  List.length (firstn (Z.to_nat n) (skipn (Z.to_nat offset) B)) = Z.to_nat n.
Proof.
  intros Ho Hn Hle. rewrite length_firstn, length_skipn. lia.
Qed.

Lemma dataFrame_normal (B : list byte) (offset n : Z) :
  0 <= offset -> 0 <= n -> offset + n <= Z.of_nat (List.length B) ->
  dataFrame B offset n = Normal (dataBytes B offset n).
Proof.
  intros Ho Hn Hle. unfold dataFrame, newArrayBuffer, DATA_HEADER_SIZE.
  destruct (Z.ltb_spec (6 + n) 0); [lia|].
  replace (Z.to_nat (6 + n)) with (6 + Z.to_nat n)%nat by lia.
  cbn [repeat Nat.add].
  pose proof (byteLength_nonneg (repeat x00 (Z.to_nat n))) as Hl.
  rewrite setUint8_ok by (rewrite !byteLength_cons; lia).
  change (Z.to_nat 0) with 0%nat. cbn [list_update].
  rewrite setUint8_ok by (rewrite !byteLength_cons; lia).
  change (Z.to_nat 1) with 1%nat. cbn [list_update].
  rewrite setUint16_ok by (rewrite ?byteLength_cons; lia).
  change (Z.to_nat 2) with 2%nat. cbn [list_update Nat.add].
  rewrite setUint16_ok by (rewrite ?byteLength_cons; lia).
  change (Z.to_nat 4) with 4%nat. cbn [list_update Nat.add].
  rewrite subarray_chunk by assumption.
  pose proof (chunk_length B offset n Ho Hn Hle) as Hlen.
  unfold Uint8Array.set_view.
  rewrite Hlen, !byteLength_cons.
  unfold byteLength. rewrite repeat_length.
  destruct (Z.leb_spec 0 6); [|lia].
  destruct (Z.leb_spec 0 n); [|lia].
  destruct (Z.leb_spec (6 + n) (1 + (1 + (1 + (1 + (1 + (1 + Z.of_nat (Z.to_nat n)))))))); [|lia].
  destruct (Z.leb_spec (Z.of_nat (Z.to_nat n)) n); [|lia].
  cbn [andb]. change (Z.to_nat 6) with 6%nat.
  cbn [firstn Nat.add skipn].
  rewrite (skipn_all2 (repeat x00 (Z.to_nat n)))
    by (rewrite repeat_length; lia).
  rewrite app_nil_r. reflexivity.
Qed.

(** A frame that would be shorter than its header cannot be built. *)
Lemma dataFrame_negative (B : list byte) (offset n : Z) :
  n < 0 -> dataFrame B offset n = Throw RangeError.
Proof.
  intros Hn. unfold dataFrame, newArrayBuffer, DATA_HEADER_SIZE.
  destruct (Z.ltb_spec (6 + n) 0) as [|Hge]; [reflexivity|].
  assert (Hcases : n = -6 \/ n = -5 \/ n = -4 \/ n = -3 \/ n = -2 \/ n = -1)
    by lia.
  destruct Hcases as [->|[->|[->|[->|[->| ->]]]]]; reflexivity.
Qed.

(** Whatever the offset and the size, a frame the loop body builds has the
    tag ['D']. *)
Lemma dataFrame_tag (B : list byte) (offset n : Z) (f : ArrayBuffer) :
  dataFrame B offset n = Normal f -> Wire.tag f = "D"%byte.
Proof.
  destruct (Z.lt_ge_cases n 0) as [Hneg|Hn].
  { rewrite dataFrame_negative by assumption. discriminate. }
  unfold dataFrame, newArrayBuffer, DATA_HEADER_SIZE.
  destruct (Z.ltb_spec (6 + n) 0); [lia|].
  replace (Z.to_nat (6 + n)) with (6 + Z.to_nat n)%nat by lia.
  cbn [repeat Nat.add].
  pose proof (byteLength_nonneg (repeat x00 (Z.to_nat n))) as Hl.
  rewrite setUint8_ok by (rewrite !byteLength_cons; lia).
  change (Z.to_nat 0) with 0%nat. cbn [list_update].
  rewrite setUint8_ok by (rewrite !byteLength_cons; lia).
  change (Z.to_nat 1) with 1%nat. cbn [list_update].
  rewrite setUint16_ok by (rewrite ?byteLength_cons; lia).
  change (Z.to_nat 2) with 2%nat. cbn [list_update Nat.add].
  rewrite setUint16_ok by (rewrite ?byteLength_cons; lia).
  change (Z.to_nat 4) with 4%nat. cbn [list_update Nat.add].
  unfold Uint8Array.set_view.
  match goal with |- (if ?c then _ else _) = _ -> _ => destruct c end;
    [|discriminate].
  intros Hf. injection Hf as <-.
  change (Z.to_nat 6) with 6%nat. reflexivity.
Qed.

Lemma programFrame_normal (contentLength crc16 slot : Z) :
  programFrame contentLength crc16 slot
  = Normal (programBytes contentLength crc16 slot).
Proof. reflexivity. Qed.

Lemma commandFrame_normal (c : byte) :
  commandFrame c = Normal [x01; byte_of_Z (Z_of_byte c)].
Proof. reflexivity. Qed.

(** ** Steps of the monad *)

Lemma sameSession_refl (w : World) : sameSession w w.
Proof. unfold sameSession. auto. Qed.

Lemma sameSession_trans (w1 w2 w3 : World) :
  sameSession w1 w2 -> sameSession w2 w3 -> sameSession w1 w3.
Proof.
  unfold sameSession. intros (A1 & A2 & A3) (B1 & B2 & B3).
  repeat split; congruence.
Qed.

Lemma writeCharacteristic_spec (pc : Characteristic) (buffer : list byte)
    (w : World) :
  exists w',
    writeCharacteristic pc buffer w
    = ((if resolves pc (wire w) (writeKind pc) buffer
        then Normal tt else Throw WriteError), w')
    /\ wire w' = wire w ++ [{| att_kind := writeKind pc; att_data := buffer;
                              att_ok := resolves pc (wire w) (writeKind pc) buffer |}]
    /\ consoleOutput w' = consoleOutput w
    /\ sameSession w w'.
Proof.
  unfold writeCharacteristic, writeKind.
  destruct (writeWithoutResponse pc).
  - eexists. split; [reflexivity|].
    cbn. repeat split.
  - eexists. split; [reflexivity|].
    cbn. repeat split.
Qed.

Lemma appendToConsole_spec (message : string) (w : World) :
  blank message = false ->
  exists w',
    appendToConsole message w = (Normal tt, w')
    /\ wire w' = wire w
    /\ consoleOutput w' = consoleOutput w ++ [message]
    /\ sameSession w w'.
Proof.
  intros Hb. unfold appendToConsole. rewrite Hb.
  eexists. split; [reflexivity|]. cbn. repeat split.
Qed.

Lemma blank_dataOkLine (offset n : Z) : blank (dataOkLine offset n) = false.
Proof. reflexivity. Qed.

Lemma blank_dataErrorLine (offset : Z) : blank (dataErrorLine offset) = false.
Proof. reflexivity. Qed.

Lemma sendFirmware_loop_eq (fuel : nat) (pc : Characteristic) (B : list byte)
    (len ps offset : Z) :
  sendFirmware_loop (S fuel) pc B len ps offset =
  if offset <? len then
    (let chunkDataSize := JS.min ps (len - offset) in
     buffer <- lift (dataFrame B offset chunkDataSize) ;;
     sent <- try_catch
               (writeCharacteristic pc buffer ;;
                appendToConsole (dataOkLine offset chunkDataSize) ;;
                ret true)
               (fun _ => appendToConsole (dataErrorLine offset) ;; ret false) ;;
     if sent : bool
     then sendFirmware_loop fuel pc B len ps (offset + ps)
     else ret Returned)%js
  else ret Completed.
Proof. reflexivity. Qed.

Lemma sendFirmware_loop_exit (fuel : nat) (pc : Characteristic) (B : list byte)
    (len ps offset : Z) (w : World) :
  len <= offset ->
  sendFirmware_loop fuel pc B len ps offset w = (Normal Completed, w).
Proof.
  intros H. destruct fuel; cbn [sendFirmware_loop];
    destruct (Z.ltb_spec offset len); try lia; reflexivity.
Qed.

(** One iteration of the chunk loop, for a chunk inside the buffer. *)
Lemma sendFirmware_loop_step (fuel : nat) (pc : Characteristic)
    (B : list byte) (ps offset : Z) (w : World) :
  0 <= ps -> 0 <= offset -> offset < Z.of_nat (List.length B) ->
  let len := Z.of_nat (List.length B) in
  let n := Z.min ps (len - offset) in
  let ok := resolves pc (wire w) (writeKind pc) (dataBytes B offset n) in
  let a := {| att_kind := writeKind pc; att_data := dataBytes B offset n;
              att_ok := ok |} in
  exists w1,
    wire w1 = wire w ++ [a]
    /\ consoleOutput w1 = consoleOutput w
                          ++ [if ok then dataOkLine offset n
                              else dataErrorLine offset]
    /\ sameSession w w1
    /\ sendFirmware_loop (S fuel) pc B len ps offset w =
       if ok then sendFirmware_loop fuel pc B len ps (offset + ps) w1
       else (Normal Returned, w1).
Proof.
  intros Hps Ho Hlt len n ok a.
  rewrite sendFirmware_loop_eq.
  destruct (Z.ltb_spec offset len) as [_|]; [|lia].
  cbv zeta. fold len. unfold JS.min. fold n.
  unfold bind at 1. unfold lift.
  rewrite dataFrame_normal by (subst n len; lia).
  unfold bind at 1. unfold try_catch. unfold bind at 1.
  destruct (writeCharacteristic_spec pc (dataBytes B offset n) w)
    as (w1 & Hw & Hwire & Hcon & Hsame).
  rewrite Hw. subst a. clear Hw.
  change (resolves pc (wire w) (writeKind pc) (dataBytes B offset n))
    with ok in Hwire |- *.
  clearbody ok.
  destruct ok.
  - unfold bind at 1.
    destruct (appendToConsole_spec (dataOkLine offset n) w1
                (blank_dataOkLine offset n))
      as (w2 & Ha & Hwire2 & Hcon2 & Hsame2).
    rewrite Ha. unfold ret at 1.
    exists w2. split; [|split; [|split]].
    + rewrite Hwire2, Hwire. reflexivity.
    + rewrite Hcon2, Hcon. reflexivity.
    + apply (sameSession_trans _ _ _ Hsame Hsame2).
    + reflexivity.
  - unfold bind at 1.
    destruct (appendToConsole_spec (dataErrorLine offset) w1
                (blank_dataErrorLine offset))
      as (w2 & Ha & Hwire2 & Hcon2 & Hsame2).
    rewrite Ha. unfold ret.
    exists w2. split; [|split; [|split]].
    + rewrite Hwire2, Hwire. reflexivity.
    + rewrite Hcon2, Hcon. reflexivity.
    + apply (sameSession_trans _ _ _ Hsame Hsame2).
    + reflexivity.
Qed.

(** ** The chunk loop and [sendFirmware] as transcripts *)

Section Transfer.

Variable pc : Characteristic.
Variable B : list byte.
Variable ps : Z.
Hypothesis ps_pos : 1 <= ps.

Let len := Z.of_nat (List.length B).

Lemma sendFirmware_loop_spec (fuel : nat) :
  forall (offset : Z) (w : World),
    0 <= offset ->
    len - offset <= Z.of_nat fuel * ps ->
    exists e fs lines w',
      sendFirmware_loop fuel pc B len ps offset w = (Normal e, w')
      /\ wire w' = wire w ++ fs
      /\ consoleOutput w' = consoleOutput w ++ lines
      /\ sameSession w w'
      /\ Transcript pc B ps (wire w) offset fs lines e.
Proof.
  induction fuel as [|fuel IH]; intros offset w Ho Hfuel.
  - exists Completed, [], [], w.
    rewrite sendFirmware_loop_exit by lia.
    rewrite !app_nil_r.
    repeat split. apply T_done. fold len. lia.
  - destruct (Z.le_gt_cases len offset) as [Hge|Hlt].
    + exists Completed, [], [], w.
      rewrite sendFirmware_loop_exit by lia.
      rewrite !app_nil_r.
      repeat split. apply T_done. exact Hge.
    + destruct (sendFirmware_loop_step fuel pc B ps offset w ltac:(lia) Ho Hlt)
        as (w1 & Hwire & Hcon & Hsame & Hrun).
      fold len in Hrun, Hwire, Hcon.
      set (n := Z.min ps (len - offset)) in *.
      set (d := dataBytes B offset n) in *.
      destruct (resolves pc (wire w) (writeKind pc) d) eqn:Eok.
      * destruct (IH (offset + ps) w1) as (e & fs & lines & w' & Hr & Hw' & Hc' & Hs' & Ht);
          [lia|nia|].
        exists e, ({| att_kind := writeKind pc; att_data := d; att_ok := true |} :: fs),
          (dataOkLine offset n :: lines), w'.
        split; [rewrite Hrun; exact Hr|].
        split; [rewrite Hw', Hwire, <- app_assoc; reflexivity|].
        split; [rewrite Hc', Hcon, <- app_assoc; reflexivity|].
        split; [apply (sameSession_trans _ _ _ Hsame Hs')|].
        eapply T_ok; [exact Hlt|reflexivity|exact Eok|].
        rewrite <- Hwire. exact Ht.
      * exists Returned, [{| att_kind := writeKind pc; att_data := d; att_ok := false |}],
          [dataErrorLine offset], w1.
        split; [exact Hrun|].
        split; [exact Hwire|].
        split; [exact Hcon|].
        split; [exact Hsame|].
        eapply T_fail; [exact Hlt|reflexivity|exact Eok].
Qed.

End Transfer.

(** While no write is rejected, each unit of fuel advances the offset by
    [ps] only: fuel that does not reach the end of the buffer runs out. *)
Lemma sendFirmware_loop_out_of_fuel (pc : Characteristic) (B : list byte)
    (ps : Z) (fuel : nat) :
  0 <= ps ->
  reliable pc ->
  forall (offset : Z) (w : World),
    0 <= offset ->
    offset + Z.of_nat fuel * ps < Z.of_nat (List.length B) ->
    fst (sendFirmware_loop fuel pc B (Z.of_nat (List.length B)) ps offset w)
    = OutOfFuel.
Proof.
  intros Hps Hrel.
  induction fuel as [|fuel IH]; intros offset w Ho Hfuel.
  - cbn [sendFirmware_loop].
    destruct (Z.ltb_spec offset (Z.of_nat (List.length B))); [reflexivity|lia].
  - assert (Hlt : offset < Z.of_nat (List.length B)) by nia.
    destruct (sendFirmware_loop_step fuel pc B ps offset w Hps Ho Hlt)
      as (w1 & _ & _ & _ & Hrun).
    cbv zeta in Hrun. rewrite Hrun, Hrel.
    apply IH; lia.
Qed.

Lemma console_spec (l : Level) (message : string) (w : World) :
  exists w',
    console l message w = (Normal tt, w')
    /\ wire w' = wire w
    /\ consoleOutput w' = consoleOutput w
    /\ sameSession w w'.
Proof. eexists. split; [reflexivity|]. cbn. repeat split. Qed.

Lemma blank_sendingLine (B : list byte) (mtu : Z) :
  blank (sendingLine B mtu) = false.
Proof. reflexivity. Qed.

Lemma sendReload_spec (pc : Characteristic) (w : World) :
  programCharacteristic w = Some pc ->
  exists w',
    sendReload w = (Normal tt, w')
    /\ wire w' = wire w ++ [reloadAttempt pc (wire w)]
    /\ consoleOutput w' =
       consoleOutput w ++ [if att_ok (reloadAttempt pc (wire w))
                           then "Send re[L]oad Complete"%string
                           else "Send re[L]oad Error:"%string]
    /\ sameSession w w'.
Proof.
  intros Hpc. unfold sendReload.
  unfold bind at 1. unfold lift. rewrite commandFrame_normal.
  change (byte_of_Z (Z_of_byte "L")) with "L"%byte.
  unfold try_catch. unfold bind at 1.
  unfold withProgramCharacteristic. rewrite Hpc.
  destruct (writeCharacteristic_spec pc [x01; "L"%byte] w)
    as (w1 & Hw & Hwire & Hcon & Hsame).
  rewrite Hw. unfold reloadAttempt. cbn [att_ok].
  destruct (resolves pc (wire w) (writeKind pc) [x01; "L"%byte]).
  - destruct (appendToConsole_spec "Send re[L]oad Complete" w1 eq_refl)
      as (w2 & Ha & Hwire2 & Hcon2 & Hsame2).
    rewrite Ha. exists w2.
    split; [reflexivity|].
    split; [rewrite Hwire2, Hwire; reflexivity|].
    split; [rewrite Hcon2, Hcon; reflexivity|].
    apply (sameSession_trans _ _ _ Hsame Hsame2).
  - destruct (appendToConsole_spec "Send re[L]oad Error:" w1 eq_refl)
      as (w2 & Ha & Hwire2 & Hcon2 & Hsame2).
    rewrite Ha. exists w2.
    split; [reflexivity|].
    split; [rewrite Hwire2, Hwire; reflexivity|].
    split; [rewrite Hcon2, Hcon; reflexivity|].
    apply (sameSession_trans _ _ _ Hsame Hsame2).
Qed.

(** *** Calls that are not awaited *)

Lemma Quiet_run {A : Type} (m : M A) (w w' : World) (r : Completion A) :
  Quiet m -> m w = (r, w') -> pending w' = pending w.
Proof. intros Hm Hrun. rewrite <- (Hm w), Hrun. reflexivity. Qed.

Lemma Quiet_ret {A : Type} (a : A) : Quiet (ret a).
Proof. intros w. reflexivity. Qed.

Lemma Quiet_lift {A : Type} (c : Completion A) : Quiet (lift c).
Proof. intros w. reflexivity. Qed.

Lemma Quiet_outOfFuel {A : Type} : Quiet (@outOfFuel A).
Proof. intros w. reflexivity. Qed.

Lemma Quiet_bind {A B : Type} (m : M A) (f : A -> M B) :
  Quiet m -> (forall a, Quiet (f a)) -> Quiet (bind m f).
Proof.
  intros Hm Hf w. unfold bind. pose proof (Hm w) as H.
  destruct (m w) as [[a|e|] w1]; cbn [snd] in *.
  - rewrite Hf. exact H.
  - exact H.
  - exact H.
Qed.

Lemma Quiet_try_catch {A : Type} (m : M A) (h : JsError -> M A) :
  Quiet m -> (forall e, Quiet (h e)) -> Quiet (try_catch m h).
Proof.
  intros Hm Hh w. unfold try_catch. pose proof (Hm w) as H.
  destruct (m w) as [[a|e|] w1]; cbn [snd] in *.
  - exact H.
  - rewrite Hh. exact H.
  - exact H.
Qed.

Lemma Quiet_console (l : Level) (message : string) : Quiet (console l message).
Proof. intros w. reflexivity. Qed.

Lemma Quiet_appendToConsole (message : string) :
  Quiet (appendToConsole message).
Proof.
  intros w. unfold appendToConsole. destruct (blank message); reflexivity.
Qed.

Lemma Quiet_gattWrite (pc : Characteristic) (k : WriteKind)
    (buffer : list byte) : Quiet (gattWrite pc k buffer).
Proof. intros w. reflexivity. Qed.

Lemma Quiet_writeCharacteristic (pc : Characteristic) (buffer : list byte) :
  Quiet (writeCharacteristic pc buffer).
Proof.
  unfold writeCharacteristic. destruct (writeWithoutResponse pc).
  - apply Quiet_gattWrite.
  - apply Quiet_bind; [apply Quiet_console|].
    intros _. apply Quiet_gattWrite.
Qed.

Lemma Quiet_sendFirmware_loop (pc : Characteristic) (B : list byte)
    (len ps : Z) (fuel : nat) :
  forall offset, Quiet (sendFirmware_loop fuel pc B len ps offset).
Proof.
  induction fuel as [|fuel IH]; intros offset.
  - cbn [sendFirmware_loop]. destruct (offset <? len).
    + apply Quiet_outOfFuel.
    + apply Quiet_ret.
  - rewrite sendFirmware_loop_eq. destruct (offset <? len).
    + cbv zeta. apply Quiet_bind; [apply Quiet_lift|]. intros buffer.
      apply Quiet_bind.
      * apply Quiet_try_catch.
        -- apply Quiet_bind; [apply Quiet_writeCharacteristic|].
           intros _. apply Quiet_bind; [apply Quiet_appendToConsole|].
           intros _. apply Quiet_ret.
        -- intros _. apply Quiet_bind; [apply Quiet_appendToConsole|].
           intros _. apply Quiet_ret.
      * intros [|]; [apply IH|apply Quiet_ret].
    + apply Quiet_ret.
Qed.

(** [sendReload] is its two halves run back to back. *)
Lemma sendReload_await (w : World) :
  sendReload w = bind sendReload_begin sendReload_resume w.
Proof.
  unfold sendReload, sendReload_begin, sendReload_resume.
  unfold bind at 1 3 4. unfold lift at 1 2.
  destruct (commandFrame "L"%byte) as [buffer|e|]; try reflexivity.
  unfold settled, try_catch, bind, lift.
  destruct (withProgramCharacteristic
              (fun pc => writeCharacteristic pc buffer) w) as [[[]|e|] w1];
    reflexivity.
Qed.

Lemma sendReload_unawaited_spec (pc : Characteristic) (w : World) :
  programCharacteristic w = Some pc ->
  exists w',
    sendReload_unawaited w = (Normal tt, w')
    /\ wire w' = wire w ++ [reloadAttempt pc (wire w)]
    /\ consoleOutput w' = consoleOutput w
    /\ sameSession w w'
    /\ pending w'
       = pending w ++ [if att_ok (reloadAttempt pc (wire w))
                       then Normal tt else Throw WriteError].
Proof.
  intros Hpc. unfold sendReload_unawaited, sendReload_begin, try_catch.
  unfold bind at 2. unfold lift. rewrite commandFrame_normal.
  change (byte_of_Z (Z_of_byte "L")) with "L"%byte.
  unfold bind, settled, withProgramCharacteristic. rewrite Hpc.
  destruct (writeCharacteristic_spec pc [x01; "L"%byte] w)
    as (w1 & Hw & Hwire & Hcon & Hsame).
  pose proof (Quiet_run _ _ _ _ (Quiet_writeCharacteristic pc _) Hw) as Hp.
  rewrite Hw. cbn [fst snd]. unfold defer, reloadAttempt. cbn [att_ok].
  eexists. split; [reflexivity|].
  cbn [wire consoleOutput pending].
  split; [exact Hwire|]. split; [exact Hcon|].
  split; [exact Hsame|].
  rewrite Hp. reflexivity.
Qed.

(** The Program write and what follows it. *)
Lemma finalize_spec (pc : Characteristic) (B : list byte) (w : World) :
  programCharacteristic w = Some pc ->
  exists w',
    try_catch
      (writeCharacteristic pc
         (programBytes (Z.of_nat (List.length B))
            (crc16_reflect 0xd175 0xffff B) 2) ;;
       appendToConsole "Send [P]rogram Complete" ;;
       sendReload_unawaited)
      (fun _ => appendToConsole "Send [P]rogram Error:") w
    = (Normal tt, w')
    /\ wire w' = wire w ++ finalWrites pc B (wire w)
    /\ consoleOutput w' = consoleOutput w ++ finalLines pc B (wire w)
    /\ sameSession w w'
    /\ pending w' = pending w ++ finalPending pc B (wire w).
Proof.
  intros Hpc. unfold try_catch. unfold bind at 1.
  unfold finalWrites, finalLines, finalPending, programAttempt. cbn [att_ok].
  set (bytes := programBytes (Z.of_nat (List.length B))
                  (crc16_reflect 0xd175 0xffff B) 2).
  destruct (writeCharacteristic_spec pc bytes w)
    as (w1 & Hw & Hwire & Hcon & Hsame).
  pose proof (Quiet_run _ _ _ _ (Quiet_writeCharacteristic pc _) Hw) as Hp.
  rewrite Hw.
  destruct (resolves pc (wire w) (writeKind pc) bytes).
  - unfold bind at 1.
    destruct (appendToConsole_spec "Send [P]rogram Complete" w1 eq_refl)
      as (w2 & Ha & Hwire2 & Hcon2 & Hsame2).
    pose proof (Quiet_run _ _ _ _ (Quiet_appendToConsole _) Ha) as Hp2.
    rewrite Ha.
    assert (Hpc2 : programCharacteristic w2 = Some pc).
    { destruct Hsame as (E1 & _), Hsame2 as (E2 & _). congruence. }
    destruct (sendReload_unawaited_spec pc w2 Hpc2)
      as (w3 & Hr & Hwire3 & Hcon3 & Hsame3 & Hp3).
    rewrite Hr. exists w3.
    split; [reflexivity|].
    split.
    { rewrite Hwire3, Hwire2, Hwire, <- app_assoc. reflexivity. }
    split.
    { rewrite Hcon3, Hcon2, Hcon. reflexivity. }
    split.
    { apply (sameSession_trans _ _ _ Hsame).
      apply (sameSession_trans _ _ _ Hsame2 Hsame3). }
    rewrite Hp3, Hp2, Hp, Hwire2, Hwire. reflexivity.
  - destruct (appendToConsole_spec "Send [P]rogram Error:" w1 eq_refl)
      as (w2 & Ha & Hwire2 & Hcon2 & Hsame2).
    pose proof (Quiet_run _ _ _ _ (Quiet_appendToConsole _) Ha) as Hp2.
    rewrite Ha. exists w2.
    split; [reflexivity|].
    split; [rewrite Hwire2, Hwire; reflexivity|].
    split; [rewrite Hcon2, Hcon; reflexivity|].
    split; [apply (sameSession_trans _ _ _ Hsame Hsame2)|].
    rewrite Hp2, Hp, app_nil_r. reflexivity.
Qed.

Lemma sendFirmware_spec (pc : Characteristic) (B : list byte) (fuel : nat)
    (w : World) :
  programCharacteristic w = Some pc ->
  1 <= negotiatedMTU w - 6 ->
  Z.of_nat (List.length B) <= Z.of_nat fuel * (negotiatedMTU w - 6) ->
  exists e fs lines w',
    Transcript pc B (negotiatedMTU w - 6) (wire w) 0 fs lines e
    /\ sendFirmware fuel B w = (Normal tt, w')
    /\ sameSession w w'
    /\ wire w' = wire w ++ fs ++ afterLoop e (finalWrites pc B (wire w ++ fs))
    /\ consoleOutput w' =
       consoleOutput w ++ sendingLine B (negotiatedMTU w) :: lines
       ++ afterLoop e (finalLines pc B (wire w ++ fs)).
Proof.
  intros Hpc Hps Hfuel. unfold sendFirmware. rewrite Hpc.
  unfold bind at 1. unfold get_negotiatedMTU.
  unfold bind at 1.
  destruct (appendToConsole_spec (sendingLine B (negotiatedMTU w)) w
              (blank_sendingLine B (negotiatedMTU w)))
    as (w1 & Ha & Hwire1 & Hcon1 & Hsame1).
  unfold sendingLine in Ha. rewrite Ha.
  unfold bind at 1.
  destruct (console_spec Log
              ("DATA_PAYLOAD_SIZE: " ++ num (negotiatedMTU w - DATA_HEADER_SIZE)
               ++ " Bytes") w1)
    as (w2 & Hc & Hwire2 & Hcon2 & Hsame2).
  rewrite Hc. unfold bind at 1.
  change (negotiatedMTU w - DATA_HEADER_SIZE) with (negotiatedMTU w - 6).
  destruct (sendFirmware_loop_spec pc B (negotiatedMTU w - 6) Hps fuel 0 w2
              ltac:(lia) ltac:(lia))
    as (e & fs & lines & w3 & Hrun & Hwire3 & Hcon3 & Hsame3 & Ht).
  rewrite Hrun.
  assert (Hw2 : wire w2 = wire w) by congruence.
  assert (Hc2 : consoleOutput w2
                = consoleOutput w ++ [sendingLine B (negotiatedMTU w)])
    by congruence.
  assert (Hs3 : sameSession w w3).
  { apply (sameSession_trans _ _ _ Hsame1).
    apply (sameSession_trans _ _ _ Hsame2 Hsame3). }
  rewrite Hw2 in Ht, Hwire3. rewrite Hc2 in Hcon3.
  exists e, fs, lines.
  destruct e.
  - unfold bind at 1. unfold lift. rewrite programFrame_normal.
    assert (Hpc3 : programCharacteristic w3 = Some pc).
    { destruct Hs3 as (E & _). congruence. }
    destruct (finalize_spec pc B w3 Hpc3)
      as (w4 & Hf & Hwire4 & Hcon4 & Hsame4 & _).
    rewrite Hf. exists w4.
    split; [exact Ht|].
    split; [reflexivity|].
    split; [apply (sameSession_trans _ _ _ Hs3 Hsame4)|].
    cbn [afterLoop].
    split.
    + rewrite Hwire4, Hwire3, <- app_assoc. reflexivity.
    + rewrite Hcon4, Hcon3, Hwire3, <- !app_assoc. reflexivity.
  - exists w3.
    split; [exact Ht|].
    split; [reflexivity|].
    split; [exact Hs3|].
    cbn [afterLoop]. rewrite !app_nil_r.
    split; [exact Hwire3|].
    rewrite Hcon3, <- app_assoc. reflexivity.
Qed.

(** ** Reading back the frames that were built *)

Lemma isData_dataBytes (B : list byte) (o n : Z) :
  Wire.isData (dataBytes B o n) = true.
Proof. reflexivity. Qed.

Lemma isProgram_dataBytes (B : list byte) (o n : Z) :
  Wire.isProgram (dataBytes B o n) = false.
Proof. reflexivity. Qed.

Lemma offset_dataBytes (B : list byte) (o n : Z) :
  Wire.offset (dataBytes B o n) = o mod 65536.
Proof.
  unfold Wire.offset, dataBytes. cbn [app].
  rewrite !field16_cons. apply field16_le.
Qed.

Lemma chunkLength_dataBytes (B : list byte) (o n : Z) :
  Wire.chunkLength (dataBytes B o n) = n mod 65536.
Proof.
  unfold Wire.chunkLength, dataBytes. cbn [app].
  rewrite !field16_cons. apply field16_le.
Qed.

Lemma payload_dataBytes (B : list byte) (o n : Z) :
  Wire.payload (dataBytes B o n)
  = firstn (Z.to_nat n) (skipn (Z.to_nat o) B).
Proof. reflexivity. Qed.

Lemma isData_programBytes (l c s : Z) :
  Wire.isData (programBytes l c s) = false.
Proof. reflexivity. Qed.

Lemma isProgram_programBytes (l c s : Z) :
  Wire.isProgram (programBytes l c s) = true.
Proof. reflexivity. Qed.

Lemma totalLength_programBytes (l c s : Z) :
  Wire.totalLength (programBytes l c s) = l mod 65536.
Proof.
  unfold Wire.totalLength, programBytes.
  rewrite !field16_cons. apply field16_le.
Qed.

Lemma crc16_programBytes (l c s : Z) :
  Wire.crc16 (programBytes l c s) = c mod 65536.
Proof.
  unfold Wire.crc16, programBytes.
  rewrite !field16_cons. apply field16_le.
Qed.

Lemma slot_programBytes (l c s : Z) :
  Wire.slot (programBytes l c s) = s mod 256.
Proof. unfold Wire.slot, programBytes. cbn [nth]. apply Z_of_byte_of_Z. Qed.

Lemma length_programBytes (l c s : Z) :
  List.length (programBytes l c s) = 8%nat.
Proof. reflexivity. Qed.

Lemma sentSince_app (w w' : World) (l : list Attempt) :
  wire w' = wire w ++ l -> sentSince w w' = l.
Proof.
  intros H. unfold sentSince. rewrite H.
  rewrite skipn_app, skipn_all, Nat.sub_diag. reflexivity.
Qed.

(** ** Consequences of a transcript *)

Section TranscriptFacts.

Variable pc : Characteristic.
Variable B : list byte.
Variable ps : Z.
Hypothesis ps_pos : 1 <= ps.

Let len := Z.of_nat (List.length B).

Lemma Transcript_nth h offset fs lines e :
  Transcript pc B ps h offset fs lines e ->
  forall (i : nat) (a : Attempt),
    nth_error fs i = Some a ->
    let o := offset + Z.of_nat i * ps in
    o < len
    /\ att_kind a = writeKind pc
    /\ att_data a = dataBytes B o (Z.min ps (len - o)).
Proof.
  induction 1 as [h offset Hge|h offset a Hlt Ha Hr
                  |h offset a rest lines e Hlt Ha Hr Ht IH];
    intros i b Hi.
  - destruct i; discriminate.
  - destruct i as [|i]; [|destruct i; discriminate].
    injection Hi as <-. cbn zeta.
    replace (offset + Z.of_nat 0 * ps) with offset by lia.
    subst a. fold len. cbn. auto.
  - destruct i as [|i].
    + injection Hi as <-. cbn zeta.
      replace (offset + Z.of_nat 0 * ps) with offset by lia.
      subst a. fold len. cbn. auto.
    + cbn [nth_error] in Hi. specialize (IH i b Hi). cbn zeta in IH.
      cbn zeta.
      replace (offset + Z.of_nat (S i) * ps)
        with (offset + ps + Z.of_nat i * ps) by lia.
      exact IH.
Qed.

Lemma Transcript_kinds h offset fs lines e :
  Transcript pc B ps h offset fs lines e ->
  Forall (fun a => Wire.isData (att_data a) = true) fs.
Proof.
  induction 1 as [| h offset a Hlt Ha Hr
                  | h offset a rest lines e Hlt Ha Hr Ht IH].
  - constructor.
  - constructor; [|constructor]. subst a. apply isData_dataBytes.
  - constructor; [|exact IH]. subst a. apply isData_dataBytes.
Qed.

Lemma Transcript_completed h offset fs lines e :
  Transcript pc B ps h offset fs lines e ->
  e = Completed ->
  Forall (fun a => att_ok a = true) fs
  /\ len <= offset + Z.of_nat (List.length fs) * ps
  /\ List.length lines = List.length fs.
Proof.
  induction 1 as [h offset Hge|h offset a Hlt Ha Hr
                  |h offset a rest lines e Hlt Ha Hr Ht IH];
    intros He.
  - split; [constructor|]. cbn [List.length]. fold len in Hge. lia.
  - discriminate.
  - destruct (IH He) as (Hok & Hlen & Hlines).
    split; [constructor; [subst a; reflexivity|exact Hok]|].
    cbn [List.length]. lia.
Qed.

Lemma Transcript_returned h offset fs lines e :
  Transcript pc B ps h offset fs lines e ->
  e = Returned ->
  exists init a lines0,
    fs = init ++ [a]
    /\ Forall (fun b => att_ok b = true) init
    /\ att_ok a = false
    /\ resolves pc (h ++ init) (att_kind a) (att_data a) = false
    /\ lines = lines0
               ++ [dataErrorLine (offset + Z.of_nat (List.length init) * ps)]
    /\ List.length lines0 = List.length init.
Proof.
  induction 1 as [h offset Hge|h offset a Hlt Ha Hr
                  |h offset a rest lines e Hlt Ha Hr Ht IH];
    intros He.
  - discriminate.
  - exists [], a, []. rewrite app_nil_r. cbn [app List.length].
    replace (offset + Z.of_nat 0 * ps) with offset by lia.
    repeat split; [constructor|subst a; reflexivity|exact Hr].
  - destruct (IH He) as (init & b & lines0 & Hfs & Hok & Hb & Hres & Hl & Hn).
    exists (a :: init), b,
      (dataOkLine offset (Z.min ps (Z.of_nat (List.length B) - offset))
       :: lines0).
    subst rest lines. cbn [app List.length].
    replace (offset + Z.of_nat (S (List.length init)) * ps)
      with (offset + ps + Z.of_nat (List.length init) * ps) by lia.
    rewrite <- app_assoc in Hres. cbn [app] in Hres.
    repeat split; try assumption; try reflexivity.
    + constructor; [subst a; reflexivity|exact Hok].
    + lia.
Qed.

Lemma Transcript_reliable h offset fs lines e :
  Transcript pc B ps h offset fs lines e ->
  reliable pc -> e = Completed.
Proof.
  induction 1 as [| h offset a Hlt Ha Hr
                  | h offset a rest lines e Hlt Ha Hr Ht IH]; intros Hrel.
  - reflexivity.
  - rewrite Hrel in Hr. discriminate.
  - auto.
Qed.

Lemma Transcript_all_ok h offset fs lines e :
  Transcript pc B ps h offset fs lines e ->
  (forall a, In a fs -> att_ok a = true) -> e = Completed.
Proof.
  induction 1 as [| h offset a Hlt Ha Hr
                  | h offset a rest lines e Hlt Ha Hr Ht IH]; intros Hall.
  - reflexivity.
  - specialize (Hall a (or_introl eq_refl)). subst a. discriminate.
  - apply IH. intros b Hb. apply Hall. now right.
Qed.

End TranscriptFacts.

Section TranscriptLength.

Variable pc : Characteristic.
Variable B : list byte.
Variable ps : Z.
Hypothesis ps_pos : 1 <= ps.

(** Every frame of a transcript starts inside the buffer. *)
Lemma Transcript_length_le h offset fs lines e :
  Transcript pc B ps h offset fs lines e ->
  0 <= offset ->
  fs = [] \/
  offset + (Z.of_nat (List.length fs) - 1) * ps < Z.of_nat (List.length B).
Proof.
  induction 1 as [| h offset a Hlt Ha Hr
                  | h offset a rest lines e Hlt Ha Hr Ht IH]; intros Ho.
  - now left.
  - right. cbn [List.length]. lia.
  - right. destruct (IH ltac:(lia)) as [->|Hrest].
    + cbn [List.length]. lia.
    + cbn [List.length]. lia.
Qed.

End TranscriptLength.

Section TranscriptSums.

Variable pc : Characteristic.
Variable B : list byte.
Variable ps : Z.
Hypothesis ps_pos : 1 <= ps.

Let len := Z.of_nat (List.length B).

Lemma Transcript_sum h offset fs lines e :
  Transcript pc B ps h offset fs lines e ->
  e = Completed -> 0 <= offset -> len <= 65535 ->
  sumZ (map Wire.chunkLength (map att_data fs)) = Z.max 0 (len - offset).
Proof.
  induction 1 as [h offset Hge|h offset a Hlt Ha Hr
                  |h offset a rest lines e Hlt Ha Hr Ht IH];
    intros He Ho Hlen.
  - fold len in Hge. cbn [map sumZ]. lia.
  - discriminate.
  - cbn [map sumZ]. rewrite IH by (assumption || lia).
    subst a. cbn [att_data]. rewrite chunkLength_dataBytes.
    fold len in Hlt |- *.
    rewrite Z.mod_small by lia. lia.
Qed.

Lemma Transcript_concat h offset fs lines e :
  Transcript pc B ps h offset fs lines e ->
  e = Completed -> 0 <= offset ->
  List.concat (map Wire.payload (map att_data fs)) = skipn (Z.to_nat offset) B.
Proof.
  induction 1 as [h offset Hge|h offset a Hlt Ha Hr
                  |h offset a rest lines e Hlt Ha Hr Ht IH];
    intros He Ho.
  - cbn [map List.concat]. symmetry. apply skipn_all2. lia.
  - discriminate.
  - cbn [map List.concat]. rewrite IH by (assumption || lia).
    subst a. cbn [att_data]. rewrite payload_dataBytes.
    fold len in Hlt |- *.
    destruct (Z.le_gt_cases ps (len - offset)) as [Hfull|Hlast].
    + rewrite Z.min_l by lia.
      replace (Z.to_nat (offset + ps)) with (Z.to_nat ps + Z.to_nat offset)%nat
        by lia.
      rewrite <- skipn_skipn. apply firstn_skipn.
    + rewrite Z.min_r by lia.
      rewrite firstn_all2 by (rewrite length_skipn; subst len; lia).
      rewrite (skipn_all2 (n := Z.to_nat (offset + ps))) by (subst len; lia).
      apply app_nil_r.
Qed.

End TranscriptSums.

Lemma filter_all {A : Type} (p : A -> bool) (l : list A) :
  Forall (fun x => p x = true) l -> filter p l = l.
Proof.
  induction 1 as [|x l Hx _ IH]; cbn [filter]; [reflexivity|].
  rewrite Hx, IH. reflexivity.
Qed.

Lemma dataFrames_run (pc : Characteristic) (B : list byte) (h : list Attempt)
    (e : LoopExit) (fs : list Attempt) :
  Forall (fun a => Wire.isData (att_data a) = true) fs ->
  dataFrames (fs ++ afterLoop e (finalWrites pc B h)) = map att_data fs.
Proof.
  intros Hd. unfold dataFrames. rewrite map_app, filter_app.
  rewrite filter_all by (apply Forall_map; exact Hd).
  replace (filter Wire.isData (map att_data (afterLoop e (finalWrites pc B h))))
    with (@nil (list byte)); [apply app_nil_r|].
  destruct e; [|reflexivity].
  unfold afterLoop, finalWrites.
  destruct (att_ok (programAttempt pc B h)); reflexivity.
Qed.

Lemma programFrames_run (pc : Characteristic) (B : list byte) (h : list Attempt)
    (e : LoopExit) (fs : list Attempt) :
  Forall (fun a => Wire.isData (att_data a) = true) fs ->
  programFrames (fs ++ afterLoop e (finalWrites pc B h))
  = afterLoop e [att_data (programAttempt pc B h)].
Proof.
  intros Hd. unfold programFrames. rewrite map_app, filter_app.
  replace (filter Wire.isProgram (map att_data fs)) with (@nil (list byte)).
  - destruct e; [|reflexivity].
    unfold afterLoop, finalWrites.
    destruct (att_ok (programAttempt pc B h)); reflexivity.
  - clear -Hd. induction Hd as [|a l Ha _ IH]; [reflexivity|].
    cbn [map filter]. rewrite <- IH.
    unfold Wire.isData, Wire.isProgram in *.
    destruct (Wire.tag (att_data a)); try discriminate Ha; reflexivity.
Qed.

(** A run of [sendFirmware] with a positive payload size and fuel for one
    iteration per byte: it returns, and what it sent is a transcript. *)
Lemma sendFirmware_run (pc : Characteristic) (B : list byte) (fuel : nat)
    (w : World) :
  programCharacteristic w = Some pc ->
  7 <= negotiatedMTU w ->
  (List.length B <= fuel)%nat ->
  exists e fs lines,
    Transcript pc B (negotiatedMTU w - 6) (wire w) 0 fs lines e
    /\ fst (sendFirmware fuel B w) = Normal tt
    /\ sentSince w (snd (sendFirmware fuel B w))
       = fs ++ afterLoop e (finalWrites pc B (wire w ++ fs))
    /\ dataFrames (sentSince w (snd (sendFirmware fuel B w))) = map att_data fs
    /\ programFrames (sentSince w (snd (sendFirmware fuel B w)))
       = afterLoop e [att_data (programAttempt pc B (wire w ++ fs))]
    /\ consoleOutput (snd (sendFirmware fuel B w)) =
       consoleOutput w ++ sendingLine B (negotiatedMTU w) :: lines
       ++ afterLoop e (finalLines pc B (wire w ++ fs)).
Proof.
  intros Hpc Hmtu Hfuel.
  destruct (sendFirmware_spec pc B fuel w Hpc ltac:(lia) ltac:(nia))
    as (e & fs & lines & w' & Ht & Hrun & Hsame & Hwire & Hcon).
  exists e, fs, lines. rewrite Hrun. cbn [fst snd].
  pose proof (Transcript_kinds pc B _ _ _ _ _ _ Ht) as Hd.
  rewrite (sentSince_app w w' _ Hwire).
  repeat split; try assumption.
  - apply dataFrames_run. exact Hd.
  - apply programFrames_run. exact Hd.
Qed.

(** On a channel that rejects nothing the run ends with the Program frame. *)
Lemma sendFirmware_reliable (pc : Characteristic) (B : list byte) (fuel : nat)
    (w : World) :
  programCharacteristic w = Some pc ->
  7 <= negotiatedMTU w ->
  (List.length B <= fuel)%nat ->
  reliable pc ->
  fst (sendFirmware fuel B w) = Normal tt
  /\ programFrames (sentSince w (snd (sendFirmware fuel B w)))
     = [programBytes (Z.of_nat (List.length B))
          (crc16_reflect 0xd175 0xffff B) 2].
Proof.
  intros Hpc Hmtu Hfuel Hrel.
  destruct (sendFirmware_run pc B fuel w Hpc Hmtu Hfuel)
    as (e & l & lines & Ht & Hres & _ & _ & Hprog & _).
  split; [exact Hres|].
  rewrite Hprog.
  rewrite (Transcript_reliable pc B _ _ _ _ _ _ Ht Hrel).
  reflexivity.
Qed.

(** In a given run, every write was accepted: by evaluation. *)
Ltac all_resolved a Ha :=
  match type of Ha with
  | In _ ?l =>
      let Hall := fresh "Hall" in
      assert (Hall : forallb att_ok l = true) by (vm_compute; reflexivity);
      exact (proj1 (forallb_forall att_ok l) Hall a Ha)
  end.

(** * The properties of the deployment protocol *)

(** C4. [crc16_reflect] is the reflected (LSB-first) CRC16 of the design:
    for every 16-bit polynomial and seed and every byte buffer it computes
    what the reference algorithm computes (each byte XORed into the low
    byte of a 16-bit accumulator, eight rounds of shift-right with a
    conditional XOR of the polynomial, the result masked to 16 bits); its
    result is a 16-bit value that depends on nothing but its three
    arguments; on the empty buffer it returns the seed, and
    [crc16_reflect 0xD175 0xFFFF [] = 0xFFFF]. *)
Theorem crc16_reflect_reference (poly seed : Z) (buf : list byte) :
  0 <= poly < 65536 ->
  0 <= seed < 65536 ->
  crc16_reflect poly seed buf = Reference.checksum poly seed buf
  /\ 0 <= crc16_reflect poly seed buf < 65536
  /\ crc16_reflect poly seed [] = seed
  /\ crc16_reflect 0xD175 0xFFFF [] = 0xFFFF.
Proof.
  intros Hp Hs.
  split; [apply crc16_reflect_checksum; assumption|].
  split; [apply crc16_reflect_range|].
  split; [|reflexivity].
  unfold crc16_reflect, crc16_bytes. cbn [fold_left].
  apply band_ffff_u16. exact Hs.
Qed.

Lemma crc16_reflect_reference_witness :
  crc16_reflect 0xD175 0xFFFF sampleFirmware
  = Reference.checksum 0xD175 0xFFFF sampleFirmware
  /\ 0 <= crc16_reflect 0xD175 0xFFFF sampleFirmware < 65536
  /\ crc16_reflect 0xD175 0xFFFF [] = 0xFFFF
  /\ crc16_reflect 0xD175 0xFFFF [] = 0xFFFF.
Proof.
  apply (crc16_reflect_reference 0xD175 0xFFFF sampleFirmware); lia.
Defined.

(** C1. For every firmware buffer [B] of at most 65535 bytes and every
    negotiated MTU of at least 7, the Data frames that [sendFirmware] writes
    start at offset 0, the frame at position [i] has offset [i * (MTU - 6)],
    so the offsets are strictly increasing and each frame begins where its
    predecessor ended, each frame's length field and payload length are
    [min (MTU - 6) (len B - offset)], and, when no Data write is rejected,
    the payload lengths sum to [len B]. *)
Theorem data_frames_cover_buffer (pc : Characteristic) (B : list byte)
    (fuel : nat) (w : World) :
  Z.of_nat (List.length B) <= 65535 ->
  7 <= negotiatedMTU w ->
  programCharacteristic w = Some pc ->
  (List.length B <= fuel)%nat ->
  let len := Z.of_nat (List.length B) in
  let ps := negotiatedMTU w - 6 in
  let sent := sentSince w (snd (sendFirmware fuel B w)) in
  let fs := dataFrames sent in
  (forall f, nth_error fs 0 = Some f -> Wire.offset f = 0)
  /\ (forall i f, nth_error fs i = Some f ->
        Wire.offset f = Z.of_nat i * ps
        /\ Wire.offset f < len
        /\ Wire.chunkLength f = Z.min ps (len - Wire.offset f)
        /\ Z.of_nat (List.length (Wire.payload f)) = Wire.chunkLength f)
  /\ (forall i f g,
        nth_error fs i = Some f -> nth_error fs (S i) = Some g ->
        Wire.offset f < Wire.offset g
        /\ Wire.offset g = Wire.offset f + Wire.chunkLength f)
  /\ ((forall a, In a sent -> Wire.isData (att_data a) = true ->
                 att_ok a = true) ->
      sumZ (map Wire.chunkLength fs) = len).
Proof.
  intros Hlen Hmtu Hpc Hfuel len ps sent fs.
  destruct (sendFirmware_run pc B fuel w Hpc Hmtu Hfuel)
    as (e & l & lines & Ht & Hres & Hsent & Hdata & Hprog & Hcon).
  fold sent in Hsent, Hdata. fold fs in Hdata. fold ps in Ht.
  assert (Hps : 1 <= ps) by (subst ps; lia).
  assert (Hframe : forall i f, nth_error fs i = Some f ->
            Wire.offset f = Z.of_nat i * ps
            /\ Wire.offset f < len
            /\ Wire.chunkLength f = Z.min ps (len - Wire.offset f)
            /\ Z.of_nat (List.length (Wire.payload f)) = Wire.chunkLength f).
  { intros i f Hi. rewrite Hdata, nth_error_map in Hi.
    destruct (nth_error l i) as [a|] eqn:Ea; [|discriminate].
    injection Hi as <-.
    destruct (Transcript_nth pc B ps _ _ _ _ _ Ht i a Ea) as (Hlt & _ & Hd).
    fold len in Hlt, Hd. rewrite Z.add_0_l in Hlt, Hd.
    rewrite Hd, offset_dataBytes, chunkLength_dataBytes, payload_dataBytes.
    assert (Hi0 : 0 <= Z.of_nat i * ps) by nia.
    rewrite !Z.mod_small by lia.
    repeat split; try lia.
    rewrite length_firstn, length_skipn. fold len. lia. }
  split; [|split; [exact Hframe|split]].
  - intros f Hf. destruct (Hframe 0%nat f Hf) as (Ho & _). lia.
  - intros i f g Hf Hg.
    destruct (Hframe i f Hf) as (Hof & _ & Hcf & _).
    destruct (Hframe (S i) g Hg) as (Hog & Hlg & _).
    rewrite Hof in *. rewrite Hog in *. lia.
  - intros Hall. rewrite Hdata.
    assert (He : e = Completed).
    { apply (Transcript_all_ok pc B ps _ _ _ _ _ Ht).
      intros a Ha. apply Hall.
      - rewrite Hsent. apply in_or_app. now left.
      - pose proof (Transcript_kinds pc B ps _ _ _ _ _ Ht) as Hk.
        rewrite Forall_forall in Hk. now apply Hk. }
    rewrite (Transcript_sum pc B ps Hps _ _ _ _ _ Ht He) by (fold len; lia).
    fold len. lia.
Qed.

Lemma data_frames_cover_buffer_witness :
  let sent := sentSince (session steadyChannel 8)
                (snd (sendFirmware 5 sampleFirmware (session steadyChannel 8))) in
  map Wire.offset (dataFrames sent) = [0; 2; 4]
  /\ sumZ (map Wire.chunkLength (dataFrames sent)) = 5.
Proof.
  pose proof (data_frames_cover_buffer steadyChannel sampleFirmware 5
                (session steadyChannel 8)) as H.
  cbv zeta in H.
  destruct H as (_ & _ & _ & Hsum);
    [cbn; lia|cbn; lia|reflexivity|cbn; lia|].
  split; [reflexivity|].
  apply Hsum. intros a Ha _. all_resolved a Ha.
Defined.

(** C2. For every firmware buffer [B] (of at most 65535 bytes, negotiated
    MTU at least 7), the payload of each Data frame written is the slice
    [B[offset .. offset + chunkLength)] named by its own header, and, when
    no Data write is rejected, the payloads of the Data frames concatenated
    in the order sent (increasing offset) are exactly [B]. *)
Theorem data_payloads_reassemble (pc : Characteristic) (B : list byte)
    (fuel : nat) (w : World) :
  Z.of_nat (List.length B) <= 65535 ->
  7 <= negotiatedMTU w ->
  programCharacteristic w = Some pc ->
  (List.length B <= fuel)%nat ->
  let sent := sentSince w (snd (sendFirmware fuel B w)) in
  let fs := dataFrames sent in
  (forall i f, nth_error fs i = Some f ->
     Wire.payload f
     = firstn (Z.to_nat (Wire.chunkLength f))
         (skipn (Z.to_nat (Wire.offset f)) B))
  /\ ((forall a, In a sent -> Wire.isData (att_data a) = true ->
                 att_ok a = true) ->
      List.concat (map Wire.payload fs) = B).
Proof.
  intros Hlen Hmtu Hpc Hfuel sent fs.
  destruct (sendFirmware_run pc B fuel w Hpc Hmtu Hfuel)
    as (e & l & lines & Ht & Hres & Hsent & Hdata & Hprog & Hcon).
  fold sent in Hsent, Hdata. fold fs in Hdata.
  set (ps := negotiatedMTU w - 6) in *.
  assert (Hps : 1 <= ps) by (subst ps; lia).
  split.
  - intros i f Hi. rewrite Hdata, nth_error_map in Hi.
    destruct (nth_error l i) as [a|] eqn:Ea; [|discriminate].
    injection Hi as <-.
    destruct (Transcript_nth pc B ps _ _ _ _ _ Ht i a Ea) as (Hlt & _ & Hd).
    rewrite Z.add_0_l in Hlt, Hd.
    rewrite Hd, offset_dataBytes, chunkLength_dataBytes, payload_dataBytes.
    assert (Hi0 : 0 <= Z.of_nat i * ps) by nia.
    rewrite !Z.mod_small by lia. reflexivity.
  - intros Hall. rewrite Hdata.
    assert (He : e = Completed).
    { apply (Transcript_all_ok pc B ps _ _ _ _ _ Ht).
      intros a Ha. apply Hall.
      - rewrite Hsent. apply in_or_app. now left.
      - pose proof (Transcript_kinds pc B ps _ _ _ _ _ Ht) as Hk.
        rewrite Forall_forall in Hk. now apply Hk. }
    rewrite (Transcript_concat pc B ps Hps _ _ _ _ _ Ht He) by lia.
    reflexivity.
Qed.

Lemma data_payloads_reassemble_witness :
  List.concat
    (map Wire.payload
       (dataFrames
          (sentSince (session steadyChannel 8)
             (snd (sendFirmware 5 sampleFirmware (session steadyChannel 8))))))
  = sampleFirmware.
Proof.
  pose proof (data_payloads_reassemble steadyChannel sampleFirmware 5
                (session steadyChannel 8)) as H.
  cbv zeta in H.
  destruct H as (_ & Hcat);
    [cbn; lia|cbn; lia|reflexivity|cbn; lia|].
  apply Hcat. intros a Ha _. all_resolved a Ha.
Defined.

Lemma crc16_reflect_u16 (B : list byte) :
  0 <= crc16_reflect 0xd175 0xffff B < 65536.
Proof.
  apply crc16_reflect_range.
Qed.

(** *** What a computation writes *)

Lemma Writes_nothing {A : Type} (P : Attempt -> Prop) (m : M A) :
  (forall w, wire (snd (m w)) = wire w) -> Writes P m.
Proof.
  intros H w. exists []. rewrite app_nil_r. split; [apply H|constructor].
Qed.

Lemma Writes_ret {A : Type} (P : Attempt -> Prop) (a : A) : Writes P (ret a).
Proof. apply Writes_nothing. reflexivity. Qed.

Lemma Writes_console (P : Attempt -> Prop) (l : Level) (message : string) :
  Writes P (console l message).
Proof. apply Writes_nothing. reflexivity. Qed.

Lemma Writes_appendToConsole (P : Attempt -> Prop) (message : string) :
  Writes P (appendToConsole message).
Proof.
  apply Writes_nothing. intros w. unfold appendToConsole.
  destruct (blank message); reflexivity.
Qed.

Lemma Writes_bind {A B : Type} (P : Attempt -> Prop) (m : M A)
    (f : A -> M B) :
  Writes P m -> (forall a, Writes P (f a)) -> Writes P (bind m f).
Proof.
  intros Hm Hf w. unfold bind. destruct (Hm w) as (t & Hw & Ht).
  destruct (m w) as [[a|e|] w1]; cbn [snd] in *.
  - destruct (Hf a w1) as (t2 & Hw2 & Ht2).
    exists (t ++ t2). rewrite Hw2, Hw, app_assoc.
    split; [reflexivity|]. apply Forall_app. now split.
  - exists t. now split.
  - exists t. now split.
Qed.

(** Binding a value that was computed without the channel. *)
Lemma Writes_bind_lift {A B : Type} (P : Attempt -> Prop) (c : Completion A)
    (f : A -> M B) :
  (forall a, c = Normal a -> Writes P (f a)) -> Writes P (bind (lift c) f).
Proof.
  intros Hf w. unfold bind, lift. destruct c as [a|e|].
  - apply (Hf a eq_refl).
  - exists []. rewrite app_nil_r. split; [reflexivity|constructor].
  - exists []. rewrite app_nil_r. split; [reflexivity|constructor].
Qed.

Lemma Writes_try_catch {A : Type} (P : Attempt -> Prop) (m : M A)
    (h : JsError -> M A) :
  Writes P m -> (forall e, Writes P (h e)) -> Writes P (try_catch m h).
Proof.
  intros Hm Hh w. unfold try_catch. destruct (Hm w) as (t & Hw & Ht).
  destruct (m w) as [[a|e|] w1]; cbn [snd] in *.
  - exists t. now split.
  - destruct (Hh e w1) as (t2 & Hw2 & Ht2).
    exists (t ++ t2). rewrite Hw2, Hw, app_assoc.
    split; [reflexivity|]. apply Forall_app. now split.
  - exists t. now split.
Qed.

Lemma Writes_gattWrite (P : Attempt -> Prop) (ch : Characteristic)
    (k : WriteKind) (buffer : list byte) :
  (forall ok, P {| att_kind := k; att_data := buffer; att_ok := ok |}) ->
  Writes P (gattWrite ch k buffer).
Proof.
  intros H w. eexists. cbn [gattWrite snd wire]. split; [reflexivity|].
  constructor; [apply H|constructor].
Qed.

Lemma Writes_writeCharacteristic (P : Attempt -> Prop) (pc : Characteristic)
    (buffer : list byte) :
  (forall k ok, P {| att_kind := k; att_data := buffer; att_ok := ok |}) ->
  Writes P (writeCharacteristic pc buffer).
Proof.
  intros H. unfold writeCharacteristic. destruct (writeWithoutResponse pc).
  - apply Writes_gattWrite, H.
  - apply Writes_bind; [apply Writes_console|].
    intros _. apply Writes_gattWrite, H.
Qed.

Lemma Writes_withProgramCharacteristic {A : Type} (P : Attempt -> Prop)
    (k : Characteristic -> M A) :
  (forall pc, Writes P (k pc)) -> Writes P (withProgramCharacteristic k).
Proof.
  intros Hk w. unfold withProgramCharacteristic.
  destruct (programCharacteristic w) as [pc|]; [apply Hk|].
  exists []. rewrite app_nil_r. split; [reflexivity|constructor].
Qed.

Lemma Writes_settled {A : Type} (P : Attempt -> Prop) (m : M A) :
  Writes P m -> Writes P (settled m).
Proof.
  intros Hm w. unfold settled. pose proof (Hm w) as H.
  destruct (m w) as [r w1]. exact H.
Qed.

Lemma Writes_sendReload_unawaited (P : Attempt -> Prop) :
  (forall k ok,
     P {| att_kind := k; att_data := [x01; "L"%byte]; att_ok := ok |}) ->
  Writes P sendReload_unawaited.
Proof.
  intros H. unfold sendReload_unawaited, sendReload_begin.
  apply Writes_try_catch; [|intros _; apply Writes_ret].
  apply Writes_bind; [|intros promise; apply Writes_nothing; reflexivity].
  apply Writes_bind_lift. intros buffer Hb.
  rewrite commandFrame_normal in Hb. injection Hb as <-.
  apply Writes_settled, Writes_withProgramCharacteristic. intros pc.
  apply Writes_writeCharacteristic, H.
Qed.

(** The chunk loop writes frames with the tag ['D'] only, whatever the
    payload size. *)
Lemma Writes_sendFirmware_loop (P : Attempt -> Prop) (pc : Characteristic)
    (B : list byte) (len ps : Z) (fuel : nat) :
  (forall f k ok, Wire.tag f = "D"%byte ->
     P {| att_kind := k; att_data := f; att_ok := ok |}) ->
  forall offset, Writes P (sendFirmware_loop fuel pc B len ps offset).
Proof.
  intros HP. induction fuel as [|fuel IH]; intros offset.
  - cbn [sendFirmware_loop].
    destruct (offset <? len); apply Writes_nothing; reflexivity.
  - rewrite sendFirmware_loop_eq.
    destruct (offset <? len); [|apply Writes_ret].
    cbv zeta. apply Writes_bind_lift. intros buffer Hb.
    apply Writes_bind.
    + apply Writes_try_catch.
      * apply Writes_bind.
        { apply Writes_writeCharacteristic. intros k ok. apply HP.
          apply (dataFrame_tag _ _ _ _ Hb). }
        intros _. apply Writes_bind; [apply Writes_appendToConsole|].
        intros _. apply Writes_ret.
      * intros _. apply Writes_bind; [apply Writes_appendToConsole|].
        intros _. apply Writes_ret.
    + intros [|]; [apply IH|apply Writes_ret].
Qed.

(** Whatever the session and the fuel, the only Program frame
    [sendFirmware] writes is the one for its buffer. *)
Lemma Writes_sendFirmware (fuel : nat) (B : list byte) :
  Writes (programFor B) (sendFirmware fuel B).
Proof.
  intros w. unfold sendFirmware.
  destruct (programCharacteristic w) as [pc|]; [|apply Writes_console].
  revert w.
  match goal with
  | |- forall w, exists t, wire (snd (?m w)) = _ /\ _ =>
      change (Writes (programFor B) m)
  end.
  apply Writes_bind; [apply Writes_nothing; reflexivity|]. intros mtu.
  apply Writes_bind; [apply Writes_appendToConsole|]. intros _.
  apply Writes_bind; [apply Writes_console|]. intros _.
  apply Writes_bind.
  { apply Writes_sendFirmware_loop. intros f k ok Hf.
    unfold programFor, Wire.isProgram. cbn [att_data]. rewrite Hf.
    discriminate. }
  intros [|]; [|apply Writes_ret].
  apply Writes_bind_lift. intros buffer Hb.
  rewrite programFrame_normal in Hb. injection Hb as <-.
  apply Writes_try_catch; [|intros _; apply Writes_appendToConsole].
  apply Writes_bind.
  { apply Writes_writeCharacteristic. intros k ok _. reflexivity. }
  intros _. apply Writes_bind; [apply Writes_appendToConsole|]. intros _.
  apply Writes_sendReload_unawaited. intros k ok. discriminate.
Qed.

Lemma programFrames_sendFirmware (fuel : nat) (B : list byte) (w : World)
    (p : list byte) :
  In p (programFrames (sentSince w (snd (sendFirmware fuel B w)))) ->
  p = programBytes (Z.of_nat (List.length B))
        (crc16_reflect 0xd175 0xffff B) 2.
Proof.
  destruct (Writes_sendFirmware fuel B w) as (t & Hw & Ht).
  rewrite (sentSince_app _ _ _ Hw). unfold programFrames.
  rewrite filter_In, in_map_iff. intros ((a & <- & Ha) & Hp).
  rewrite Forall_forall in Ht. exact (Ht a Ha Hp).
Qed.

(** Counterexample to C3: the length field is not [len B] for every buffer.
    A buffer of 65540 bytes, sent over a channel that accepts every write,
    is followed by one Program frame, whose length field reads 4. *)
Lemma program_frame_length_wraps :
  let w := session steadyChannel 512 in
  let B := oversizeFirmware in
  let sent := sentSince w (snd (sendFirmware (List.length B) B w)) in
  Z.of_nat (List.length B) = 65540
  /\ exists p, programFrames sent = [p] /\ Wire.totalLength p = 4.
Proof.
  cbv zeta.
  assert (Hlen : Z.of_nat (List.length oversizeFirmware) = 65540).
  { unfold oversizeFirmware. rewrite repeat_length. reflexivity. }
  split; [exact Hlen|].
  destruct (sendFirmware_reliable steadyChannel oversizeFirmware
              (List.length oversizeFirmware) (session steadyChannel 512)
              eq_refl) as (_ & Hp).
  - cbn. lia.
  - apply le_n.
  - intros h k d. reflexivity.
  - eexists. split; [exact Hp|].
    rewrite totalLength_programBytes, Hlen. reflexivity.
Qed.

(** C3, as the code has it.  For every firmware buffer [B], of any length,
    whatever the session, the negotiated MTU (and so wherever the chunk
    boundaries fall) and the answers of the channel, a Program frame that
    [sendFirmware] writes is the 8 bytes version [0x01], tag ['P'], length
    field, CRC field, slot 2 and a zero reserved byte, the two fields
    little-endian.  Its CRC field is [crc16_reflect 0xD175 0xFFFF] of the
    buffer [B] itself (equally, the reference checksum of [B]).  Its length
    field is [len B] reduced modulo 2^16: it equals [len B] when [B] has at
    most 65535 bytes, and only then.  When the negotiated MTU is at least 7
    and no Data write is rejected, exactly one Program frame is written,
    after all the Data frames. *)
Theorem program_frame_length_and_crc (pc : Characteristic) (B : list byte)
    (fuel : nat) (w : World) :
  let len := Z.of_nat (List.length B) in
  let crc := crc16_reflect 0xD175 0xFFFF B in
  let sent := sentSince w (snd (sendFirmware fuel B w)) in
  (forall p, In p (programFrames sent) ->
     p = [x01; "P"%byte;
          byte_of_Z (len mod 65536); byte_of_Z (len mod 65536 / 256);
          byte_of_Z crc; byte_of_Z (crc / 256); x02; x00]
     /\ Wire.totalLength p = len mod 65536
     /\ (Wire.totalLength p = len <-> len <= 65535)
     /\ Wire.crc16 p = crc
     /\ Wire.crc16 p = Reference.checksum 0xD175 0xFFFF B
     /\ Wire.slot p = 2
     /\ Wire.reserved p = 0)
  /\ (programCharacteristic w = Some pc ->
      7 <= negotiatedMTU w ->
      (List.length B <= fuel)%nat ->
      (forall a, In a sent -> Wire.isData (att_data a) = true ->
                 att_ok a = true) ->
      exists ds a rest,
        sent = ds ++ a :: rest
        /\ map att_data ds = dataFrames sent
        /\ programFrames sent = [att_data a]).
Proof.
  intros len crc sent.
  pose proof (crc16_reflect_u16 B) as Hcrc. fold crc in Hcrc.
  assert (Hlen0 : 0 <= len) by (subst len; lia).
  split.
  - intros p Hp. apply programFrames_sendFirmware in Hp.
    fold len in Hp. change (crc16_reflect 53621 65535 B) with crc in Hp.
    subst p.
    rewrite totalLength_programBytes, crc16_programBytes.
    rewrite (Z.mod_small crc) by lia.
    split.
    { unfold programBytes, JS.toUint16. change (2 ^ 16) with 65536.
      rewrite (Z.mod_small crc) by lia. reflexivity. }
    split; [reflexivity|].
    split.
    { pose proof (Z.mod_pos_bound len 65536 ltac:(lia)) as Hm.
      split.
      - intros E. rewrite <- E. lia.
      - intros Hle. apply Z.mod_small. lia. }
    repeat split.
    apply crc16_reflect_checksum; lia.
  - intros Hpc Hmtu Hfuel Hall.
    destruct (sendFirmware_run pc B fuel w Hpc Hmtu Hfuel)
      as (e & l & lines & Ht & Hres & Hsent & Hdata & Hprog & Hcon).
    fold sent in Hsent, Hdata, Hprog.
    assert (He : e = Completed).
    { apply (Transcript_all_ok pc B _ _ _ _ _ _ Ht).
      intros a Ha. apply Hall.
      - rewrite Hsent. apply in_or_app. now left.
      - pose proof (Transcript_kinds pc B _ _ _ _ _ _ Ht) as Hk.
        rewrite Forall_forall in Hk. now apply Hk. }
    subst e. cbn [afterLoop] in Hsent, Hprog.
    unfold finalWrites in Hsent.
    exists l, (programAttempt pc B (wire w ++ l)).
    destruct (att_ok (programAttempt pc B (wire w ++ l))).
    + eexists. split; [exact Hsent|]. split; [symmetry; exact Hdata|exact Hprog].
    + eexists. split; [exact Hsent|]. split; [symmetry; exact Hdata|exact Hprog].
Qed.

Lemma program_frame_length_and_crc_witness :
  exists p,
    programFrames
      (sentSince (session steadyChannel 8)
         (snd (sendFirmware 5 sampleFirmware (session steadyChannel 8))))
    = [p]
    /\ Wire.totalLength p = 5 /\ Wire.crc16 p = 0x3b40.
Proof.
  pose proof (program_frame_length_and_crc steadyChannel sampleFirmware 5
                (session steadyChannel 8)) as H.
  cbv zeta in H.
  destruct H as (Hp & Hex).
  destruct Hex as (ds & a & rest & _ & _ & Hprog).
  - reflexivity.
  - cbn. lia.
  - cbn. lia.
  - intros a Ha _. all_resolved a Ha.
  - exists (att_data a). split; [exact Hprog|].
    destruct (Hp (att_data a)) as (_ & Hl & _ & Hc & _).
    { rewrite Hprog. now left. }
    split; [rewrite Hl; reflexivity|]. rewrite Hc. vm_compute. reflexivity.
Defined.

Lemma sendFirmware_out_of_fuel (pc : Characteristic) (B : list byte)
    (fuel : nat) (w : World) :
  programCharacteristic w = Some pc ->
  reliable pc ->
  0 <= negotiatedMTU w - 6 ->
  Z.of_nat fuel * (negotiatedMTU w - 6) < Z.of_nat (List.length B) ->
  fst (sendFirmware fuel B w) = OutOfFuel.
Proof.
  intros Hpc Hrel Hps Hfuel. unfold sendFirmware. rewrite Hpc.
  unfold bind at 1. unfold get_negotiatedMTU.
  unfold bind at 1.
  destruct (appendToConsole_spec (sendingLine B (negotiatedMTU w)) w
              (blank_sendingLine B (negotiatedMTU w)))
    as (w1 & Ha & _).
  unfold sendingLine in Ha. rewrite Ha.
  unfold bind at 1.
  destruct (console_spec Log
              ("DATA_PAYLOAD_SIZE: " ++ num (negotiatedMTU w - DATA_HEADER_SIZE)
               ++ " Bytes") w1)
    as (w2 & Hc & _).
  rewrite Hc. unfold bind at 1.
  change (negotiatedMTU w - DATA_HEADER_SIZE) with (negotiatedMTU w - 6).
  pose proof (sendFirmware_loop_out_of_fuel pc B (negotiatedMTU w - 6) fuel
                Hps Hrel 0 w2 ltac:(lia) ltac:(lia)) as Hout.
  destruct (sendFirmware_loop fuel pc B (Z.of_nat (List.length B))
              (negotiatedMTU w - 6) 0 w2) as [c w3].
  cbn [fst] in Hout. subst c. reflexivity.
Qed.

Lemma ceilDiv_bounds (a b : Z) :
  0 <= a -> 1 <= b ->
  0 <= ceilDiv a b
  /\ a <= ceilDiv a b * b
  /\ (ceilDiv a b - 1) * b < a + Z.b2z (a =? 0)
  /\ (a = 0 -> ceilDiv a b = 0).
Proof.
  intros Ha Hb. unfold ceilDiv.
  pose proof (Z.div_mod (a + b - 1) b ltac:(lia)) as Hdm.
  pose proof (Z.mod_pos_bound (a + b - 1) b ltac:(lia)) as Hm.
  assert (0 <= (a + b - 1) / b) by (apply Z.div_pos; lia).
  repeat split; destruct (Z.eqb_spec a 0); cbn [Z.b2z]; nia.
Qed.

(** The length of a complete transcript from offset 0. *)
Lemma complete_count (len ps q L : Z) :
  1 <= ps -> 0 <= len -> 0 <= L ->
  q = ceilDiv len ps ->
  len <= L * ps ->
  (L = 0 \/ (L - 1) * ps < len) ->
  L = q.
Proof.
  intros Hps Hlen HL -> Hge Hle.
  destruct (ceilDiv_bounds len ps Hlen Hps) as (Hq0 & Hup & Hlow & Hz).
  destruct (Z.eq_dec len 0) as [E|E].
  - rewrite (Hz E). destruct Hle as [|Hle]; [assumption|]. subst len. nia.
  - destruct (Z.eqb_spec len 0) as [|_]; [contradiction|].
    cbn [Z.b2z] in Hlow.
    assert (L <> 0) by (intros ->; lia).
    destruct Hle as [|Hle]; [contradiction|].
    assert (ceilDiv len ps - 1 < L) by nia.
    assert (L - 1 < ceilDiv len ps) by nia.
    lia.
Qed.

(** C9. Provided the payload size [negotiatedMTU - 6] is at least 1, the
    chunk loop of [sendFirmware] terminates for every firmware buffer:
    [ceiling (len B / (negotiatedMTU - 6))] iterations are enough whatever
    the channel does, and while no write is rejected it takes exactly that
    many (fewer do not finish, and that many Data frames are written).  The
    offset advances by [negotiatedMTU - 6] per iteration only: with a
    payload size of 0 and a non-empty buffer no number of iterations
    finishes the loop. *)
Theorem chunk_loop_terminates (pc : Characteristic) (B : list byte)
    (w : World) :
  programCharacteristic w = Some pc ->
  1 <= negotiatedMTU w - 6 ->
  let len := Z.of_nat (List.length B) in
  let n := Z.to_nat (ceilDiv len (negotiatedMTU w - 6)) in
  (forall fuel, (n <= fuel)%nat -> fst (sendFirmware fuel B w) = Normal tt)
  /\ (reliable pc ->
      (forall fuel, (fuel < n)%nat -> fst (sendFirmware fuel B w) = OutOfFuel)
      /\ List.length (dataFrames (sentSince w (snd (sendFirmware n B w)))) = n)
  /\ (reliable pc -> B <> [] ->
      forall fuel w0,
        fst (sendFirmware_loop fuel pc B len 0 0 w0) = OutOfFuel).
Proof.
  intros Hpc Hps len n.
  destruct (ceilDiv_bounds len (negotiatedMTU w - 6) ltac:(lia) Hps)
    as (Hn0 & Hup & Hlow & Hz).
  fold len in Hup, Hlow.
  assert (Hrun : forall fuel, (n <= fuel)%nat ->
            exists e fs lines w',
              Transcript pc B (negotiatedMTU w - 6) (wire w) 0 fs lines e
              /\ sendFirmware fuel B w = (Normal tt, w')
              /\ wire w' = wire w ++ fs
                           ++ afterLoop e (finalWrites pc B (wire w ++ fs))).
  { intros fuel Hfuel.
    destruct (sendFirmware_spec pc B fuel w Hpc Hps) as
      (e & fs & lines & w' & Ht & Hr & _ & Hwire & _).
    - fold len. subst n. nia.
    - exists e, fs, lines, w'. auto. }
  split; [|split].
  - intros fuel Hfuel.
    destruct (Hrun fuel Hfuel) as (e & fs & lines & w' & _ & Hr & _).
    rewrite Hr. reflexivity.
  - intros Hrel. split.
    + intros fuel Hfuel.
      apply (sendFirmware_out_of_fuel pc B fuel w Hpc Hrel); [lia|].
      fold len. subst n.
      destruct (Z.eqb_spec len 0) as [E|E]; cbn [Z.b2z] in Hlow; [|nia].
      rewrite E in *. unfold ceilDiv in Hfuel.
      rewrite Z.div_small in Hfuel by lia. cbn in Hfuel. lia.
    + destruct (Hrun n (le_n n)) as (e & fs & lines & w' & Ht & Hr & Hwire).
      rewrite Hr. cbn [snd]. rewrite (sentSince_app w w' _ Hwire).
      rewrite dataFrames_run
        by (apply (Transcript_kinds pc B _ _ _ _ _ _ Ht)).
      rewrite length_map.
      pose proof (Transcript_reliable pc B _ _ _ _ _ _ Ht Hrel) as He.
      destruct (Transcript_completed pc B _ _ _ _ _ _ Ht He)
        as (_ & Hge & _).
      fold len in Hge.
      pose proof (Transcript_length_le pc B _ Hps _ _ _ _ _ Ht ltac:(lia))
        as Hle.
      fold len in Hle. subst n.
      rewrite <- (complete_count len (negotiatedMTU w - 6) _
                    (Z.of_nat (List.length fs)) Hps ltac:(lia) ltac:(lia)
                    eq_refl ltac:(lia)).
      * lia.
      * destruct Hle as [->|Hle]; [now left|right; lia].
  - intros Hrel Hne fuel w0.
    apply (sendFirmware_loop_out_of_fuel pc B 0 fuel ltac:(lia) Hrel);
      [lia|].
    destruct B; [contradiction|]. cbn [List.length]. lia.
Qed.

Lemma chunk_loop_terminates_witness :
  fst (sendFirmware 59 scenarioFirmware (session steadyChannel 23)) = Normal tt
  /\ fst (sendFirmware 58 scenarioFirmware (session steadyChannel 23))
     = OutOfFuel
  /\ List.length
       (dataFrames
          (sentSince (session steadyChannel 23)
             (snd (sendFirmware 59 scenarioFirmware (session steadyChannel 23)))))
     = 59%nat.
Proof.
  pose proof (chunk_loop_terminates steadyChannel scenarioFirmware
                (session steadyChannel 23) eq_refl) as H.
  cbv zeta in H.
  destruct H as (Hend & Hexact & _); [cbn; lia|].
  destruct Hexact as (Hless & Hcount); [intros h k d; reflexivity|].
  change (Z.to_nat
            (ceilDiv (Z.of_nat (List.length scenarioFirmware))
               (negotiatedMTU (session steadyChannel 23) - 6)))
    with 59%nat in *.
  split; [apply Hend; apply le_n|].
  split; [apply Hless; apply le_n|exact Hcount].
Defined.

(** C7. If the write of a Data frame is rejected, the transfer stops
    there: that write is the last write of the run (no further Data frame,
    no Program frame, no Reload), every write before it was an accepted Data
    frame, each Data frame written is the one for the next chunk (so none
    is written a second time), and the last console line reports the failure
    with the offset of the chunk that failed. *)
Theorem data_write_failure_aborts (pc : Characteristic) (B : list byte)
    (fuel : nat) (w : World) (a : Attempt) :
  programCharacteristic w = Some pc ->
  7 <= negotiatedMTU w ->
  (List.length B <= fuel)%nat ->
  let len := Z.of_nat (List.length B) in
  let ps := negotiatedMTU w - 6 in
  let run := sendFirmware fuel B w in
  let sent := sentSince w (snd run) in
  In a sent -> Wire.isData (att_data a) = true -> att_ok a = false ->
  exists before,
    let failing := Z.of_nat (List.length before) * ps in
    sent = before ++ [a]
    /\ Forall (fun b => Wire.isData (att_data b) = true
                        /\ att_ok b = true) before
    /\ programFrames sent = []
    /\ (forall i b, nth_error sent i = Some b ->
          dataFrame B (Z.of_nat i * ps) (Z.min ps (len - Z.of_nat i * ps))
          = Normal (att_data b))
    /\ Wire.offset (att_data a) = failing mod 65536
    /\ last (consoleOutput (snd run)) EmptyString
       = ("Send [D]ata Error: Offset=" ++ num failing ++ "), Error:")%string
    /\ fst run = Normal tt.
Proof.
  intros Hpc Hmtu Hfuel len ps run sent Hin Hdata Hko.
  destruct (sendFirmware_run pc B fuel w Hpc Hmtu Hfuel)
    as (e & l & lines & Ht & Hres & Hsent & Hdf & Hprog & Hcon).
  fold run in Hres, Hsent, Hdf, Hprog, Hcon. fold sent in Hsent, Hdf, Hprog.
  fold ps in Ht.
  assert (Hps : 1 <= ps) by (subst ps; lia).
  pose proof (Transcript_kinds pc B ps _ _ _ _ _ Ht) as Hk.
  destruct e.
  - (* the loop completed: every Data write was accepted *)
    exfalso.
    destruct (Transcript_completed pc B ps _ _ _ _ _ Ht eq_refl)
      as (Hok & _).
    rewrite Hsent in Hin. apply in_app_or in Hin. destruct Hin as [Hin|Hin].
    + rewrite Forall_forall in Hok. rewrite (Hok a Hin) in Hko. discriminate.
    + cbn [afterLoop] in Hin. unfold finalWrites in Hin.
      assert (Hp : Wire.isData
                     (att_data (programAttempt pc B (wire w ++ l))) = false)
        by reflexivity.
      destruct (att_ok (programAttempt pc B (wire w ++ l))).
      * destruct Hin as [<-|[<-|[]]]; [congruence|discriminate Hdata].
      * destruct Hin as [<-|[]]. congruence.
  - destruct (Transcript_returned pc B ps _ _ _ _ _ Ht eq_refl)
      as (init & b & lines0 & Hl & Hok & Hb & _ & Hlines & _).
    cbn [afterLoop] in Hsent, Hprog, Hcon. rewrite app_nil_r in Hsent, Hcon.
    assert (Hab : a = b).
    { rewrite Hsent, Hl in Hin. apply in_app_or in Hin.
      destruct Hin as [Hin|[Hin|[]]]; [|now symmetry].
      rewrite Forall_forall in Hok. rewrite (Hok a Hin) in Hko. discriminate. }
    subst b. exists init. cbv zeta.
    split; [congruence|].
    split.
    { rewrite Forall_forall in *. intros x Hx. split; [|now apply Hok].
      apply Hk. rewrite Hl. apply in_or_app. now left. }
    split; [exact Hprog|].
    split.
    { intros i x Hi. rewrite Hsent in Hi.
      destruct (Transcript_nth pc B ps _ _ _ _ _ Ht i x Hi) as (Hlt & _ & Hd).
      rewrite Z.add_0_l in Hlt, Hd. fold len. rewrite Hd.
      apply dataFrame_normal; nia. }
    split.
    { assert (Hn : nth_error l (List.length init) = Some a).
      { rewrite Hl, nth_error_app2, Nat.sub_diag by apply le_n. reflexivity. }
      destruct (Transcript_nth pc B ps _ _ _ _ _ Ht _ a Hn) as (_ & _ & Hd).
      rewrite Z.add_0_l in Hd. rewrite Hd. apply offset_dataBytes. }
    split; [|exact Hres].
    rewrite Hcon, Hlines, Z.add_0_l.
    rewrite app_comm_cons, app_assoc. apply last_last.
Qed.

Lemma data_write_failure_aborts_witness :
  let w := session rejectsOffset340 23 in
  let a := {| att_kind := WithoutResponse;
              att_data := dataBytes scenarioFirmware 340 17;
              att_ok := false |} in
  let run := sendFirmware 1000 scenarioFirmware w in
  exists before,
    sentSince w (snd run) = before ++ [a]
    /\ programFrames (sentSince w (snd run)) = []
    /\ last (consoleOutput (snd run)) EmptyString
       = ("Send [D]ata Error: Offset="
          ++ num (Z.of_nat (List.length before) * 17) ++ "), Error:")%string.
Proof.
  intros w a run.
  destruct (data_write_failure_aborts rejectsOffset340 scenarioFirmware 1000
              w a eq_refl) as (before & Hs & _ & Hp & _ & _ & Hc & _).
  - cbn. lia.
  - unfold scenarioFirmware. rewrite repeat_length. apply le_n.
  - vm_compute. repeat (first [left; reflexivity | right]).
  - reflexivity.
  - reflexivity.
  - exists before. cbv zeta in Hc.
    change (negotiatedMTU w - 6) with 17 in Hc.
    split; [exact Hs|]. split; [exact Hp|exact Hc].
Defined.



(** ** MTU negotiation *)

Lemma negotiateMTU_spec (pc : Characteristic) (w : World) :
  programCharacteristic w = Some pc ->
  fst (negotiateMTU w) = Normal tt
  /\ negotiatedMTU (snd (negotiateMTU w)) = negotiatedValue pc w
  /\ programCharacteristic (snd (negotiateMTU w)) = Some pc
  /\ wire (snd (negotiateMTU w)) = wire w.
Proof.
  intros Hpc. unfold negotiateMTU, negotiatedValue. rewrite Hpc.
  destruct (requestMTU (gatt pc)) as [request|].
  - unfold try_catch, bind, lift.
    destruct (request REQUESTED_MTU) as [granted|]; cbn; auto.
  - unfold try_catch, bind, lift.
    destruct (negotiatedMtuCharacteristic w) as [c|]; [|cbn; auto].
    destruct (readValue c) as [view|]; [|cbn; auto].
    unfold DataView.getUint16.
    destruct ((0 <=? 0) && (0 + 2 <=? byteLength view)); cbn; auto.
Qed.

(** With an empty buffer the loop is not entered, whatever the MTU. *)
Lemma sendFirmware_empty (pc : Characteristic) (fuel : nat) (w : World) :
  programCharacteristic w = Some pc ->
  fst (sendFirmware fuel [] w) = Normal tt
  /\ sentSince w (snd (sendFirmware fuel [] w)) = finalWrites pc [] (wire w).
Proof.
  intros Hpc.
  enough (exists w', sendFirmware fuel [] w = (Normal tt, w')
                     /\ wire w' = wire w ++ finalWrites pc [] (wire w))
    as (w' & Hrun & Hw).
  { rewrite Hrun. cbn [fst snd]. split; [reflexivity|].
    now apply sentSince_app. }
  unfold sendFirmware. rewrite Hpc.
  unfold bind at 1. unfold get_negotiatedMTU.
  unfold bind at 1.
  destruct (appendToConsole_spec (sendingLine [] (negotiatedMTU w)) w
              (blank_sendingLine [] (negotiatedMTU w)))
    as (w1 & Ha & Hwire1 & _ & Hsame1).
  unfold sendingLine in Ha. rewrite Ha.
  unfold bind at 1.
  destruct (console_spec Log
              ("DATA_PAYLOAD_SIZE: " ++ num (negotiatedMTU w - DATA_HEADER_SIZE)
               ++ " Bytes") w1)
    as (w2 & Hc & Hwire2 & _ & Hsame2).
  rewrite Hc. unfold bind at 1.
  rewrite sendFirmware_loop_exit by (cbn; lia).
  unfold bind at 1. unfold lift. rewrite programFrame_normal.
  assert (Hpc2 : programCharacteristic w2 = Some pc).
  { destruct Hsame1 as (E1 & _), Hsame2 as (E2 & _). congruence. }
  destruct (finalize_spec pc [] w2 Hpc2) as (w3 & Hf & Hwire3 & _).
  rewrite Hf. exists w3. split; [reflexivity|].
  rewrite Hwire3, Hwire2, Hwire1. reflexivity.
Qed.

(** Counterexample to C5: nothing is rejected.  With a negotiated MTU of 6
    (payload size 0) and an empty buffer [sendFirmware] returns normally
    and writes the Program frame; with a buffer of 65540 bytes it returns
    normally and the Program frame announces a length of 4. *)
Lemma protocol_limit_not_enforced :
  (let w := session steadyChannel 6 in
   let run := sendFirmware 0 [] w in
   fst run = Normal tt
   /\ programFrames (sentSince w (snd run))
      = [[x01; "P"%byte; x00; x00; xff; xff; x02; x00]])
  /\ (let w := session steadyChannel 512 in
      let run := sendFirmware (List.length oversizeFirmware) oversizeFirmware w in
      fst run = Normal tt
      /\ exists p, programFrames (sentSince w (snd run)) = [p]
                   /\ Wire.totalLength p = 4).
Proof.
  split.
  - split; reflexivity.
  - cbv zeta.
    destruct (sendFirmware_reliable steadyChannel oversizeFirmware
                (List.length oversizeFirmware) (session steadyChannel 512)
                eq_refl) as (Hres & Hp).
    + cbn. lia.
    + apply le_n.
    + intros h k d. reflexivity.
    + split; [exact Hres|].
      eexists. split; [exact Hp|].
      rewrite totalLength_programBytes.
      unfold oversizeFirmware. rewrite repeat_length. reflexivity.
Qed.

(** C5, as the code has it.  [sendFirmware] makes no range check: with a
    negotiated MTU of at least 7 it returns normally for a buffer of any
    length; and when the buffer has at most 65535 bytes every chunk length
    lies in [1, negotiatedMTU - 6] and the offset, chunk-length and
    total-length fields hold their values exactly, so nothing is
    truncated. *)
Theorem no_truncation_within_limits (pc : Characteristic) (B : list byte)
    (fuel : nat) (w : World) :
  programCharacteristic w = Some pc ->
  7 <= negotiatedMTU w ->
  (List.length B <= fuel)%nat ->
  let len := Z.of_nat (List.length B) in
  let ps := negotiatedMTU w - 6 in
  let run := sendFirmware fuel B w in
  let sent := sentSince w (snd run) in
  fst run = Normal tt
  /\ (len <= 65535 ->
      (forall i f, nth_error (dataFrames sent) i = Some f ->
         Wire.offset f = Z.of_nat i * ps
         /\ 1 <= Wire.chunkLength f <= ps
         /\ Wire.offset f + Wire.chunkLength f <= len
         /\ Z.of_nat (List.length (Wire.payload f)) = Wire.chunkLength f)
      /\ (forall p, In p (programFrames sent) -> Wire.totalLength p = len)).
Proof.
  intros Hpc Hmtu Hfuel len ps run sent.
  destruct (sendFirmware_run pc B fuel w Hpc Hmtu Hfuel)
    as (e & l & lines & Ht & Hres & Hsent & Hdf & Hprog & Hcon).
  fold run in Hres, Hsent, Hdf, Hprog. fold sent in Hsent, Hdf, Hprog.
  fold ps in Ht.
  assert (Hps : 1 <= ps) by (subst ps; lia).
  split; [exact Hres|].
  intros Hlen. split.
  - intros i f Hi. rewrite Hdf, nth_error_map in Hi.
    destruct (nth_error l i) as [a|] eqn:Ea; [|discriminate].
    injection Hi as <-.
    destruct (Transcript_nth pc B ps _ _ _ _ _ Ht i a Ea) as (Hlt & _ & Hd).
    rewrite Z.add_0_l in Hlt, Hd. fold len in Hlt, Hd.
    rewrite Hd, offset_dataBytes, chunkLength_dataBytes, payload_dataBytes.
    assert (Hi0 : 0 <= Z.of_nat i * ps) by nia.
    rewrite !Z.mod_small by lia.
    repeat split; try lia.
    rewrite length_firstn, length_skipn. fold len. lia.
  - intros p Hp. rewrite Hprog in Hp.
    destruct e; [|contradiction]. destruct Hp as [<-|[]].
    unfold programAttempt. cbn [att_data].
    rewrite totalLength_programBytes. fold len.
    apply Z.mod_small. lia.
Qed.

Lemma no_truncation_within_limits_witness :
  let w := session steadyChannel 8 in
  let run := sendFirmware 5 sampleFirmware w in
  fst run = Normal tt
  /\ forall p, In p (programFrames (sentSince w (snd run))) ->
               Wire.totalLength p = 5.
Proof.
  intros w run.
  destruct (no_truncation_within_limits steadyChannel sampleFirmware 5 w
              eq_refl) as (Hres & Hin).
  - cbn. lia.
  - apply le_n.
  - split; [exact Hres|].
    destruct Hin as (_ & Hp); [cbn; lia|exact Hp].
Defined.

(** Counterexample to C6: a grant of 5 is adopted as it is, and a
    device-reported MTU of 5 yields 2; the default of 20 is not
    substituted. *)
Lemma negotiated_mtu_below_minimum :
  negotiatedMTU (snd (negotiateMTU (session (requestingChannel (Some 5)) 20)))
  = 5
  /\ negotiatedMTU (snd (negotiateMTU (reportingSession [x05; x00]))) = 2.
Proof. split; reflexivity. Qed.

(** C6, as the code has it.  [negotiateMTU] returns normally and adopts
    the transport's grant as it is, or the device-reported 16-bit value minus
    3, with no lower bound; it substitutes the default of 20 only when the
    MTU request throws, and keeps the value it had when the read fails or
    yields fewer than two bytes.  So
    the negotiated value is at least 7 exactly when the grant is at least 7,
    or the reported value at least 10. *)
Theorem negotiateMTU_adopts_transport_value (pc : Characteristic) (w : World) :
  programCharacteristic w = Some pc ->
  let w' := snd (negotiateMTU w) in
  fst (negotiateMTU w) = Normal tt
  /\ (forall request granted,
        requestMTU (gatt pc) = Some request ->
        request REQUESTED_MTU = Some granted ->
        negotiatedMTU w' = granted)
  /\ (forall request,
        requestMTU (gatt pc) = Some request ->
        request REQUESTED_MTU = None ->
        negotiatedMTU w' = 20)
  /\ (forall c view devicemtu,
        requestMTU (gatt pc) = None ->
        negotiatedMtuCharacteristic w = Some c ->
        readValue c = Some view ->
        DataView.getUint16 view 0 = Normal devicemtu ->
        negotiatedMTU w' = devicemtu - 3)
  /\ (forall c,
        requestMTU (gatt pc) = None ->
        negotiatedMtuCharacteristic w = Some c ->
        readValue c = None ->
        negotiatedMTU w' = negotiatedMTU w)
  /\ (forall c view e,
        requestMTU (gatt pc) = None ->
        negotiatedMtuCharacteristic w = Some c ->
        readValue c = Some view ->
        DataView.getUint16 view 0 = Throw e ->
        negotiatedMTU w' = negotiatedMTU w).
Proof.
  intros Hpc w'.
  destruct (negotiateMTU_spec pc w Hpc) as (Hres & Hval & _).
  fold w' in Hval. unfold negotiatedValue in Hval.
  split; [exact Hres|].
  split; [|split; [|split; [|split]]].
  - intros request granted Hreq Hg. rewrite Hreq, Hg in Hval. exact Hval.
  - intros request Hreq Hg. rewrite Hreq, Hg in Hval. exact Hval.
  - intros c view d Hreq Hc Hv Hd. rewrite Hreq, Hc, Hv, Hd in Hval.
    exact Hval.
  - intros c Hreq Hc Hv. rewrite Hreq, Hc, Hv in Hval. exact Hval.
  - intros c view e Hreq Hc Hv Hd. rewrite Hreq, Hc, Hv, Hd in Hval.
    exact Hval.
Qed.

Lemma negotiateMTU_adopts_transport_value_witness :
  fst (negotiateMTU (session (requestingChannel (Some 247)) 20)) = Normal tt
  /\ negotiatedMTU
       (snd (negotiateMTU (session (requestingChannel (Some 247)) 20)))
     = 247.
Proof.
  destruct (negotiateMTU_adopts_transport_value (requestingChannel (Some 247))
              (session (requestingChannel (Some 247)) 20) eq_refl)
    as (Hres & Hgrant & _).
  split; [exact Hres|].
  apply (Hgrant (fun _ => Some 247) 247); reflexivity.
Defined.

(** C8. When the channel has the MTU-request primitive and the request
    throws, [negotiateMTU] still returns normally and the negotiated MTU is
    the default of 20.  The transfer that follows runs with a payload size
    of 14: it announces [MTU=20] on the page console and returns normally;
    the Data frame at position [i] is the one built for offset [14 * i]
    with [min 14 (len B - 14 * i)] payload bytes; a non-empty buffer has
    its first Data frame written; and when no Data write is rejected there
    are [ceil (len B / 14)] Data frames, whose payloads make up [B], followed
    by the Program frame for [B]. *)
Theorem mtu_request_failure_falls_back (pc : Characteristic)
    (request : Z -> option Z) (B : list byte) (fuel : nat) (w : World) :
  programCharacteristic w = Some pc ->
  requestMTU (gatt pc) = Some request ->
  request REQUESTED_MTU = None ->
  (List.length B <= fuel)%nat ->
  let len := Z.of_nat (List.length B) in
  let w1 := snd (negotiateMTU w) in
  let run := sendFirmware fuel B w1 in
  let sent := sentSince w1 (snd run) in
  fst (negotiateMTU w) = Normal tt
  /\ negotiatedMTU w1 = 20
  /\ negotiatedMTU w1 - DATA_HEADER_SIZE = 14
  /\ fst run = Normal tt
  /\ (forall i f,
        nth_error (dataFrames sent) i = Some f ->
        dataFrame B (14 * Z.of_nat i) (Z.min 14 (len - 14 * Z.of_nat i))
        = Normal f
        /\ Z.of_nat (List.length (Wire.payload f))
           = Z.min 14 (len - 14 * Z.of_nat i))
  /\ In ("Sending bytecode: slot=2, length=" ++ num len
         ++ "bytes, CRC16=" ++ hex (crc16_reflect 0xd175 0xffff B)
         ++ ", MTU=20")%string
        (consoleOutput (snd run))
  /\ (B <> [] ->
      exists f rest,
        dataFrames sent = f :: rest
        /\ dataFrame B 0 (Z.min 14 len) = Normal f)
  /\ ((forall a, In a sent -> Wire.isData (att_data a) = true ->
                 att_ok a = true) ->
      Z.of_nat (List.length (dataFrames sent)) = ceilDiv len 14
      /\ List.concat (map Wire.payload (dataFrames sent)) = B
      /\ exists ds p rest,
           sent = ds ++ p :: rest
           /\ map att_data ds = dataFrames sent
           /\ programFrames sent = [att_data p]
           /\ Wire.totalLength (att_data p) = len mod 65536
           /\ Wire.crc16 (att_data p) = crc16_reflect 0xd175 0xffff B).
Proof.
  intros Hpc Hreq Hthrow Hfuel len w1 run sent.
  destruct (negotiateMTU_spec pc w Hpc) as (Hres & Hval & Hpc1 & _).
  fold w1 in Hval, Hpc1.
  unfold negotiatedValue in Hval. rewrite Hreq, Hthrow in Hval.
  change DEFAULT_MTU with 20 in Hval.
  split; [exact Hres|]. split; [exact Hval|].
  split; [rewrite Hval; reflexivity|].
  destruct (sendFirmware_run pc B fuel w1 Hpc1 ltac:(lia) Hfuel)
    as (e & l & lines & Ht & Hrun & Hsent & Hdf & Hprog & Hcon).
  fold run in Hrun, Hsent, Hdf, Hprog, Hcon.
  fold sent in Hsent, Hdf, Hprog.
  rewrite Hval in Ht, Hcon. change (20 - 6) with 14 in Ht.
  assert (Hframe : forall i f,
            nth_error (dataFrames sent) i = Some f ->
            dataFrame B (14 * Z.of_nat i) (Z.min 14 (len - 14 * Z.of_nat i))
            = Normal f
            /\ Z.of_nat (List.length (Wire.payload f))
               = Z.min 14 (len - 14 * Z.of_nat i)).
  { intros i f Hi. rewrite Hdf, nth_error_map in Hi.
    destruct (nth_error l i) as [a|] eqn:Ea; [|discriminate].
    injection Hi as <-.
    destruct (Transcript_nth pc B 14 _ _ _ _ _ Ht i a Ea) as (Hlt & _ & Hd).
    rewrite Z.add_0_l in Hlt, Hd. fold len in Hlt, Hd.
    replace (14 * Z.of_nat i) with (Z.of_nat i * 14) by lia.
    rewrite Hd. split.
    - apply dataFrame_normal; fold len; lia.
    - rewrite payload_dataBytes, length_firstn, length_skipn. fold len. lia. }
  split; [exact Hrun|].
  split; [exact Hframe|].
  split.
  { rewrite Hcon. apply in_or_app. right. left. reflexivity. }
  split.
  { intros Hne.
    assert (Hpos : 0 < len).
    { subst len. destruct B; [contradiction|cbn [List.length]; lia]. }
    destruct (dataFrames sent) as [|f rest] eqn:Efs.
    - exfalso. rewrite Hdf in Efs.
      destruct l as [|a l']; [|discriminate].
      subst len. inversion Ht. lia.
    - exists f, rest. split; [reflexivity|].
      destruct (Hframe 0%nat f eq_refl) as (Hf & _).
      change (14 * Z.of_nat 0) with 0 in Hf. rewrite Z.sub_0_r in Hf.
      exact Hf. }
  intros Hall.
  assert (He : e = Completed).
  { apply (Transcript_all_ok pc B 14 _ _ _ _ _ Ht).
    intros a Ha. apply Hall.
    - rewrite Hsent. apply in_or_app. now left.
    - pose proof (Transcript_kinds pc B 14 _ _ _ _ _ Ht) as Hk.
      rewrite Forall_forall in Hk. now apply Hk. }
  split.
  { rewrite Hdf, length_map.
    destruct (Transcript_completed pc B 14 _ _ _ _ _ Ht He) as (_ & Hge & _).
    pose proof (Transcript_length_le pc B 14 ltac:(lia) _ _ _ _ _ Ht
                  ltac:(lia)) as Hle.
    fold len in Hge, Hle.
    apply (complete_count len 14 _ (Z.of_nat (List.length l))
             ltac:(lia)); try lia.
    destruct Hle as [->|Hle]; [now left|right; lia]. }
  split.
  { rewrite Hdf.
    rewrite (Transcript_concat pc B 14 ltac:(lia) _ _ _ _ _ Ht He) by lia.
    reflexivity. }
  subst e. cbn [afterLoop] in Hsent, Hprog.
  unfold finalWrites in Hsent.
  exists l, (programAttempt pc B (wire w1 ++ l)).
  assert (Hfields :
            Wire.totalLength (att_data (programAttempt pc B (wire w1 ++ l)))
            = len mod 65536
            /\ Wire.crc16 (att_data (programAttempt pc B (wire w1 ++ l)))
               = crc16_reflect 0xd175 0xffff B).
  { unfold programAttempt. cbn [att_data].
    rewrite totalLength_programBytes, crc16_programBytes.
    split; [reflexivity|].
    apply Z.mod_small. apply crc16_reflect_u16. }
  destruct Hfields as (Hf1 & Hf2).
  destruct (att_ok (programAttempt pc B (wire w1 ++ l))).
  - eexists. split; [exact Hsent|]. split; [symmetry; exact Hdf|].
    split; [exact Hprog|]. split; assumption.
  - eexists. split; [exact Hsent|]. split; [symmetry; exact Hdf|].
    split; [exact Hprog|]. split; assumption.
Qed.

Lemma mtu_request_failure_falls_back_witness :
  let w1 := snd (negotiateMTU (session (requestingChannel None) 185)) in
  let sent := sentSince w1 (snd (sendFirmware 1000 scenarioFirmware w1)) in
  negotiatedMTU w1 = 20
  /\ fst (sendFirmware 1000 scenarioFirmware w1) = Normal tt
  /\ List.length (dataFrames sent) = 72%nat
  /\ List.concat (map Wire.payload (dataFrames sent)) = scenarioFirmware
  /\ exists p, programFrames sent = [p] /\ Wire.totalLength p = 1000.
Proof.
  cbv zeta.
  destruct (mtu_request_failure_falls_back (requestingChannel None)
              (fun _ => None) scenarioFirmware 1000
              (session (requestingChannel None) 185) eq_refl eq_refl eq_refl)
    as (_ & Hmtu & _ & Hrun & _ & _ & _ & Hall).
  - unfold scenarioFirmware. rewrite repeat_length. apply le_n.
  - destruct Hall as (Hcount & Hcat & ds & p & rest & _ & _ & Hprog & Hlen & _).
    { intros a Ha _. all_resolved a Ha. }
    split; [exact Hmtu|]. split; [exact Hrun|].
    split.
    { apply Nat2Z.inj. rewrite Hcount. vm_compute. reflexivity. }
    split; [exact Hcat|].
    exists (att_data p). split; [exact Hprog|].
    rewrite Hlen. vm_compute. reflexivity.
Defined.

(** ** Worked examples *)

(** The check values of the reflected CRC-16 family (CRC-16/ARC,
    CRC-16/MODBUS, CRC-16/KERMIT) over the digits 1 to 9. *)
Example crc16_arc_check : crc16_reflect 0xA001 0x0000 crcCheckInput = 0xBB3D.
Proof. vm_compute. reflexivity. Qed.

Example crc16_modbus_check : crc16_reflect 0xA001 0xFFFF crcCheckInput = 0x4B37.
Proof. vm_compute. reflexivity. Qed.

Example crc16_kermit_check : crc16_reflect 0x8408 0x0000 crcCheckInput = 0x2189.
Proof. vm_compute. reflexivity. Qed.

(** 1000 bytes over an MTU of 23: 58 Data frames of 17 bytes, one of 14,
    then one Program frame announcing 1000 bytes. *)
Example scenario_1000_bytes_mtu_23 :
  let w := session steadyChannel 23 in
  let sent := sentSince w (snd (sendFirmware 59 scenarioFirmware w)) in
  map Wire.chunkLength (dataFrames sent) = repeat 17 58 ++ [14]
  /\ map Wire.totalLength (programFrames sent) = [1000].
Proof. vm_compute. split; reflexivity. Qed.

(** An empty buffer: no Data frame, and a Program frame of length 0. *)
Example empty_firmware :
  let w := session steadyChannel 20 in
  let sent := sentSince w (snd (sendFirmware 0 [] w)) in
  dataFrames sent = []
  /\ programFrames sent = [[x01; "P"%byte; x00; x00; xff; xff; x02; x00]].
Proof. vm_compute. split; reflexivity. Qed.

(** A negotiated MTU below 6: the first frame is shorter than its header
    and building it throws. *)
Example mtu_below_header_size :
  sendFirmware 5 sampleFirmware (session steadyChannel 5)
  = (Throw RangeError,
     {| programCharacteristic := Some steadyChannel;
        negotiatedMtuCharacteristic := None;
        negotiatedMTU := 5;
        consoleOutput :=
          ["Sending bytecode: slot=2, length=5bytes, CRC16=3b40, MTU=5"%string];
        devlog := [(Log, "DATA_PAYLOAD_SIZE: -1 Bytes"%string)];
        wire := [];
     pending := [] |}).
Proof. vm_compute. reflexivity. Qed.

(** * Further properties of [blink.js] and [crc16_reflect] *)

(** ** The command frames *)

(** X1. [sendReset] never throws.  Connected, it makes one write, the two
    bytes [01 'R'], always with [writeValue], and reports completion whether
    or not the write is accepted (the write is not awaited); not connected,
    it writes nothing and reports the error. *)
Theorem sendReset_reports_without_awaiting (w : World) :
  fst (sendReset w) = Normal tt
  /\ sameSession w (snd (sendReset w))
  /\ match programCharacteristic w with
     | Some pc =>
         sentSince w (snd (sendReset w)) = [resetAttempt pc (wire w)]
         /\ consoleOutput (snd (sendReset w))
            = consoleOutput w ++ ["Send [R]eset Complete"%string]
     | None =>
         sentSince w (snd (sendReset w)) = []
         /\ consoleOutput (snd (sendReset w))
            = consoleOutput w ++ ["Send [R]eset Error:"%string]
     end.
Proof.
  assert (Hrun : exists w',
            sendReset w = (Normal tt, w')
            /\ sameSession w w'
            /\ match programCharacteristic w with
               | Some pc =>
                   wire w' = wire w ++ [resetAttempt pc (wire w)]
                   /\ consoleOutput w'
                      = consoleOutput w ++ ["Send [R]eset Complete"%string]
               | None =>
                   wire w' = wire w ++ []
                   /\ consoleOutput w'
                      = consoleOutput w ++ ["Send [R]eset Error:"%string]
               end).
  { unfold sendReset.
    unfold bind at 1. unfold lift. rewrite commandFrame_normal.
    change (byte_of_Z (Z_of_byte "R")) with "R"%byte.
    unfold try_catch at 1. unfold bind at 1.
    unfold withProgramCharacteristic.
    destruct (programCharacteristic w) as [pc|] eqn:Hpc.
    - unfold try_catch, gattWrite, resetAttempt.
      destruct (resolves pc (wire w) WithResponse [x01; "R"%byte]);
        eexists; (split; [reflexivity|]); unfold sameSession; cbn; repeat split.
    - eexists. split; [reflexivity|]. unfold sameSession. cbn.
      rewrite app_nil_r. repeat split. }
  destruct Hrun as (w' & Hr & Hsame & Hcase).
  rewrite Hr. cbn [fst snd].
  split; [reflexivity|]. split; [exact Hsame|].
  destruct (programCharacteristic w) as [pc|];
    destruct Hcase as (Hwire & Hcon);
    (split; [now apply sentSince_app|exact Hcon]).
Qed.

(** X2. [sendReload] never throws.  Connected, it makes one write, the two
    bytes [01 'L'], through [writeCharacteristic], and reports completion
    exactly when the write is accepted; not connected, it writes nothing and
    reports the error. *)
Theorem sendReload_reports_write_result (w : World) :
  fst (sendReload w) = Normal tt
  /\ sameSession w (snd (sendReload w))
  /\ match programCharacteristic w with
     | Some pc =>
         sentSince w (snd (sendReload w)) = [reloadAttempt pc (wire w)]
         /\ consoleOutput (snd (sendReload w))
            = consoleOutput w
              ++ [if resolves pc (wire w) (writeKind pc) [x01; "L"%byte]
                  then "Send re[L]oad Complete"%string
                  else "Send re[L]oad Error:"%string]
     | None =>
         sentSince w (snd (sendReload w)) = []
         /\ consoleOutput (snd (sendReload w))
            = consoleOutput w ++ ["Send re[L]oad Error:"%string]
     end.
Proof.
  destruct (programCharacteristic w) as [pc|] eqn:Hpc.
  - destruct (sendReload_spec pc w Hpc) as (w' & Hr & Hwire & Hcon & Hsame).
    rewrite Hr. cbn [fst snd].
    split; [reflexivity|]. split; [exact Hsame|].
    split; [now apply sentSince_app|exact Hcon].
  - assert (Hrun : exists w',
              sendReload w = (Normal tt, w')
              /\ sameSession w w'
              /\ wire w' = wire w ++ []
              /\ consoleOutput w'
                 = consoleOutput w ++ ["Send re[L]oad Error:"%string]).
    { unfold sendReload.
      unfold bind at 1. unfold lift. rewrite commandFrame_normal.
      unfold try_catch. unfold bind at 1.
      unfold withProgramCharacteristic. rewrite Hpc.
      eexists. split; [reflexivity|]. unfold sameSession. cbn.
      rewrite app_nil_r. repeat split. }
    destruct Hrun as (w' & Hr & Hsame & Hwire & Hcon).
    rewrite Hr. cbn [fst snd].
    split; [reflexivity|]. split; [exact Hsame|].
    split; [now apply sentSince_app|exact Hcon].
Qed.

(** ** [sendFirmware] outside the normal path *)

(** [sendFirmware] up to its chunk loop: the announcement on the page
    console, then the loop, then what follows it. *)
Lemma sendFirmware_prelude (pc : Characteristic) (B : list byte) (fuel : nat)
    (w : World) :
  programCharacteristic w = Some pc ->
  exists w2,
    wire w2 = wire w
    /\ consoleOutput w2 = consoleOutput w ++ [sendingLine B (negotiatedMTU w)]
    /\ sameSession w w2
    /\ sendFirmware fuel B w
       = bind (sendFirmware_loop fuel pc B (Z.of_nat (List.length B))
                 (negotiatedMTU w - 6) 0)
              (afterChunks pc B) w2.
Proof.
  intros Hpc. unfold sendFirmware. rewrite Hpc.
  unfold bind at 1. unfold get_negotiatedMTU.
  unfold bind at 1.
  destruct (appendToConsole_spec (sendingLine B (negotiatedMTU w)) w
              (blank_sendingLine B (negotiatedMTU w)))
    as (w1 & Ha & Hwire1 & Hcon1 & Hsame1).
  unfold sendingLine in Ha. rewrite Ha.
  unfold bind at 1.
  destruct (console_spec Log
              ("DATA_PAYLOAD_SIZE: " ++ num (negotiatedMTU w - DATA_HEADER_SIZE)
               ++ " Bytes") w1)
    as (w2 & Hc & Hwire2 & Hcon2 & Hsame2).
  rewrite Hc.
  exists w2.
  split; [congruence|]. split; [congruence|].
  split; [apply (sameSession_trans _ _ _ Hsame1 Hsame2)|].
  reflexivity.
Qed.

(** X3. Without a program characteristic [sendFirmware] gives up at once: it
    returns normally, writes nothing on the channel and nothing on the page
    console, and leaves one error in the browser log. *)
Theorem sendFirmware_not_connected (fuel : nat) (B : list byte) (w : World) :
  programCharacteristic w = None ->
  fst (sendFirmware fuel B w) = Normal tt
  /\ wire (snd (sendFirmware fuel B w)) = wire w
  /\ consoleOutput (snd (sendFirmware fuel B w)) = consoleOutput w
  /\ negotiatedMTU (snd (sendFirmware fuel B w)) = negotiatedMTU w
  /\ devlog (snd (sendFirmware fuel B w))
     = devlog w ++ [(Error, "no program characteristic"%string)].
Proof.
  intros Hpc. unfold sendFirmware. rewrite Hpc. cbn. repeat split.
Qed.

Lemma sendFirmware_not_connected_witness :
  fst (sendFirmware 5 sampleFirmware initialWorld) = Normal tt
  /\ wire (snd (sendFirmware 5 sampleFirmware initialWorld)) = [].
Proof.
  destruct (sendFirmware_not_connected 5 sampleFirmware initialWorld eq_refl)
    as (Hres & Hwire & _).
  split; [exact Hres|exact Hwire].
Defined.

(** X4. With a negotiated MTU below 6 and a non-empty buffer the first Data
    frame would be shorter than its header: [sendFirmware] throws a
    RangeError before anything is written on the channel. *)
Theorem sendFirmware_mtu_below_header (pc : Characteristic) (B : list byte)
    (fuel : nat) (w : World) :
  programCharacteristic w = Some pc ->
  negotiatedMTU w < 6 ->
  B <> [] ->
  fst (sendFirmware (S fuel) B w) = Throw RangeError
  /\ sentSince w (snd (sendFirmware (S fuel) B w)) = []
  /\ consoleOutput (snd (sendFirmware (S fuel) B w))
     = consoleOutput w ++ [sendingLine B (negotiatedMTU w)].
Proof.
  intros Hpc Hmtu Hne.
  enough (exists w2,
            sendFirmware (S fuel) B w = (Throw RangeError, w2)
            /\ wire w2 = wire w
            /\ consoleOutput w2
               = consoleOutput w ++ [sendingLine B (negotiatedMTU w)])
    as (w2 & Hrun & Hwire & Hcon).
  { rewrite Hrun. cbn [fst snd].
    split; [reflexivity|]. split; [|exact Hcon].
    apply sentSince_app. rewrite Hwire, app_nil_r. reflexivity. }
  destruct (sendFirmware_prelude pc B (S fuel) w Hpc)
    as (w2 & Hwire & Hcon & _ & Hrun).
  exists w2. split; [|split; assumption].
  rewrite Hrun. unfold bind at 1.
  rewrite sendFirmware_loop_eq.
  assert (Hlen : 0 < Z.of_nat (List.length B)).
  { destruct B; [contradiction|]. cbn [List.length]. lia. }
  destruct (Z.ltb_spec 0 (Z.of_nat (List.length B))) as [_|]; [|lia].
  cbv zeta. unfold bind at 1. unfold lift.
  rewrite dataFrame_negative by (unfold JS.min; lia).
  reflexivity.
Qed.

Lemma sendFirmware_mtu_below_header_witness :
  fst (sendFirmware 1 sampleFirmware (session steadyChannel 5))
  = Throw RangeError
  /\ sentSince (session steadyChannel 5)
       (snd (sendFirmware 1 sampleFirmware (session steadyChannel 5))) = [].
Proof.
  destruct (sendFirmware_mtu_below_header steadyChannel sampleFirmware 0
              (session steadyChannel 5) eq_refl) as (Hres & Hsent & _).
  - cbn. lia.
  - discriminate.
  - split; [exact Hres|exact Hsent].
Defined.

Lemma sendFirmware_loop_zero_payload (pc : Characteristic) (B : list byte) :
  reliable pc -> B <> [] ->
  forall (fuel : nat) (w : World),
    exists w' l,
      sendFirmware_loop fuel pc B (Z.of_nat (List.length B)) 0 0 w
      = (OutOfFuel, w')
      /\ wire w' = wire w ++ l
      /\ map att_data l = repeat headerOnlyFrame fuel.
Proof.
  intros Hrel Hne.
  assert (Hlen : 0 < Z.of_nat (List.length B)).
  { destruct B; [contradiction|]. cbn [List.length]. lia. }
  induction fuel as [|fuel IH]; intros w.
  - exists w, []. cbn [sendFirmware_loop].
    destruct (Z.ltb_spec 0 (Z.of_nat (List.length B))) as [_|]; [|lia].
    rewrite app_nil_r. repeat split.
  - destruct (sendFirmware_loop_step fuel pc B 0 0 w ltac:(lia) ltac:(lia) Hlen)
      as (w1 & Hwire1 & _ & _ & Hrun).
    cbv zeta in Hrun, Hwire1. rewrite Hrel in Hrun, Hwire1.
    change (0 + 0) with 0 in Hrun.
    destruct (IH w1) as (w' & l & Hloop & Hwire & Hdata).
    exists w'. eexists.
    split; [rewrite Hrun; exact Hloop|].
    split; [rewrite Hwire, Hwire1, <- app_assoc; reflexivity|].
    cbn [app map att_data repeat]. rewrite Hdata.
    rewrite Z.min_l by lia. reflexivity.
Qed.

(** X5. With a negotiated MTU of exactly 6 the payload size is 0 and the offset
    never advances: for a non-empty buffer on a channel that accepts every
    write, after any number [n] of iterations the loop has written [n]
    header-only Data frames (offset 0, length 0) and has not finished. *)
Theorem payload_size_zero_repeats_header (pc : Characteristic)
    (B : list byte) (fuel : nat) (w : World) :
  programCharacteristic w = Some pc ->
  negotiatedMTU w = 6 ->
  reliable pc ->
  B <> [] ->
  fst (sendFirmware fuel B w) = OutOfFuel
  /\ map att_data (sentSince w (snd (sendFirmware fuel B w)))
     = repeat headerOnlyFrame fuel.
Proof.
  intros Hpc Hmtu Hrel Hne.
  enough (exists w' l,
            sendFirmware fuel B w = (OutOfFuel, w')
            /\ wire w' = wire w ++ l
            /\ map att_data l = repeat headerOnlyFrame fuel)
    as (w' & l & Hrun & Hwire & Hdata).
  { rewrite Hrun. cbn [fst snd]. split; [reflexivity|].
    rewrite (sentSince_app w w' l Hwire). exact Hdata. }
  destruct (sendFirmware_prelude pc B fuel w Hpc)
    as (w2 & Hwire2 & _ & _ & Hrun).
  rewrite Hmtu in Hrun. change (6 - 6) with 0 in Hrun.
  destruct (sendFirmware_loop_zero_payload pc B Hrel Hne fuel w2)
    as (w' & l & Hloop & Hwire & Hdata).
  exists w', l.
  split; [|split; [congruence|exact Hdata]].
  rewrite Hrun. unfold bind at 1. rewrite Hloop. reflexivity.
Qed.

Lemma payload_size_zero_repeats_header_witness :
  fst (sendFirmware 3 sampleFirmware (session steadyChannel 6)) = OutOfFuel
  /\ map att_data
       (sentSince (session steadyChannel 6)
          (snd (sendFirmware 3 sampleFirmware (session steadyChannel 6))))
     = [headerOnlyFrame; headerOnlyFrame; headerOnlyFrame].
Proof.
  apply (payload_size_zero_repeats_header steadyChannel sampleFirmware 3
           (session steadyChannel 6) eq_refl eq_refl).
  - intros h k d. reflexivity.
  - discriminate.
Defined.

(** ** What a transfer writes *)

Lemma length_dataBytes (B : list byte) (o n : Z) :
  0 <= o -> 0 <= n -> o + n <= Z.of_nat (List.length B) ->
  Z.of_nat (List.length (dataBytes B o n)) = 6 + n.
Proof.
  intros Ho Hn Hle. unfold dataBytes.
  rewrite length_app, chunk_length by assumption.
  cbn [List.length]. lia.
Qed.

Lemma data_frame_sizes (pc : Characteristic) (B : list byte)
    (fuel : nat) (w : World) :
  programCharacteristic w = Some pc ->
  7 <= negotiatedMTU w ->
  (List.length B <= fuel)%nat ->
  forall f,
    In f (dataFrames (sentSince w (snd (sendFirmware fuel B w)))) ->
    7 <= Z.of_nat (List.length f) <= negotiatedMTU w
    /\ Z.of_nat (List.length f)
       = 6 + Z.of_nat (List.length (Wire.payload f)).
Proof.
  intros Hpc Hmtu Hfuel f Hin.
  destruct (sendFirmware_run pc B fuel w Hpc Hmtu Hfuel)
    as (e & l & lines & Ht & _ & _ & Hdf & _).
  rewrite Hdf in Hin. apply In_nth_error in Hin. destruct Hin as (i & Hi).
  rewrite nth_error_map in Hi.
  destruct (nth_error l i) as [a|] eqn:Ea; [|discriminate].
  injection Hi as <-.
  destruct (Transcript_nth pc B (negotiatedMTU w - 6) _ _ _ _ _ Ht i a Ea)
    as (Hlt & _ & Hd).
  rewrite Z.add_0_l in Hlt, Hd.
  assert (Hi0 : 0 <= Z.of_nat i * (negotiatedMTU w - 6)) by nia.
  rewrite Hd, payload_dataBytes.
  rewrite length_dataBytes by lia.
  rewrite chunk_length by lia.
  lia.
Qed.

(** X6. Every Data frame [sendFirmware] writes fits the negotiated MTU,
    whatever the length of the buffer: it has between 7 and [negotiatedMTU]
    bytes, six of header and the rest payload. *)
Theorem data_frames_fit_mtu (pc : Characteristic) (B : list byte)
    (fuel : nat) (w : World) :
  programCharacteristic w = Some pc ->
  7 <= negotiatedMTU w ->
  (List.length B <= fuel)%nat ->
  forall f,
    In f (dataFrames (sentSince w (snd (sendFirmware fuel B w)))) ->
    7 <= Z.of_nat (List.length f) <= negotiatedMTU w
    /\ Z.of_nat (List.length f)
       = 6 + Z.of_nat (List.length (Wire.payload f)).
Proof. exact (data_frame_sizes pc B fuel w). Qed.

Lemma data_frames_fit_mtu_witness :
  Forall (fun f => 7 <= Z.of_nat (List.length f) <= 23)
    (dataFrames
       (sentSince (session steadyChannel 23)
          (snd (sendFirmware 1000 scenarioFirmware (session steadyChannel 23))))).
Proof.
  apply Forall_forall. intros f Hin.
  apply (data_frames_fit_mtu steadyChannel scenarioFirmware 1000
           (session steadyChannel 23) eq_refl); [cbn; lia| |exact Hin].
  unfold scenarioFirmware. rewrite repeat_length. apply le_n.
Defined.

Lemma isData_not_isProgram (f : list byte) :
  Wire.isData f = true -> Wire.isProgram f = false.
Proof.
  unfold Wire.isData, Wire.isProgram.
  destruct (Wire.tag f); intros H; try discriminate H; reflexivity.
Qed.

(** X7. The Reload command is tied to the Program write: [sendFirmware] writes
    [01 'L'] only directly after a Program frame that was accepted, and every
    accepted Program frame is directly followed by it as the last write; a
    rejected Program frame is the last write of the run. *)
Theorem reload_follows_accepted_program (pc : Characteristic) (B : list byte)
    (fuel : nat) (w : World) :
  programCharacteristic w = Some pc ->
  7 <= negotiatedMTU w ->
  (List.length B <= fuel)%nat ->
  let sent := sentSince w (snd (sendFirmware fuel B w)) in
  (forall r, In r sent -> att_data r = [x01; "L"%byte] ->
     exists before p,
       sent = before ++ [p; r]
       /\ Wire.isProgram (att_data p) = true /\ att_ok p = true)
  /\ (forall p, In p sent -> Wire.isProgram (att_data p) = true ->
        if att_ok p
        then exists before r,
               sent = before ++ [p; r] /\ att_data r = [x01; "L"%byte]
        else exists before, sent = before ++ [p]).
Proof.
  intros Hpc Hmtu Hfuel sent.
  destruct (sendFirmware_run pc B fuel w Hpc Hmtu Hfuel)
    as (e & l & lines & Ht & _ & Hsent & _).
  fold sent in Hsent.
  pose proof (Transcript_kinds pc B _ _ _ _ _ _ Ht) as Hk.
  rewrite Forall_forall in Hk.
  set (p0 := programAttempt pc B (wire w ++ l)) in *.
  set (r0 := reloadAttempt pc ((wire w ++ l) ++ [p0])) in *.
  assert (Hp0 : Wire.isProgram (att_data p0) = true) by reflexivity.
  assert (Hr0 : att_data r0 = [x01; "L"%byte]) by reflexivity.
  assert (Hfinal : finalWrites pc B (wire w ++ l)
                   = if att_ok p0 then [p0; r0] else [p0]) by reflexivity.
  rewrite Hfinal in Hsent. clear Hfinal.
  split.
  - intros r Hin Hr. rewrite Hsent in Hin. apply in_app_or in Hin.
    destruct Hin as [Hin|Hin].
    { apply Hk in Hin. rewrite Hr in Hin. discriminate Hin. }
    destruct e; [|contradiction]. cbn [afterLoop] in Hin, Hsent.
    destruct (att_ok p0) eqn:Eok.
    + destruct Hin as [<-|[<-|[]]].
      * rewrite Hr in Hp0. discriminate Hp0.
      * exists l, p0. auto.
    + destruct Hin as [<-|[]]. rewrite Hr in Hp0. discriminate Hp0.
  - intros p Hin Hp. rewrite Hsent in Hin. apply in_app_or in Hin.
    destruct Hin as [Hin|Hin].
    { apply Hk in Hin. apply isData_not_isProgram in Hin. congruence. }
    destruct e; [|contradiction]. cbn [afterLoop] in Hin, Hsent.
    destruct (att_ok p0) eqn:Eok.
    + destruct Hin as [<-|[<-|[]]].
      * rewrite Eok. exists l, r0. auto.
      * rewrite Hr0 in Hp. discriminate Hp.
    + destruct Hin as [<-|[]]. rewrite Eok. exists l. exact Hsent.
Qed.

Lemma reload_follows_accepted_program_witness :
  let w := session steadyChannel 8 in
  let sent := sentSince w (snd (sendFirmware 5 sampleFirmware w)) in
  exists before p r,
    sent = before ++ [p; r]
    /\ Wire.isProgram (att_data p) = true
    /\ att_data r = [x01; "L"%byte].
Proof.
  cbv zeta.
  destruct (reload_follows_accepted_program steadyChannel sampleFirmware 5
              (session steadyChannel 8) eq_refl) as (_ & Hprog).
  - cbn. lia.
  - apply le_n.
  - cbv zeta in Hprog.
    specialize (Hprog {| att_kind := WithoutResponse;
                         att_data := [x01; "P"%byte; x05; x00; x40; x3b;
                                      x02; x00];
                         att_ok := true |}).
    cbn [att_ok att_data] in Hprog.
    destruct Hprog as (before & r & Hs & Hr).
    + vm_compute. right. right. right. left. reflexivity.
    + reflexivity.
    + eexists before, _, r. split; [exact Hs|]. split; [reflexivity|exact Hr].
Defined.

(** X8. Every write of a transfer goes through [writeCharacteristic]: all the
    frames [sendFirmware] writes use [writeValueWithoutResponse] when the
    characteristic supports it and [writeValue] otherwise. *)
Theorem transfer_uses_one_write_kind (pc : Characteristic) (B : list byte)
    (fuel : nat) (w : World) :
  programCharacteristic w = Some pc ->
  7 <= negotiatedMTU w ->
  (List.length B <= fuel)%nat ->
  forall a,
    In a (sentSince w (snd (sendFirmware fuel B w))) ->
    att_kind a = if writeWithoutResponse pc then WithoutResponse
                 else WithResponse.
Proof.
  intros Hpc Hmtu Hfuel a Hin.
  destruct (sendFirmware_run pc B fuel w Hpc Hmtu Hfuel)
    as (e & l & lines & Ht & _ & Hsent & _).
  rewrite Hsent in Hin. apply in_app_or in Hin.
  destruct Hin as [Hin|Hin].
  - apply In_nth_error in Hin. destruct Hin as (i & Hi).
    destruct (Transcript_nth pc B (negotiatedMTU w - 6) _ _ _ _ _ Ht i a Hi)
      as (_ & Hk & _).
    exact Hk.
  - destruct e; [|contradiction]. cbn [afterLoop] in Hin.
    unfold finalWrites in Hin.
    destruct (att_ok (programAttempt pc B (wire w ++ l))).
    + destruct Hin as [<-|[<-|[]]]; reflexivity.
    + destruct Hin as [<-|[]]; reflexivity.
Qed.

Lemma transfer_uses_one_write_kind_witness :
  Forall (fun a => att_kind a = WithResponse)
    (sentSince (session deafChannel 8)
       (snd (sendFirmware 5 sampleFirmware (session deafChannel 8)))).
Proof.
  apply Forall_forall. intros a Hin.
  apply (transfer_uses_one_write_kind deafChannel sampleFirmware 5
           (session deafChannel 8) eq_refl); [cbn; lia|apply le_n|exact Hin].
Defined.

(** ** What the handlers leave alone *)

Lemma extends_refl {A : Type} (l : list A) : extends l l.
Proof. exists []. now rewrite app_nil_r. Qed.

Lemma extends_trans {A : Type} (l1 l2 l3 : list A) :
  extends l1 l2 -> extends l2 l3 -> extends l1 l3.
Proof.
  intros (t1 & ->) (t2 & ->). exists (t1 ++ t2). now rewrite app_assoc.
Qed.

Lemma Stable_ret {A : Type} (a : A) : Stable (ret a).
Proof.
  intros w. cbn. split; [apply sameSession_refl|].
  split; apply extends_refl.
Qed.

Lemma Stable_lift {A : Type} (c : Completion A) : Stable (lift c).
Proof.
  intros w. cbn. split; [apply sameSession_refl|].
  split; apply extends_refl.
Qed.

Lemma Stable_outOfFuel {A : Type} : Stable (@outOfFuel A).
Proof.
  intros w. cbn. split; [apply sameSession_refl|].
  split; apply extends_refl.
Qed.

Lemma Stable_step {A : Type} (m : M A) (w w1 : World) :
  sameSession w w1 ->
  extends (wire w) (wire w1) ->
  extends (consoleOutput w) (consoleOutput w1) ->
  Stable m ->
  sameSession w (snd (m w1))
  /\ extends (wire w) (wire (snd (m w1)))
  /\ extends (consoleOutput w) (consoleOutput (snd (m w1))).
Proof.
  intros Hs Hw Hc Hm. destruct (Hm w1) as (Hs1 & Hw1 & Hc1).
  split; [apply (sameSession_trans _ _ _ Hs Hs1)|].
  split; [apply (extends_trans _ _ _ Hw Hw1)|apply (extends_trans _ _ _ Hc Hc1)].
Qed.

Lemma Stable_bind {A B : Type} (m : M A) (f : A -> M B) :
  Stable m -> (forall a, Stable (f a)) -> Stable (bind m f).
Proof.
  intros Hm Hf w. unfold bind.
  destruct (Hm w) as (Hs & Hw & Hc).
  destruct (m w) as [[a|e|] w1]; cbn [snd] in *.
  - apply Stable_step; auto.
  - auto.
  - auto.
Qed.

Lemma Stable_try_catch {A : Type} (m : M A) (h : JsError -> M A) :
  Stable m -> (forall e, Stable (h e)) -> Stable (try_catch m h).
Proof.
  intros Hm Hh w. unfold try_catch.
  destruct (Hm w) as (Hs & Hw & Hc).
  destruct (m w) as [[a|e|] w1]; cbn [snd] in *.
  - auto.
  - apply Stable_step; auto.
  - auto.
Qed.

Lemma Stable_console (l : Level) (message : string) : Stable (console l message).
Proof.
  intros w. unfold sameSession. cbn.
  repeat split; apply extends_refl.
Qed.

Lemma Stable_appendToConsole (message : string) :
  Stable (appendToConsole message).
Proof.
  intros w. unfold appendToConsole. destruct (blank message).
  - cbn. split; [apply sameSession_refl|]. split; apply extends_refl.
  - unfold sameSession. cbn.
    repeat split; [apply extends_refl|now exists [message]].
Qed.

Lemma Stable_gattWrite (pc : Characteristic) (k : WriteKind)
    (buffer : list byte) : Stable (gattWrite pc k buffer).
Proof.
  intros w. unfold sameSession. cbn.
  repeat split; [eexists; reflexivity|apply extends_refl].
Qed.

Lemma Stable_writeCharacteristic (pc : Characteristic) (buffer : list byte) :
  Stable (writeCharacteristic pc buffer).
Proof.
  unfold writeCharacteristic. destruct (writeWithoutResponse pc).
  - apply Stable_gattWrite.
  - apply Stable_bind; [apply Stable_console|].
    intros _. apply Stable_gattWrite.
Qed.

Lemma Stable_withProgramCharacteristic {A : Type}
    (k : Characteristic -> M A) :
  (forall pc, Stable (k pc)) -> Stable (withProgramCharacteristic k).
Proof.
  intros Hk w. unfold withProgramCharacteristic.
  destruct (programCharacteristic w) as [pc|]; [apply Hk|].
  cbn. split; [apply sameSession_refl|]. split; apply extends_refl.
Qed.

Lemma Stable_sendReload : Stable sendReload.
Proof.
  unfold sendReload. apply Stable_bind; [apply Stable_lift|]. intros buffer.
  apply Stable_try_catch.
  - apply Stable_bind.
    + apply Stable_withProgramCharacteristic. intros pc.
      apply Stable_writeCharacteristic.
    + intros _. apply Stable_appendToConsole.
  - intros _. apply Stable_appendToConsole.
Qed.

Lemma Stable_settled {A : Type} (m : M A) : Stable m -> Stable (settled m).
Proof.
  intros Hm w. unfold settled. pose proof (Hm w) as H.
  destruct (m w) as [r w1]. exact H.
Qed.

Lemma Stable_defer (promise : Completion unit) : Stable (defer promise).
Proof.
  intros w. unfold sameSession. cbn.
  repeat split; apply extends_refl.
Qed.

Lemma Stable_sendReload_unawaited : Stable sendReload_unawaited.
Proof.
  unfold sendReload_unawaited, sendReload_begin.
  apply Stable_try_catch; [|intros _; apply Stable_ret].
  apply Stable_bind; [|intros promise; apply Stable_defer].
  apply Stable_bind; [apply Stable_lift|]. intros buffer.
  apply Stable_settled, Stable_withProgramCharacteristic. intros pc.
  apply Stable_writeCharacteristic.
Qed.

Lemma Stable_sendReset : Stable sendReset.
Proof.
  unfold sendReset. apply Stable_bind; [apply Stable_lift|]. intros buffer.
  apply Stable_try_catch.
  - apply Stable_bind.
    + apply Stable_withProgramCharacteristic. intros pc.
      apply Stable_try_catch; [apply Stable_gattWrite|].
      intros _. apply Stable_ret.
    + intros _. apply Stable_appendToConsole.
  - intros _. apply Stable_appendToConsole.
Qed.

Lemma Stable_sendFirmware_loop (pc : Characteristic) (B : list byte)
    (len ps : Z) (fuel : nat) :
  forall offset, Stable (sendFirmware_loop fuel pc B len ps offset).
Proof.
  induction fuel as [|fuel IH]; intros offset.
  - cbn [sendFirmware_loop]. destruct (offset <? len).
    + apply Stable_outOfFuel.
    + apply Stable_ret.
  - rewrite sendFirmware_loop_eq. destruct (offset <? len).
    + cbv zeta. apply Stable_bind; [apply Stable_lift|]. intros buffer.
      apply Stable_bind.
      * apply Stable_try_catch.
        -- apply Stable_bind; [apply Stable_writeCharacteristic|]. intros _.
           apply Stable_bind; [apply Stable_appendToConsole|]. intros _.
           apply Stable_ret.
        -- intros _. apply Stable_bind; [apply Stable_appendToConsole|].
           intros _. apply Stable_ret.
      * intros [|]; [apply IH|apply Stable_ret].
    + apply Stable_ret.
Qed.

Lemma Stable_afterChunks (pc : Characteristic) (B : list byte)
    (e : LoopExit) : Stable (afterChunks pc B e).
Proof.
  destruct e; cbn [afterChunks]; [|apply Stable_ret].
  apply Stable_bind; [apply Stable_lift|]. intros buffer.
  apply Stable_try_catch.
  - apply Stable_bind; [apply Stable_writeCharacteristic|]. intros _.
    apply Stable_bind; [apply Stable_appendToConsole|]. intros _.
    apply Stable_sendReload_unawaited.
  - intros _. apply Stable_appendToConsole.
Qed.

Lemma Stable_sendFirmware (fuel : nat) (B : list byte) :
  Stable (sendFirmware fuel B).
Proof.
  intros w.
  destruct (programCharacteristic w) as [pc|] eqn:Hpc.
  - destruct (sendFirmware_prelude pc B fuel w Hpc)
      as (w2 & Hwire & Hcon & Hsame & Hrun).
    rewrite Hrun.
    apply Stable_step.
    + exact Hsame.
    + rewrite Hwire. apply extends_refl.
    + rewrite Hcon. now eexists.
    + apply Stable_bind; [apply Stable_sendFirmware_loop|].
      apply Stable_afterChunks.
  - unfold sendFirmware. rewrite Hpc. apply Stable_console.
Qed.

(** X9. Whatever the buffer, the MTU, the channel and the outcome (normal
    return, exception or a loop still running), [sendFirmware], [sendReload]
    and [sendReset] never change the negotiated MTU or the characteristics,
    and they only add to the page console and to the writes on the
    channel: nothing already there is removed or altered. *)
Theorem handlers_only_append (fuel : nat) (B : list byte) (w : World) :
  (negotiatedMTU (snd (sendFirmware fuel B w)) = negotiatedMTU w
   /\ programCharacteristic (snd (sendFirmware fuel B w))
      = programCharacteristic w
   /\ extends (wire w) (wire (snd (sendFirmware fuel B w)))
   /\ extends (consoleOutput w) (consoleOutput (snd (sendFirmware fuel B w))))
  /\ (negotiatedMTU (snd (sendReload w)) = negotiatedMTU w
      /\ programCharacteristic (snd (sendReload w)) = programCharacteristic w
      /\ extends (wire w) (wire (snd (sendReload w)))
      /\ extends (consoleOutput w) (consoleOutput (snd (sendReload w))))
  /\ (negotiatedMTU (snd (sendReset w)) = negotiatedMTU w
      /\ programCharacteristic (snd (sendReset w)) = programCharacteristic w
      /\ extends (wire w) (wire (snd (sendReset w)))
      /\ extends (consoleOutput w) (consoleOutput (snd (sendReset w)))).
Proof.
  destruct (Stable_sendFirmware fuel B w) as ((F1 & _ & F2) & F3 & F4).
  destruct (Stable_sendReload w) as ((L1 & _ & L2) & L3 & L4).
  destruct (Stable_sendReset w) as ((R1 & _ & R2) & R3 & R4).
  repeat split; assumption.
Qed.

(** ** [negotiateMTU] *)

Lemma getUint16_range (view : list byte) (i d : Z) :
  DataView.getUint16 view i = Normal d -> 0 <= d <= 65535.
Proof.
  unfold DataView.getUint16.
  destruct ((0 <=? i) && (i + 2 <=? byteLength view)); [|discriminate].
  pose proof (Z_of_byte_range (nth (Z.to_nat i) view x00)) as Hlo.
  pose proof (Z_of_byte_range (nth (Z.to_nat i + 1) view x00)) as Hhi.
  set (lo := Z_of_byte (nth (Z.to_nat i) view x00)) in *.
  set (hi := Z_of_byte (nth (Z.to_nat i + 1) view x00)) in *.
  intros H. assert (Hd : d = lo + 256 * hi) by congruence.
  lia.
Qed.

Lemma negotiateMTU_frame (w : World) :
  wire (snd (negotiateMTU w)) = wire w
  /\ consoleOutput (snd (negotiateMTU w)) = consoleOutput w
  /\ programCharacteristic (snd (negotiateMTU w)) = programCharacteristic w
  /\ negotiatedMtuCharacteristic (snd (negotiateMTU w))
     = negotiatedMtuCharacteristic w.
Proof.
  unfold negotiateMTU.
  destruct (programCharacteristic w) as [pc|] eqn:Hpc;
    [|cbn; rewrite Hpc; repeat split].
  destruct (requestMTU (gatt pc)) as [request|].
  - unfold try_catch, bind, lift.
    destruct (request REQUESTED_MTU) as [granted|]; cbn; rewrite Hpc;
      repeat split.
  - unfold try_catch, bind, lift.
    destruct (negotiatedMtuCharacteristic w) as [c|] eqn:Hc;
      [|cbn; rewrite Hpc, Hc; repeat split].
    destruct (readValue c) as [view|];
      [|cbn; rewrite Hpc, Hc; repeat split].
    destruct (DataView.getUint16 view 0) as [d|err|];
      cbn; rewrite Hpc, Hc; repeat split.
Qed.

Lemma negotiateMTU_read_range (pc : Characteristic) (w : World) :
  programCharacteristic w = Some pc ->
  requestMTU (gatt pc) = None ->
  negotiatedMTU (snd (negotiateMTU w)) = negotiatedMTU w
  \/ -3 <= negotiatedMTU (snd (negotiateMTU w)) <= 65532.
Proof.
  intros Hpc Hreq.
  destruct (negotiateMTU_spec pc w Hpc) as (_ & Hval & _).
  rewrite Hval. unfold negotiatedValue. rewrite Hreq.
  destruct (negotiatedMtuCharacteristic w) as [c|]; [|now left].
  destruct (readValue c) as [view|]; [|now left].
  destruct (DataView.getUint16 view 0) as [d|err|] eqn:Hd;
    [|now left|now left].
  right. pose proof (getUint16_range view 0 d Hd). lia.
Qed.

(** X10. [negotiateMTU] touches nothing but the negotiated MTU: it writes nothing
    on the channel and nothing on the page console.  Not connected, it
    throws a TypeError and changes nothing at all.  Without the MTU-request
    primitive the value it leaves is the previous one or the device's 16-bit
    value minus 3, hence between -3 and 65532. *)
Theorem negotiateMTU_only_sets_mtu (w : World) :
  let w' := snd (negotiateMTU w) in
  wire w' = wire w
  /\ consoleOutput w' = consoleOutput w
  /\ programCharacteristic w' = programCharacteristic w
  /\ negotiatedMtuCharacteristic w' = negotiatedMtuCharacteristic w
  /\ (programCharacteristic w = None ->
      negotiateMTU w = (Throw TypeError, w))
  /\ (forall pc,
        programCharacteristic w = Some pc ->
        requestMTU (gatt pc) = None ->
        negotiatedMTU w' = negotiatedMTU w
        \/ -3 <= negotiatedMTU w' <= 65532).
Proof.
  cbv zeta.
  destruct (negotiateMTU_frame w) as (H1 & H2 & H3 & H4).
  repeat (split; [assumption|]).
  split.
  - intros Hpc. unfold negotiateMTU. rewrite Hpc. reflexivity.
  - intros pc Hpc Hreq. now apply (negotiateMTU_read_range pc).
Qed.

(** ** More on [crc16_reflect] *)

Lemma crc16_reflect_fold (poly seed : Z) (src : list byte) :
  0 <= poly < 65536 -> 0 <= seed < 65536 ->
  crc16_reflect poly seed src = fold_left (Reference.step poly) src seed
  /\ 0 <= fold_left (Reference.step poly) src seed < 65536.
Proof.
  intros Hp Hs.
  destruct (crc16_bytes_fold poly Hp src seed Hs) as [Heq Hr].
  rewrite <- Heq. split; [|exact Hr].
  unfold crc16_reflect. apply band_ffff_u16. exact Hr.
Qed.

Lemma crc16_reflect_app (poly seed : Z) (a b : list byte) :
  0 <= poly < 65536 -> 0 <= seed < 65536 ->
  crc16_reflect poly seed (a ++ b)
  = crc16_reflect poly (crc16_reflect poly seed a) b.
Proof.
  intros Hp Hs.
  destruct (crc16_reflect_fold poly seed a Hp Hs) as [Ha Hra].
  destruct (crc16_reflect_fold poly seed (a ++ b) Hp Hs) as [Hab _].
  rewrite Hab, Ha.
  destruct (crc16_reflect_fold poly _ b Hp Hra) as [Hb _].
  rewrite Hb. apply fold_left_app.
Qed.

Lemma crcChain_concat (poly : Z) (chunks : list (list byte)) :
  0 <= poly < 65536 ->
  forall seed, 0 <= seed < 65536 ->
    fold_left (crc16_reflect poly) chunks seed
    = crc16_reflect poly seed (List.concat chunks).
Proof.
  intros Hp.
  induction chunks as [|c cs IH]; intros seed Hs.
  - cbn [fold_left List.concat]. rewrite crc16_reflect_empty.
    symmetry. apply Z.mod_small. exact Hs.
  - rewrite fold_left_cons. cbn [List.concat].
    rewrite IH by apply crc16_reflect_range.
    symmetry. now apply crc16_reflect_app.
Qed.

(** X11. The checksum can be taken piece by piece: for a 16-bit polynomial and
    seed, feeding each result as the seed of the next call over consecutive
    chunks gives the checksum of the whole buffer, however it is cut. *)
Theorem crc16_reflect_chains (poly seed : Z) (chunks : list (list byte)) :
  0 <= poly < 65536 ->
  0 <= seed < 65536 ->
  fold_left (crc16_reflect poly) chunks seed
  = crc16_reflect poly seed (List.concat chunks).
Proof. intros Hp Hs. now apply (crcChain_concat poly chunks Hp seed). Qed.

Lemma crc16_reflect_chains_witness :
  crc16_reflect 0xD175 (crc16_reflect 0xD175 0xFFFF ["R"; "I"]%byte)
    ["T"; "E"; "0"]%byte
  = crc16_reflect 0xD175 0xFFFF sampleFirmware.
Proof.
  apply (crc16_reflect_chains 0xD175 0xFFFF
           [["R"; "I"]%byte; ["T"; "E"; "0"]%byte]); lia.
Defined.

(** X12. The CRC announced by the Program frame can be checked by the receiver
    as the frames arrive: when no Data write is rejected it equals the
    checksum chained over the payloads of the Data frames in the order they
    were written, starting from 0xFFFF. *)
Theorem program_crc_is_chained_payload_crc (pc : Characteristic)
    (B : list byte) (fuel : nat) (w : World) :
  programCharacteristic w = Some pc ->
  7 <= negotiatedMTU w ->
  (List.length B <= fuel)%nat ->
  let sent := sentSince w (snd (sendFirmware fuel B w)) in
  (forall a, In a sent -> Wire.isData (att_data a) = true ->
             att_ok a = true) ->
  exists p,
    programFrames sent = [p]
    /\ Wire.crc16 p
       = fold_left (crc16_reflect 0xD175)
           (map Wire.payload (dataFrames sent)) 0xFFFF.
Proof.
  intros Hpc Hmtu Hfuel sent Hall.
  destruct (sendFirmware_run pc B fuel w Hpc Hmtu Hfuel)
    as (e & l & lines & Ht & _ & Hsent & Hdf & Hprog & _).
  fold sent in Hsent, Hdf, Hprog.
  pose proof (Transcript_kinds pc B _ _ _ _ _ _ Ht) as Hk.
  assert (He : e = Completed).
  { apply (Transcript_all_ok pc B _ _ _ _ _ _ Ht).
    intros a Ha. apply Hall.
    - rewrite Hsent. apply in_or_app. now left.
    - rewrite Forall_forall in Hk. now apply Hk. }
  subst e. cbn [afterLoop] in Hprog.
  eexists. split; [exact Hprog|].
  unfold programAttempt. cbn [att_data].
  rewrite crc16_programBytes.
  rewrite Z.mod_small by apply crc16_reflect_range.
  rewrite crcChain_concat by lia.
  rewrite Hdf.
  rewrite (Transcript_concat pc B (negotiatedMTU w - 6) ltac:(lia)
             _ _ _ _ _ Ht eq_refl) by lia.
  reflexivity.
Qed.

Lemma program_crc_is_chained_payload_crc_witness :
  let w := session steadyChannel 8 in
  let sent := sentSince w (snd (sendFirmware 5 sampleFirmware w)) in
  exists p,
    programFrames sent = [p]
    /\ Wire.crc16 p
       = fold_left (crc16_reflect 0xD175)
           (map Wire.payload (dataFrames sent)) 0xFFFF.
Proof.
  apply (program_crc_is_chained_payload_crc steadyChannel sampleFirmware 5
           (session steadyChannel 8) eq_refl); [cbn; lia|apply le_n|].
  intros a Ha _. all_resolved a Ha.
Defined.

Lemma lxor_cancel_r (a b c : Z) : Z.lxor a c = Z.lxor b c -> a = b.
Proof.
  intros H. apply (f_equal (fun x => Z.lxor x c)) in H.
  now rewrite !Z.lxor_assoc, Z.lxor_nilpotent, !Z.lxor_0_r in H.
Qed.

Lemma lxor_cancel_l (a b c : Z) : Z.lxor c a = Z.lxor c b -> a = b.
Proof. rewrite !(Z.lxor_comm c). apply lxor_cancel_r. Qed.

Lemma Z_of_byte_inj (x y : byte) : Z_of_byte x = Z_of_byte y -> x = y.
Proof.
  unfold Z_of_byte. intros H. apply N2Z.inj in H.
  pose proof (Byte.of_to_N x) as Hx. rewrite H, Byte.of_to_N in Hx.
  now injection Hx.
Qed.

(** The top bit of a 16-bit value. *)
Lemma lxor_top_bit (h poly : Z) :
  0 <= h < 32768 -> 32768 <= poly < 65536 -> 32768 <= Z.lxor h poly.
Proof.
  intros Hh Hp.
  destruct (lxor_u16 h poly ltac:(lia) ltac:(lia)) as [Hlo Hhi].
  assert (Hbit : Z.testbit (Z.lxor h poly) 15 = true).
  { rewrite Z.lxor_spec.
    replace (Z.testbit h 15) with false.
    - cbn [xorb]. apply Z.testbit_true; [lia|].
      change (2 ^ 15) with 32768.
      replace (poly / 32768) with 1; [reflexivity|].
      apply Z.div_unique with (r := poly - 32768); lia.
    - symmetry. rewrite <- (Z.mod_small h (2 ^ 15))
        by (change (2 ^ 15) with 32768; lia).
      apply Z.mod_pow2_bits_high. lia. }
  apply Z.testbit_true in Hbit; [|lia].
  change (2 ^ 15) with 32768 in Hbit.
  destruct (Z.le_gt_cases 32768 (Z.lxor h poly)) as [|Hlt]; [assumption|].
  rewrite Z.div_small in Hbit by lia. discriminate Hbit.
Qed.

Section CrcInjective.

Variable poly : Z.
Hypothesis poly_top : 32768 <= poly < 65536.

(** With the top bit of the polynomial set, a round loses nothing. *)
Lemma round_inj (a b : Z) :
  0 <= a < 65536 -> 0 <= b < 65536 ->
  Reference.round poly a = Reference.round poly b -> a = b.
Proof.
  intros Ha Hb. unfold Reference.round, Reference.mask16.
  pose proof (Z.bit0_mod a) as Pa. pose proof (Z.bit0_mod b) as Pb.
  pose proof (Z.div_mod a 2 ltac:(lia)) as Da.
  pose proof (Z.div_mod b 2 ltac:(lia)) as Db.
  assert (Ha2 : 0 <= a / 2 < 32768)
    by (split; [apply Z.div_pos; lia|apply Z.div_lt_upper_bound; lia]).
  assert (Hb2 : 0 <= b / 2 < 32768)
    by (split; [apply Z.div_pos; lia|apply Z.div_lt_upper_bound; lia]).
  pose proof (lxor_top_bit (a / 2) poly Ha2 poly_top) as Ta.
  pose proof (lxor_top_bit (b / 2) poly Hb2 poly_top) as Tb.
  pose proof (lxor_u16 (a / 2) poly ltac:(lia) ltac:(lia)) as Ua.
  pose proof (lxor_u16 (b / 2) poly ltac:(lia) ltac:(lia)) as Ub.
  destruct (Z.testbit a 0), (Z.testbit b 0); cbn [Z.b2z] in Pa, Pb.
  - rewrite !Z.mod_small by lia. intros H.
    apply lxor_cancel_r in H. lia.
  - rewrite Z.mod_small by lia. intros H. lia.
  - rewrite Z.mod_small by lia. intros H. lia.
  - intros H. lia.
Qed.

Lemma iter_round_inj (n : nat) (a b : Z) :
  0 <= a < 65536 -> 0 <= b < 65536 ->
  Nat.iter n (Reference.round poly) a = Nat.iter n (Reference.round poly) b ->
  a = b.
Proof.
  intros Ha Hb. induction n as [|n IH]; cbn [Nat.iter nat_rect]; [auto|].
  intros H. apply IH. apply round_inj; try assumption.
  - apply (iter_round_u16 poly n a Ha).
  - apply (iter_round_u16 poly n b Hb).
Qed.

Lemma step_u16 (acc : Z) (x : byte) :
  0 <= acc < 65536 -> 0 <= Reference.step poly acc x < 65536.
Proof.
  intros Ha. unfold Reference.step.
  pose proof (Z_of_byte_range x) as Hx.
  rewrite xor_low_byte_lxor by exact Hx.
  apply iter_round_u16. apply lxor_u16; lia.
Qed.

Lemma step_inj (acc acc' : Z) (x y : byte) :
  0 <= acc < 65536 -> 0 <= acc' < 65536 ->
  Reference.step poly acc x = Reference.step poly acc' y ->
  Z.lxor acc (Z_of_byte x) = Z.lxor acc' (Z_of_byte y).
Proof.
  intros Ha Ha'. unfold Reference.step.
  pose proof (Z_of_byte_range x) as Hx. pose proof (Z_of_byte_range y) as Hy.
  rewrite !xor_low_byte_lxor by assumption.
  apply iter_round_inj; apply lxor_u16; lia.
Qed.

Lemma fold_step_inj (suf : list byte) :
  forall acc acc',
    0 <= acc < 65536 -> 0 <= acc' < 65536 ->
    fold_left (Reference.step poly) suf acc
    = fold_left (Reference.step poly) suf acc' ->
    acc = acc'.
Proof.
  induction suf as [|z suf IH]; intros acc acc' Ha Ha'; [auto|].
  rewrite !fold_left_cons. intros H.
  apply IH in H; try (apply step_u16; assumption).
  apply step_inj in H; try assumption.
  now apply lxor_cancel_r in H.
Qed.

End CrcInjective.

(** X13. A corrupted byte never goes unnoticed.  For a 16-bit polynomial with
    its top bit set (0xD175 is one) and a 16-bit seed, two buffers that
    differ in exactly one byte have different checksums. *)
Theorem crc16_reflect_detects_one_byte (poly seed : Z)
    (pre suf : list byte) (x y : byte) :
  32768 <= poly < 65536 ->
  0 <= seed < 65536 ->
  x <> y ->
  crc16_reflect poly seed (pre ++ x :: suf)
  <> crc16_reflect poly seed (pre ++ y :: suf).
Proof.
  intros Hp Hs Hxy Heq.
  destruct (crc16_reflect_fold poly seed (pre ++ x :: suf) ltac:(lia) Hs)
    as [Hx _].
  destruct (crc16_reflect_fold poly seed (pre ++ y :: suf) ltac:(lia) Hs)
    as [Hy _].
  rewrite Hx, Hy in Heq. rewrite !fold_left_app, !fold_left_cons in Heq.
  destruct (crc16_reflect_fold poly seed pre ltac:(lia) Hs) as [_ Hr].
  set (acc := fold_left (Reference.step poly) pre seed) in *.
  pose proof (step_u16 poly acc x Hr) as Hsx.
  pose proof (step_u16 poly acc y Hr) as Hsy.
  apply (fold_step_inj poly Hp suf _ _ Hsx Hsy) in Heq.
  apply (step_inj poly Hp acc acc x y Hr Hr) in Heq.
  apply lxor_cancel_l in Heq. apply Z_of_byte_inj in Heq.
  contradiction.
Qed.

Lemma crc16_reflect_detects_one_byte_witness :
  crc16_reflect 0xD175 0xFFFF ["R"; "I"; "T"; "E"; "0"]%byte
  <> crc16_reflect 0xD175 0xFFFF ["R"; "I"; "T"; "F"; "0"]%byte.
Proof.
  apply (crc16_reflect_detects_one_byte 0xD175 0xFFFF ["R"; "I"; "T"]%byte
           ["0"%byte] "E"%byte "F"%byte); [lia|lia|discriminate].
Defined.

(** ** Negotiation followed by a transfer *)

(** X14. A transfer honours what negotiation read from the device: without the
    MTU-request primitive, when the device reports an MTU [d] of at least
    10, [negotiateMTU] followed by [sendFirmware] returns normally and every
    Data frame written has at most [d - 3] bytes, of which at most [d - 9]
    are payload. *)
Theorem transfer_honours_device_mtu (pc : Characteristic)
    (c : MtuCharacteristic) (view : list byte) (d : Z) (B : list byte)
    (fuel : nat) (w : World) :
  programCharacteristic w = Some pc ->
  requestMTU (gatt pc) = None ->
  negotiatedMtuCharacteristic w = Some c ->
  readValue c = Some view ->
  DataView.getUint16 view 0 = Normal d ->
  10 <= d ->
  (List.length B <= fuel)%nat ->
  let w1 := snd (negotiateMTU w) in
  let run := sendFirmware fuel B w1 in
  fst (negotiateMTU w) = Normal tt
  /\ fst run = Normal tt
  /\ forall f,
       In f (dataFrames (sentSince w1 (snd run))) ->
       Z.of_nat (List.length f) <= d - 3
       /\ Z.of_nat (List.length (Wire.payload f)) <= d - 9.
Proof.
  intros Hpc Hreq Hc Hv Hd Hmin Hfuel w1 run.
  destruct (negotiateMTU_spec pc w Hpc) as (Hres & Hval & Hpc1 & _).
  fold w1 in Hval, Hpc1.
  unfold negotiatedValue in Hval. rewrite Hreq, Hc, Hv, Hd in Hval.
  split; [exact Hres|].
  destruct (sendFirmware_run pc B fuel w1 Hpc1 ltac:(lia) Hfuel)
    as (e & l & lines & _ & Hrun & _).
  fold run in Hrun. split; [exact Hrun|].
  intros f Hin.
  destruct (data_frame_sizes pc B fuel w1 Hpc1 ltac:(lia) Hfuel f Hin)
    as (Hsize & Hsplit).
  lia.
Qed.

Lemma transfer_honours_device_mtu_witness :
  let w1 := snd (negotiateMTU (reportingSession [x1a; x00])) in
  Forall (fun f => Z.of_nat (List.length f) <= 23)
    (dataFrames
       (sentSince w1 (snd (sendFirmware 1000 scenarioFirmware w1)))).
Proof.
  cbv zeta. apply Forall_forall. intros f Hin.
  destruct (transfer_honours_device_mtu steadyChannel
              {| readValue := Some [x1a; x00] |} [x1a; x00] 26
              scenarioFirmware 1000 (reportingSession [x1a; x00])
              eq_refl eq_refl eq_refl eq_refl eq_refl)
    as (_ & _ & Hf).
  - lia.
  - unfold scenarioFirmware. rewrite repeat_length. apply le_n.
  - destruct (Hf f Hin) as (Hlen & _). exact Hlen.
Defined.

(** ** The page console of a complete deployment *)

Section TranscriptLines.

Variable pc : Characteristic.
Variable B : list byte.
Variable ps : Z.

Lemma Transcript_lines_completed h offset fs lines e :
  Transcript pc B ps h offset fs lines e ->
  e = Completed ->
  lines
  = map (fun i : nat =>
           dataOkLine (offset + Z.of_nat i * ps)
             (Z.min ps (Z.of_nat (List.length B)
                        - (offset + Z.of_nat i * ps))))
        (seq 0 (List.length fs)).
Proof.
  induction 1 as [h offset Hge|h offset a Hlt Ha Hr
                  |h offset a rest lines e Hlt Ha Hr Ht IH];
    intros He.
  - reflexivity.
  - discriminate.
  - cbn [List.length seq map].
    replace (offset + Z.of_nat 0 * ps) with offset by lia.
    f_equal. rewrite (IH He), <- seq_shift, map_map.
    apply map_ext. intros i.
    replace (offset + ps + Z.of_nat i * ps)
      with (offset + Z.of_nat (S i) * ps) by lia.
    reflexivity.
Qed.

End TranscriptLines.

(** The promise a deployment leaves waiting when it returns. *)
Lemma sendFirmware_pending (pc : Characteristic) (B : list byte) (fuel : nat)
    (w : World) :
  programCharacteristic w = Some pc ->
  7 <= negotiatedMTU w ->
  (List.length B <= fuel)%nat ->
  exists e fs lines,
    Transcript pc B (negotiatedMTU w - 6) (wire w) 0 fs lines e
    /\ pending (snd (sendFirmware fuel B w))
       = pending w ++ afterLoop e (finalPending pc B (wire w ++ fs)).
Proof.
  intros Hpc Hmtu Hfuel.
  assert (Hps : 1 <= negotiatedMTU w - 6) by lia.
  assert (Hf : Z.of_nat (List.length B) - 0
               <= Z.of_nat fuel * (negotiatedMTU w - 6)) by nia.
  unfold sendFirmware. rewrite Hpc.
  unfold bind at 1. unfold get_negotiatedMTU.
  unfold bind at 1.
  destruct (appendToConsole_spec (sendingLine B (negotiatedMTU w)) w
              (blank_sendingLine B (negotiatedMTU w)))
    as (w1 & Ha & Hwire1 & _ & Hsame1).
  pose proof (Quiet_run _ _ _ _ (Quiet_appendToConsole _) Ha) as Hp1.
  unfold sendingLine in Ha. rewrite Ha.
  unfold bind at 1.
  destruct (console_spec Log
              ("DATA_PAYLOAD_SIZE: " ++ num (negotiatedMTU w - DATA_HEADER_SIZE)
               ++ " Bytes") w1)
    as (w2 & Hc & Hwire2 & _ & Hsame2).
  pose proof (Quiet_run _ _ _ _ (Quiet_console _ _) Hc) as Hp2.
  rewrite Hc. unfold bind at 1.
  change (negotiatedMTU w - DATA_HEADER_SIZE) with (negotiatedMTU w - 6).
  destruct (sendFirmware_loop_spec pc B (negotiatedMTU w - 6) Hps fuel 0 w2
              ltac:(lia) Hf)
    as (e & fs & lines & w3 & Hrun & Hwire3 & _ & Hsame3 & Ht).
  pose proof (Quiet_run _ _ _ _ (Quiet_sendFirmware_loop _ _ _ _ _ _) Hrun)
    as Hp3.
  rewrite Hrun.
  assert (Hw2 : wire w2 = wire w) by congruence.
  rewrite Hw2 in Ht, Hwire3.
  exists e, fs, lines. split; [exact Ht|].
  destruct e; cbn [afterLoop].
  - unfold bind at 1. unfold lift. rewrite programFrame_normal.
    assert (Hpc3 : programCharacteristic w3 = Some pc).
    { destruct Hsame1 as (E1 & _), Hsame2 as (E2 & _), Hsame3 as (E3 & _).
      congruence. }
    destruct (finalize_spec pc B w3 Hpc3) as (w4 & Hfin & _ & _ & _ & Hp4).
    rewrite Hfin. cbn [snd]. rewrite Hp4, Hwire3, Hp3, Hp2, Hp1.
    reflexivity.
  - change (pending w3 = pending w ++ []).
    rewrite app_nil_r, Hp3, Hp2, Hp1. reflexivity.
Qed.

(** X15. On a channel that accepts every write (negotiated MTU at least 7,
    nothing left waiting beforehand) a deployment has, when [sendFirmware]
    returns, put on the page console exactly: the announcement, one
    "Send [D]ata Ok" line per chunk with its offset and size, in order, then
    "Send [P]rogram Complete".  The line "Send re[L]oad Complete" is not
    there yet: it follows once the reload that was started and not awaited
    goes on. *)
Theorem deployment_console_lines (pc : Characteristic) (B : list byte)
    (fuel : nat) (w : World) :
  programCharacteristic w = Some pc ->
  7 <= negotiatedMTU w ->
  (List.length B <= fuel)%nat ->
  reliable pc ->
  pending w = [] ->
  let len := Z.of_nat (List.length B) in
  let ps := negotiatedMTU w - 6 in
  let returned := snd (sendFirmware fuel B w) in
  let shown :=
    consoleOutput w
    ++ [("Sending bytecode: slot=2, length=" ++ num len
         ++ "bytes, CRC16=" ++ hex (crc16_reflect 0xd175 0xffff B)
         ++ ", MTU=" ++ num (negotiatedMTU w))%string]
    ++ map (fun i : nat =>
              ("Send [D]ata Ok: Offset=" ++ num (Z.of_nat i * ps)
               ++ ", Size=" ++ num (Z.min ps (len - Z.of_nat i * ps)))%string)
           (seq 0 (Z.to_nat (ceilDiv len ps)))
    ++ ["Send [P]rogram Complete"%string] in
  consoleOutput returned = shown
  /\ pending returned = [Normal tt]
  /\ consoleOutput (snd (settle returned))
     = shown ++ ["Send re[L]oad Complete"%string]
  /\ wire (snd (settle returned)) = wire returned
  /\ pending (snd (settle returned)) = [].
Proof.
  intros Hpc Hmtu Hfuel Hrel Hpend len ps returned shown.
  assert (Hshown : consoleOutput returned = shown).
  { destruct (sendFirmware_run pc B fuel w Hpc Hmtu Hfuel)
      as (e & l & lines & Ht & _ & _ & _ & _ & Hcon).
    fold ps in Ht.
    assert (Hps : 1 <= ps) by (subst ps; lia).
    pose proof (Transcript_reliable pc B ps _ _ _ _ _ Ht Hrel) as He.
    subst returned shown. rewrite Hcon. f_equal. cbn [app]. f_equal.
    f_equal.
    - rewrite (Transcript_lines_completed pc B ps _ _ _ _ _ Ht He).
      destruct (Transcript_completed pc B ps _ _ _ _ _ Ht He) as (_ & Hge & _).
      pose proof (Transcript_length_le pc B ps Hps _ _ _ _ _ Ht ltac:(lia))
        as Hle.
      fold len in Hge, Hle.
      assert (Hn : Z.of_nat (List.length l) = ceilDiv len ps).
      { apply (complete_count len ps _ (Z.of_nat (List.length l)) Hps);
          try lia.
        destruct Hle as [->|Hle]; [now left|right; lia]. }
      rewrite <- Hn, Nat2Z.id. fold len.
      apply map_ext. intros i. rewrite Z.add_0_l. reflexivity.
    - subst e. cbn [afterLoop]. unfold finalLines, programAttempt.
      cbn [att_ok]. rewrite !Hrel. reflexivity. }
  assert (Hwait : pending returned = [Normal tt]).
  { destruct (sendFirmware_pending pc B fuel w Hpc Hmtu Hfuel)
      as (e & l & lines & Ht & Hp).
    pose proof (Transcript_reliable pc B _ _ _ _ _ _ Ht Hrel) as He.
    subst e. subst returned. rewrite Hp, Hpend. cbn [afterLoop app].
    unfold finalPending, programAttempt, reloadAttempt. cbn [att_ok].
    rewrite !Hrel. reflexivity. }
  split; [exact Hshown|]. split; [exact Hwait|].
  unfold settle. rewrite Hwait. cbn [resume].
  unfold sendReload_resume, try_catch, bind, lift, ret.
  unfold appendToConsole.
  change (blank "Send re[L]oad Complete") with false. cbv iota.
  cbn [snd consoleOutput wire pending].
  rewrite Hshown. repeat split.
Qed.

Lemma deployment_console_lines_witness :
  let returned :=
    snd (sendFirmware 5 sampleFirmware (session steadyChannel 8)) in
  consoleOutput returned
  = ["Sending bytecode: slot=2, length=5bytes, CRC16=3b40, MTU=8";
     "Send [D]ata Ok: Offset=0, Size=2";
     "Send [D]ata Ok: Offset=2, Size=2";
     "Send [D]ata Ok: Offset=4, Size=1";
     "Send [P]rogram Complete"]%string
  /\ consoleOutput (snd (settle returned))
     = ["Sending bytecode: slot=2, length=5bytes, CRC16=3b40, MTU=8";
        "Send [D]ata Ok: Offset=0, Size=2";
        "Send [D]ata Ok: Offset=2, Size=2";
        "Send [D]ata Ok: Offset=4, Size=1";
        "Send [P]rogram Complete";
        "Send re[L]oad Complete"]%string.
Proof.
  cbv zeta.
  destruct (deployment_console_lines steadyChannel sampleFirmware 5
              (session steadyChannel 8) eq_refl)
    as (Hret & _ & Hlater & _).
  - cbn. lia.
  - apply le_n.
  - intros h k d. reflexivity.
  - reflexivity.
  - cbv zeta in Hret, Hlater. rewrite Hret, Hlater.
    split; vm_compute; reflexivity.
Defined.

(** X16. [crc16_reflect] does not check its parameters, but whatever integers
    are passed as polynomial and seed its result is a 16-bit value, and on
    the empty buffer it is the low 16 bits of the seed. *)
Theorem crc16_reflect_masks_result (poly seed : Z) (src : list byte) :
  0 <= crc16_reflect poly seed src <= 65535
  /\ crc16_reflect poly seed [] = seed mod 65536.
Proof.
  pose proof (crc16_reflect_range poly seed src).
  split; [lia|apply crc16_reflect_empty].
Qed.
